(** * A shallow embedding of the image duplicate service

    The development follows [app/db.py] (the [VectorDB] class: FAISS index,
    vector list, request map, image names) and [app/api.py] (the
    [/images] and [/duplicates/{request_id}] handlers).

    Python integers are [Z], Python strings are [string], [bytes] are
    lists of [byte], the request map is a [gmap string (Z * Z)], the
    [set()] of duplicate indices is a [gset Z], and the body of a request
    is a value of the type [json].  Code that raises is
    modelled in a state-and-exception monad: an exception leaves the state
    as it was when it was raised, as in Python.

    What the service imports (floats and their float32 rounding, the
    distance kernel of FAISS, the embedding model, base64 and the HTTP
    client) is the class [Externals]; numpy arrays and the flat FAISS index
    are modelled as far as the service uses them. *)

From Stdlib Require Import ZArith Ascii String DecimalString DecimalZ DecimalPos Lia.
From Stdlib.Strings Require Import Byte.
From stdpp Require Import base tactics option list gmap strings sorting.

Local Open Scope string_scope.
Local Open Scope Z_scope.

(** ** Exceptions and results *)

(** The exception classes that the modelled code raises or catches.  All of
    them derive from Python's [Exception]; [RequestException] is the base
    class of the errors of the [requests] library. *)
Inductive exn : Type :=
| ValueError (msg : string)
| IndexError (msg : string)
| TypeError (msg : string)
| KeyError (key : string)
| AssertionError
| IOError (msg : string)
| RequestException (msg : string)
| HTTPException (status_code : Z) (detail : string)
| OtherException (msg : string).

Inductive result (A : Type) : Type :=
| Ok (a : A)
| Raise (e : exn).
Arguments Ok {A} a.
Arguments Raise {A} e.

Definition is_RequestException (e : exn) : bool :=
  match e with RequestException _ => true | _ => false end.

(** ** Python integers and strings *)

Module Py.

(** [str(i)] for an [int]. *)
Definition str_int (i : Z) : string := NilZero.string_of_int (Z.to_int i).

(** [int(s)] on a decimal literal; [ValueError] otherwise. *)
Definition int_of_str (s : string) : result Z :=
  match NilZero.int_of_string s with
  | Some d => Ok (Z.of_int d)
  | None => Raise (ValueError ("invalid literal for int() with base 10: " +:+ s))
  end.

(** [s.split(sep)] for a one-character separator. *)
Fixpoint split (sep : ascii) (s : string) : list string :=
  match s with
  | EmptyString => [EmptyString]
  | String c s' =>
      if Ascii.eqb c sep then EmptyString :: split sep s'
      else match split sep s' with
           | [] => [String c EmptyString]
           | w :: ws => String c w :: ws
           end
  end.

(** [len(l)]. *)
Definition len {A} (l : list A) : Z := Z.of_nat (length l).

(** [l[i]]: a negative index counts from the end, an index out of range
    raises [IndexError]. *)
Definition getitem {A} (l : list A) (i : Z) : result A :=
  let j := if i <? 0 then i + len l else i in
  if (0 <=? j) && (j <? len l) then
    match l !! Z.to_nat j with
    | Some x => Ok x
    | None => Raise (IndexError "list index out of range")
    end
  else Raise (IndexError "list index out of range").

(** [l[start:stop]]: negative bounds count from the end and both are
    clamped to [0, len(l)]. *)
Definition clamp (n i : Z) : Z :=
  let j := if i <? 0 then i + n else i in
  Z.max 0 (Z.min n j).

Definition slice {A} (l : list A) (start stop : Z) : list A :=
  let a := clamp (len l) start in
  let b := clamp (len l) stop in
  take (Z.to_nat (b - a)) (drop (Z.to_nat a) l).

(** [range(a, b)]. *)
Definition range (a b : Z) : list Z :=
  (fun i => a + Z.of_nat i) <$> seq 0 (Z.to_nat (b - a)).

(** An insertion-ordered [dict] with string keys, as an association list:
    [d[k] = v] replaces the value of an existing key in place and appends a
    new key at the end. *)
Fixpoint dict_set {V} (d : list (string * V)) (k : string) (v : V) : list (string * V) :=
  match d with
  | [] => [(k, v)]
  | (k', v') :: d' =>
      if String.eqb k' k then (k, v) :: d' else (k', v') :: dict_set d' k v
  end.

(** [d[k]] and [list(d)] for such a dict, and the dict built by inserting
    pairs one after the other (a key that comes again keeps its place and
    takes the later value). *)
Definition dict_get {V} (d : list (string * V)) (k : string) : option V :=
  snd <$> List.find (fun kv => String.eqb (fst kv) k) d.

Definition dict_keys {V} (d : list (string * V)) : list string := fst <$> d.

Definition dict_of_pairs {V} (pairs : list (string * V)) : list (string * V) :=
  foldl (fun d kv => dict_set d (fst kv) (snd kv)) [] pairs.

(** [sub in s] for two strings. *)
Fixpoint contains_str (sub s : string) : bool :=
  String.prefix sub s ||
  match s with
  | EmptyString => false
  | String _ s' => contains_str sub s'
  end.

(** Whether a string is free of underscores, as decimal literals are. *)
Fixpoint no_underscore (s : string) : bool :=
  match s with
  | EmptyString => true
  | String c s' => negb (Ascii.eqb c "_") && no_underscore s'
  end.

End Py.

(** ** The state-and-exception monad *)

Definition M (S A : Type) : Type := S -> result A * S.

Definition ret {S A} (a : A) : M S A := fun s => (Ok a, s).
Definition raise {S A} (e : exn) : M S A := fun s => (Raise e, s).
Definition bind {S A B} (m : M S A) (k : A -> M S B) : M S B :=
  fun s => match m s with
           | (Ok a, s') => k a s'
           | (Raise e, s') => (Raise e, s')
           end.
Definition get {S} : M S S := fun s => (Ok s, s).
Definition put {S} (s : S) : M S unit := fun _ => (Ok tt, s).
Definition modify {S} (f : S -> S) : M S unit := fun s => (Ok tt, f s).
Definition lift_result {S A} (r : result A) : M S A := fun s => (r, s).

(** [try: m  except E as e: h e], where [handles] tells which exceptions
    the clause catches. *)
Definition try_except {S A} (m : M S A) (handles : exn -> bool) (h : exn -> M S A) : M S A :=
  fun s => match m s with
           | (Ok a, s') => (Ok a, s')
           | (Raise e, s') => if handles e then h e s' else (Raise e, s')
           end.

Declare Scope monad_scope.
Delimit Scope monad_scope with monad.
Notation "x <~ m ;; k" := (bind m (fun x => k))
  (at level 100, m at next level, right associativity) : monad_scope.
Notation "m ;;; k" := (bind m (fun _ => k))
  (at level 100, right associativity) : monad_scope.

(** A [for] loop that appends to a local list. *)
Fixpoint for_each {S A B} (xs : list A) (body : A -> M S B) (acc : list B) : M S (list B) :=
  match xs with
  | [] => ret acc
  | x :: xs' => bind (body x) (fun b => for_each xs' body (acc ++ [b]))
  end.

(** ** External collaborators

    What the service calls but does not define: the float type and the
    float32 conversion of numpy, the distance kernel and the sentinel of
    FAISS, the embedding model, base64 decoding, the HTTP client and the
    texts Python prints for values and exceptions. *)

Definition bytes : Type := list byte.

(** The response object of [requests.get]. *)
Record Response : Type := {
  response_status_code : Z;
  response_content : bytes
}.

(** The Python values that [json.loads] builds from a JSON text: [None],
    booleans, integers, floats (of the type [F]), strings, lists, and
    dicts, given by the members of the JSON object in the order of the
    text. *)
#[warnings="-register-all"] Inductive json (F : Type) : Type :=
| JNone
| JBool (b : bool)
| JInt (n : Z)
| JFloat (x : F)
| JStr (s : string)
| JList (items : list (json F))
| JDict (members : list (string * json F)).
Arguments JNone {F}.
Arguments JBool {F} b.
Arguments JInt {F} n.
Arguments JFloat {F} x.
Arguments JStr {F} s.
Arguments JList {F} items.
Arguments JDict {F} members.

Class Externals : Type := {
  (** Python's [float]. *)
  float : Type;
  (** [bool(x)] for a float: whether it is not zero. *)
  float_bool : float -> bool;
  (** Rounding to [float32], as [np.array(..., dtype='float32')] does. *)
  astype_float32 : float -> float;
  (** The squared Euclidean distance FAISS computes between two rows. *)
  fvec_L2sqr : list float -> list float -> float;
  (** The distance FAISS reports in a slot it could not fill. *)
  FLT_MAX : float;
  (** [<] on distances, used when FAISS ranks the hits. *)
  float_ltb : float -> float -> bool;
  (** Python's [<=] on floats. *)
  float_leb : float -> float -> bool;
  (** [app.models.image_model.image_to_vector]. *)
  image_to_vector : bytes -> result (list float);
  (** [base64.b64decode(v)], for a value [v] taken from the JSON body. *)
  b64decode : json float -> result bytes;
  (** [requests.get(v, timeout=10)], for a value [v] taken from the JSON
      body. *)
  requests_get : json float -> result Response;
  (** [repr(v)] for a value of a JSON body. *)
  repr : json float -> string;
  (** [str(e)] for the web framework's [HTTPException(status_code, detail)]. *)
  str_HTTPException : Z -> string -> string
}.

(** A hit of a search is a pair of a corpus index and a distance. *)
Abbreviation hit := (Z * float)%type.

(** A value of a JSON body. *)
Abbreviation value := (json float).

Section Service.
Context `{Ext : Externals}.

(** [str(e)] for an exception: its message. *)
Definition str_exn (e : exn) : string :=
  match e with
  | ValueError m | IndexError m | TypeError m | IOError m | RequestException m
  | OtherException m => m
  | KeyError k => repr (JStr k)
  | AssertionError => ""
  | HTTPException c d => str_HTTPException c d
  end.

(** ** numpy arrays, as far as the service uses them *)

Record ndarray : Type := {
  shape : list Z;
  rows : list (list float)
}.

Definition ndim (a : ndarray) : Z := Py.len (shape a).

(** A row converted to [float32]. *)
Definition to_float32 (v : list float) : list float := astype_float32 <$> v.

(** [np.array(vectors, dtype='float32')] on a list of lists of floats: the
    empty list gives a one-dimensional array of shape (0,), rows of one
    common length L give shape (n, L), and rows of different lengths are
    refused with a [ValueError]. *)
Definition np_array (vs : list (list float)) : result ndarray :=
  match vs with
  | [] => Ok {| shape := [0]; rows := [] |}
  | v :: vs' =>
      if forallb (fun w => Nat.eqb (length w) (length v)) vs' then
        Ok {| shape := [Py.len vs; Py.len v];
              rows := to_float32 <$> vs |}
      else
        Raise (ValueError "setting an array element with a sequence. The requested array has an inhomogeneous shape after 1 dimensions.")
  end.

(** ** [faiss.IndexFlatL2]

    FAISS is a library the service imports.  The model follows what the
    library does for the flat L2 index: [add] appends rows; [search]
    computes the squared distance of every query row to every stored row
    and collects, per query row, the [k] closest in a result list whose
    [k] slots start out as the pair of the label [-1] and the distance
    [FLT_MAX].  A stored row enters the list only with a distance that
    is less than [FLT_MAX], so a row at an infinite or undefined (NaN)
    distance is never a hit; the hits come in ascending order of distance,
    and the slots that no hit has taken keep [(-1, FLT_MAX)]. *)

Record IndexFlatL2 : Type := {
  d : Z;
  xb : list (list float)
}.

Definition faiss_IndexFlatL2 (dim : Z) : IndexFlatL2 := {| d := dim; xb := [] |}.

Definition ntotal (ix : IndexFlatL2) : Z := Py.len (xb ix).

(** [index.add(x)]: the wrapper unpacks [n, d = x.shape], asserts
    [d == self.d] and appends the rows. *)
Definition faiss_add (ix : IndexFlatL2) (x : ndarray) : result IndexFlatL2 :=
  match shape x with
  | [_; d'] =>
      if d' =? d ix then Ok {| d := d ix; xb := xb ix ++ rows x |}
      else Raise AssertionError
  | _ => Raise (ValueError "not enough values to unpack (expected 2)")
  end.

Definition faiss_reset (ix : IndexFlatL2) : IndexFlatL2 := {| d := d ix; xb := [] |}.

(** Hits are ranked by distance, ascending; among equal distances the
    lower index comes first. *)
Fixpoint insert_hit (h : hit) (l : list hit) : list hit :=
  match l with
  | [] => [h]
  | h' :: l' =>
      if float_ltb (snd h') (snd h) then h' :: insert_hit h l' else h :: l
  end.

Definition rank_hits (l : list hit) : list hit := foldr insert_hit [] l.

(** All distances from a query row to the stored rows, in index order. *)
Definition all_hits (ix : IndexFlatL2) (q : list float) : list hit :=
  imap (fun j x => (Z.of_nat j, fvec_L2sqr q x)) (xb ix).

(** The stored rows that can enter a result list: those whose distance to
    the query row is less than [FLT_MAX]. *)
Definition kept_hits (ix : IndexFlatL2) (q : list float) : list hit :=
  List.filter (fun h : hit => float_ltb (snd h) FLT_MAX) (all_hits ix q).

(** One row of a search result: the [k] best of the hits that can enter,
    and [(-1, FLT_MAX)] in every slot that is left. *)
Definition search_row (ix : IndexFlatL2) (q : list float) (k : nat) : list hit :=
  let best := take k (rank_hits (kept_hits ix q)) in
  best ++ replicate (k - length best) (-1, FLT_MAX).

(** [index.search(x, k)]: the wrapper unpacks [n, d = x.shape], asserts
    [d == self.d] and [k > 0], and returns the arrays of distances and of
    labels, both of shape (n, k).  The two arrays are taken to fit in
    memory: that numpy cannot allocate them for a huge [k] is left out. *)
Definition faiss_search (ix : IndexFlatL2) (x : ndarray) (k : Z)
  : result (list (list float) * list (list Z)) :=
  match shape x with
  | [_; d'] =>
      if d' =? d ix then
        if 0 <? k then
          let res := (fun q => search_row ix q (Z.to_nat k)) <$> rows x in
          Ok ((fun row : list hit => row.*2) <$> res, (fun row : list hit => row.*1) <$> res)
        else Raise AssertionError
      else Raise AssertionError
  | _ => Raise (ValueError "not enough values to unpack (expected 2)")
  end.

(** ** [app/db.py]: the [VectorDB] class *)

Record VectorDB : Type := {
  dim : Z;
  index : IndexFlatL2;
  vectors : list (list float);
  request_map : gmap string (Z * Z);
  image_names : list string
}.

(** [VectorDB.__init__] *)
Definition VectorDB_init (dim : Z) : VectorDB := {|
  dim := dim;
  index := faiss_IndexFlatL2 dim;
  vectors := [];
  request_map := ∅;
  image_names := []
|}.

Definition set_index (ix : IndexFlatL2) (self : VectorDB) : VectorDB :=
  {| dim := dim self; index := ix; vectors := vectors self;
     request_map := request_map self; image_names := image_names self |}.
Definition set_vectors (vs : list (list float)) (self : VectorDB) : VectorDB :=
  {| dim := dim self; index := index self; vectors := vs;
     request_map := request_map self; image_names := image_names self |}.
Definition set_request_map (m : gmap string (Z * Z)) (self : VectorDB) : VectorDB :=
  {| dim := dim self; index := index self; vectors := vectors self;
     request_map := m; image_names := image_names self |}.
Definition set_image_names (ns : list string) (self : VectorDB) : VectorDB :=
  {| dim := dim self; index := index self; vectors := vectors self;
     request_map := request_map self; image_names := ns |}.

Local Open Scope monad_scope.

(** [f"image_{i}"] *)
Definition image_name (i : Z) : string := "image_" +:+ Py.str_int i.

(** [VectorDB.add_vectors] *)
Definition add_vectors (request_id : string) (vecs : list (list float)) : M VectorDB unit :=
  vectors_np <~ lift_result (np_array vecs) ;;
  self <~ get ;;
  mismatch <~ (if negb (ndim vectors_np =? 2) then ret true
               else s1 <~ lift_result (Py.getitem (shape vectors_np) 1) ;;
                    ret (negb (s1 =? dim self))) ;;
  if (mismatch : bool) then
    s1 <~ lift_result (Py.getitem (shape vectors_np) 1) ;;
    raise (ValueError ("Expected vector dimension " +:+ Py.str_int (dim self)
                       +:+ ", but got " +:+ Py.str_int s1))
  else
    index' <~ lift_result (faiss_add (index self) vectors_np) ;;
    modify (set_index index') ;;;
    self <~ get ;;
    let start_index := Py.len (vectors self) in
    let end_index := start_index + Py.len vecs in
    let new_image_names := image_name <$> Py.range (start_index + 1) (end_index + 1) in
    modify (fun self => set_image_names (image_names self ++ new_image_names) self) ;;;
    modify (fun self => set_request_map (<[request_id := (start_index, end_index)]> (request_map self)) self) ;;;
    modify (fun self => set_vectors (vectors self ++ vecs) self).

(** The per-vector entry of the dictionary [search_duplicates] returns. *)
Record Neighbours : Type := {
  indices : list Z;
  distances : list float
}.

(** The loop that fills [duplicates], from [enumerate(zip(distances, indices))]. *)
Fixpoint fill_duplicates (i : Z) (zipped : list (list float * list Z))
    (duplicates : list (string * Neighbours)) : list (string * Neighbours) :=
  match zipped with
  | [] => duplicates
  | (dist, ind) :: rest =>
      fill_duplicates (i + 1) rest
        (Py.dict_set duplicates ("vector_" +:+ Py.str_int i)
           {| indices := ind; distances := dist |})
  end.

(** [VectorDB.search_duplicates] *)
Definition search_duplicates (request_id : string) (k : Z)
  : M VectorDB (list (string * Neighbours)) :=
  self <~ get ;;
  match request_map self !! request_id with
  | None => raise (ValueError "Request ID not found")
  | Some (start_index, end_index) =>
      query_vectors <~ lift_result (np_array (Py.slice (vectors self) start_index end_index)) ;;
      res <~ lift_result (faiss_search (index self) query_vectors k) ;;
      let '(distances, indices) := res in
      ret (fill_duplicates 0 (zip distances indices) [])
  end.

(** [VectorDB.get_image_name] *)
Definition get_image_name (index : Z) : M VectorDB (option string) :=
  self <~ get ;;
  if (0 <=? index) && (index <? Py.len (image_names self)) then
    name <~ lift_result (Py.getitem (image_names self) index) ;;
    ret (Some name)
  else ret None.

(** [VectorDB.reset] *)
Definition reset : M VectorDB unit :=
  modify (fun self => set_index (faiss_reset (index self)) self) ;;;
  modify (set_vectors []) ;;;
  modify (set_request_map ∅) ;;;
  modify (set_image_names []).

(** ** [app/api.py] *)

(** What the handlers run against: the module-level [vector_db], and the
    images the embedding model has been called on so far (a ghost log that
    makes visible whether [image_to_vector] was attempted). *)
Record World : Type := {
  vector_db : VectorDB;
  embedded : list bytes
}.

(** A method call on the global [vector_db]. *)
Definition on_db {A} (m : M VectorDB A) : M World A :=
  fun w => match m (vector_db w) with
           | (r, db') => (r, {| vector_db := db'; embedded := embedded w |})
           end.

(** The call [image_to_vector(image_bytes)]. *)
Definition call_image_to_vector (image_bytes : bytes) : M World (list float) :=
  fun w => (image_to_vector image_bytes,
            {| vector_db := vector_db w; embedded := embedded w ++ [image_bytes] |}).

Definition any_Exception (e : exn) : bool := true.

(** [process_image] *)
Definition process_image (image_bytes : bytes) : M World (list float) :=
  if 10 * 1024 * 1024 <? Py.len image_bytes then
    raise (HTTPException 400 "Image size exceeds 10 MB")
  else
    try_except (call_image_to_vector image_bytes) any_Exception
      (fun e => raise (HTTPException 500 ("Error processing image: " +:+ str_exn e))).

(** An uploaded file of the multipart form. *)
Record UploadFile : Type := {
  file_content_type : option string;
  file_read : bytes
}.

(** *** The JSON body

    [request.json()] gives any JSON value, and the handler applies to it
    the truth test, [in], indexing by a string and iteration. *)

(** The name of the Python type of a value. *)
Definition type_name (v : value) : string :=
  match v with
  | JNone => "NoneType"
  | JBool _ => "bool"
  | JInt _ => "int"
  | JFloat _ => "float"
  | JStr _ => "str"
  | JList _ => "list"
  | JDict _ => "dict"
  end.

(** [str(v)], as an f-string formats a value. *)
Definition str_value (v : value) : string :=
  match v with
  | JStr s => s
  | _ => repr v
  end.

(** The truth value of [v], as in [if v]. *)
Definition truthy (v : value) : bool :=
  match v with
  | JNone => false
  | JBool b => b
  | JInt n => negb (n =? 0)
  | JFloat x => float_bool x
  | JStr s => match s with EmptyString => false | _ => true end
  | JList items => match items with [] => false | _ => true end
  | JDict members => match members with [] => false | _ => true end
  end.

(** [key in data] for a string [key]: a key of a dict, an element of a
    list, a substring of a string; the other values are no containers. *)
Definition contains (data : value) (key : string) : result bool :=
  match data with
  | JDict members =>
      Ok (match Py.dict_get (Py.dict_of_pairs members) key with
          | Some _ => true
          | None => false
          end)
  | JList items =>
      Ok (existsb (fun v => match v with JStr s => String.eqb s key | _ => false end) items)
  | JStr s => Ok (Py.contains_str key s)
  | _ => Raise (TypeError ("argument of type '" +:+ type_name data +:+ "' is not iterable"))
  end.

(** [data[key]] for a string [key]. *)
Definition subscript (data : value) (key : string) : result value :=
  match data with
  | JDict members =>
      match Py.dict_get (Py.dict_of_pairs members) key with
      | Some v => Ok v
      | None => Raise (KeyError key)
      end
  | JList _ => Raise (TypeError "list indices must be integers or slices, not str")
  | JStr _ => Raise (TypeError "string indices must be integers, not 'str'")
  | _ => Raise (TypeError ("'" +:+ type_name data +:+ "' object is not subscriptable"))
  end.

(** The values a [for] loop over [v] goes through: the elements of a
    list, the characters of a string, the keys of a dict; the other values
    cannot be iterated over. *)
Definition iterate (v : value) : result (list value) :=
  match v with
  | JList items => Ok items
  | JStr s => Ok ((fun c => JStr (String c EmptyString)) <$> list_ascii_of_string s)
  | JDict members => Ok (JStr <$> Py.dict_keys (Py.dict_of_pairs members))
  | _ => Raise (TypeError ("'" +:+ type_name v +:+ "' object is not iterable"))
  end.

(** What the statement [if data and key in data: for x in data[key]: ...]
    loops over: nothing when the condition is false, the values of
    [data[key]] otherwise.  The test [key in data], the indexing and the
    start of the iteration can raise; they are outside every [try]. *)
Definition loop_items (data : value) (key : string) : result (list value) :=
  if truthy data then
    match contains data key with
    | Ok true =>
        match subscript data key with
        | Ok v => iterate v
        | Raise e => Raise e
        end
    | Ok false => Ok []
    | Raise e => Raise e
    end
  else Ok [].

(** The request: its [Content-Type] header and what [request.json()]
    gives or raises. *)
Record Request : Type := {
  header_content_type : option string;
  request_json : result value
}.

Record AddImagesResponse : Type := {
  resp_request_id : string;
  added_images : Z;
  system_image_names : list string
}.

Definition str_option (o : option string) : string :=
  match o with Some s => s | None => "None" end.

Definition allowed_file_type (o : option string) : bool :=
  match o with
  | Some s => String.eqb s "image/jpeg" || String.eqb s "image/png"
  | None => false
  end.

(** The body of the loop over the uploaded files. *)
Definition add_file (file : UploadFile) : M World (list float) :=
  if negb (allowed_file_type (file_content_type file)) then
    raise (HTTPException 400 ("Unsupported file type: " +:+ str_option (file_content_type file)))
  else
    let image_bytes := file_read file in
    process_image image_bytes.

(** The body of the loop over [data["base64_images"]]. *)
Definition add_base64 (image_b64 : value) : M World (list float) :=
  try_except
    (image_bytes <~ lift_result (b64decode image_b64) ;;
     process_image image_bytes)
    any_Exception
    (fun e => raise (HTTPException 500 ("Error processing Base64 image: " +:+ str_exn e))).

(** The body of the loop over [data["image_urls"]]. *)
Definition add_url (image_url : value) : M World (list float) :=
  try_except
    (response <~ lift_result (requests_get image_url) ;;
     if negb (response_status_code response =? 200) then
       raise (HTTPException 400 ("Failed to download image from URL: " +:+ str_value image_url
                                 +:+ " (Status code: "
                                 +:+ Py.str_int (response_status_code response) +:+ ")"))
     else
       let image_bytes := response_content response in
       match image_bytes with
       | [] => raise (HTTPException 400 ("Downloaded image is empty from URL: "
                                         +:+ str_value image_url))
       | _ => process_image image_bytes
       end)
    is_RequestException
    (fun e => raise (HTTPException 500 ("Error processing image from URL: " +:+ str_exn e))).

(** [add_images]; [request_id] is the [str(uuid.uuid4())] drawn at its
    start, and [data] is [None] when the body is not read. *)
Definition add_images (request_id : string) (request : Request)
    (files : option (list UploadFile)) : M World AddImagesResponse :=
  let vectors0 : list (list float) := [] in
  let data : value :=
    match header_content_type request with
    | Some ct =>
        if String.eqb ct "application/json" then
          match request_json request with
          | Ok data => data
          | Raise _ => JNone
          end
        else JNone
    | None => JNone
    end in
  vectors1 <~ match files with
              | Some fs => for_each fs add_file vectors0
              | None => ret vectors0
              end ;;
  base64_images <~ lift_result (loop_items data "base64_images") ;;
  vectors2 <~ for_each base64_images add_base64 vectors1 ;;
  image_urls <~ lift_result (loop_items data "image_urls") ;;
  vectors3 <~ for_each image_urls add_url vectors2 ;;
  match vectors3 with
  | [] => raise (HTTPException 400 "No valid images provided")
  | _ =>
      on_db (add_vectors request_id vectors3) ;;;
      w <~ get ;;
      let start_index := Py.len (vectors (vector_db w)) - Py.len vectors3 in
      let end_index := Py.len (vectors (vector_db w)) in
      let image_names := image_name <$> Py.range (start_index + 1) (end_index + 1) in
      ret {| resp_request_id := request_id;
             added_images := Py.len vectors3;
             system_image_names := image_names |}
  end.

(** The three loops of [add_images] that collect the vectors: they may
    call the embedding model, but they leave the store alone. *)
Definition collect_vectors (request : Request) (files : option (list UploadFile))
  : M World (list (list float)) :=
  let data : value :=
    match header_content_type request with
    | Some ct =>
        if String.eqb ct "application/json" then
          match request_json request with
          | Ok data => data
          | Raise _ => JNone
          end
        else JNone
    | None => JNone
    end in
  bind (match files with
        | Some fs => for_each fs add_file []
        | None => ret []
        end)
    (fun vectors1 =>
       bind (lift_result (loop_items data "base64_images"))
         (fun base64_images =>
            bind (for_each base64_images add_base64 vectors1)
              (fun vectors2 =>
                 bind (lift_result (loop_items data "image_urls"))
                   (fun image_urls => for_each image_urls add_url vectors2)))).

(** The inner loop of [find_duplicates], over [range(len(indices))]. *)
Fixpoint scan_hits {S} (is_ : list Z) (indices : list Z) (distances : list float)
    (current_index : Z) (threshold : float) (all_duplicates : gset Z) : M S (gset Z) :=
  match is_ with
  | [] => ret all_duplicates
  | i :: rest =>
      ji <~ lift_result (Py.getitem indices i) ;;
      keep <~ (if negb (ji =? current_index) then
                 di <~ lift_result (Py.getitem distances i) ;;
                 ret (float_leb di threshold)
               else ret false) ;;
      if (keep : bool) then
        ji' <~ lift_result (Py.getitem indices i) ;;
        scan_hits rest indices distances current_index threshold (all_duplicates ∪ {[ji']})
      else
        scan_hits rest indices distances current_index threshold all_duplicates
  end.

(** The outer loop of [find_duplicates], over [duplicates_indices.items()]. *)
Fixpoint scan_duplicates {S} (items : list (string * Neighbours)) (start_index : Z)
    (threshold : float) (all_duplicates : gset Z) : M S (gset Z) :=
  match items with
  | [] => ret all_duplicates
  | (vector_key, results) :: rest =>
      let indices := indices results in
      let distances := distances results in
      part <~ lift_result (Py.getitem (Py.split "_" vector_key) 1) ;;
      current_vector_number <~ lift_result (Py.int_of_str part) ;;
      let current_index := start_index + current_vector_number in
      all_duplicates' <~ scan_hits (Py.range 0 (Py.len indices)) indices distances
                           current_index threshold all_duplicates ;;
      scan_duplicates rest start_index threshold all_duplicates'
  end.

Inductive DuplicatesResponse : Type :=
| NoDuplicatesFound
| Duplicates (request_id : string) (duplicates : list (option string)).

(** The list comprehension [[vector_db.get_image_name(idx) for idx in ...]]. *)
Fixpoint image_names_of (idxs : list Z) : M World (list (option string)) :=
  match idxs with
  | [] => ret []
  | idx :: rest =>
      name <~ on_db (get_image_name idx) ;;
      names <~ image_names_of rest ;;
      ret (name :: names)
  end.

(** The set [all_duplicates] that [find_duplicates] builds, before it is
    turned into names. *)
Definition duplicate_set (request_id : string) (threshold : float) (k : Z)
  : M World (gset Z) :=
  w <~ get ;;
  match request_map (vector_db w) !! request_id with
  | None => raise (HTTPException 404 "Request ID not found")
  | Some (start_index, _) =>
      duplicates_indices <~
        try_except (on_db (search_duplicates request_id k)) any_Exception
          (fun e => raise (HTTPException 500 ("Error during search: " +:+ str_exn e))) ;;
      scan_duplicates duplicates_indices start_index threshold ∅
  end.

(** [find_duplicates].  The order in which Python iterates over the set
    is left out: the names are listed in the order of [elements], and what
    the model tells about the list is which names are in it. *)
Definition find_duplicates (request_id : string) (threshold : float) (k : Z)
  : M World DuplicatesResponse :=
  all_duplicates <~ duplicate_set request_id threshold k ;;
  if decide (all_duplicates = ∅) then ret NoDuplicatesFound
  else
    duplicate_image_names <~ image_names_of (elements all_duplicates) ;;
    ret (Duplicates request_id duplicate_image_names).

(** ** Properties of the store used in the statements *)

(** The request map's invariant: every record is a range of the corpus. *)
Definition ranges_valid (db : VectorDB) : Prop :=
  map_Forall (fun (_ : string) (r : Z * Z) => 0 <= r.1 /\ r.1 <= r.2 /\ r.2 <= Py.len (vectors db))
    (request_map db).

(** What holds of every store built from [VectorDB_init] by the methods:
    the index and the vector list hold the same rows (the index in
    float32), every row has the store's dimension, the names are
    [image_1 .. image_N], and every registered range is a non-empty range
    of the corpus. *)
Record wf (db : VectorDB) : Prop := {
  wf_d : d (index db) = dim db;
  wf_xb : xb (index db) = (to_float32 <$> vectors db);
  wf_rows : Forall (fun v => Py.len v = dim db) (vectors db);
  wf_names : image_names db = image_name <$> Py.range 1 (Py.len (vectors db) + 1);
  wf_ranges :
    map_Forall (fun (_ : string) (r : Z * Z) => 0 <= r.1 /\ r.1 < r.2 /\ r.2 <= Py.len (vectors db))
      (request_map db)
}.

(** The stores the methods can produce from [VectorDB_init]. *)
Inductive reachable (D : Z) : VectorDB -> Prop :=
| reach_init : reachable D (VectorDB_init D)
| reach_add db request_id vecs :
    reachable D db -> reachable D (snd (add_vectors request_id vecs db))
| reach_search db request_id k :
    reachable D db -> reachable D (snd (search_duplicates request_id k db))
| reach_name db i :
    reachable D db -> reachable D (snd (get_image_name i db))
| reach_reset db :
    reachable D db -> reachable D (snd (reset db)).

(** The store a successful [add_vectors] leaves behind. *)
Definition added (request_id : string) (vecs : list (list float)) (db : VectorDB) : VectorDB :=
  let start_index := Py.len (vectors db) in
  let end_index := start_index + Py.len vecs in
  {| dim := dim db;
     index := {| d := d (index db);
                 xb := xb (index db) ++ (to_float32 <$> vecs) |};
     vectors := vectors db ++ vecs;
     request_map := <[request_id := (start_index, end_index)]> (request_map db);
     image_names := image_names db ++ (image_name <$> Py.range (start_index + 1) (end_index + 1)) |}.

(** The query row of corpus index [i], as [search_duplicates] hands it to
    the index. *)
Definition query_row (db : VectorDB) (i : Z) : list float :=
  match vectors db !! Z.to_nat i with
  | Some v => to_float32 v
  | None => []
  end.

(** The hits of the nearest-neighbour query for corpus index [i]. *)
Definition nearest_neighbours (db : VectorDB) (i k : Z) : list hit :=
  search_row (index db) (query_row db i) (Z.to_nat k).

(** The dictionary entry of a row of hits, and the dictionary
    [search_duplicates] builds from the rows of the search result, keyed
    ["vector_i"], ["vector_i+1"], ... *)
Definition neighbours_of (row : list hit) : Neighbours :=
  {| indices := row.*1; distances := row.*2 |}.

Fixpoint duplicates_from (i : Z) (rows : list (list hit)) : list (string * Neighbours) :=
  match rows with
  | [] => []
  | row :: rest => ("vector_" +:+ Py.str_int i, neighbours_of row) :: duplicates_from (i + 1) rest
  end.

(** The distance between the stored vectors at [i] and [j]. *)
Definition distance (db : VectorDB) (i j : Z) : float :=
  fvec_L2sqr (query_row db i) (query_row db j).

(** The exceptions the handlers answer with. *)
Definition is_http_400_or_500 (e : exn) : Prop :=
  exists detail, e = HTTPException 400 detail \/ e = HTTPException 500 detail.


(** The ranges of two different tokens do not overlap. *)
Definition ranges_disjoint (db : VectorDB) : Prop :=
  forall (t1 t2 : string) (r1 r2 : Z * Z),
    t1 <> t2 -> request_map db !! t1 = Some r1 -> request_map db !! t2 = Some r2 ->
    r1.2 <= r2.1 \/ r2.2 <= r1.1.

(** The variable [data] of [add_images]: the JSON body when the request
    says it has one and it can be read, [None] otherwise. *)
Definition request_data (request : Request) : value :=
  match header_content_type request with
  | Some ct =>
      if String.eqb ct "application/json" then
        match request_json request with
        | Ok data => data
        | Raise _ => JNone
        end
      else JNone
  | None => JNone
  end.

(** What the loops over the base64 images and over the URLs go through,
    or the exception that reading them from the body raises. *)
Definition base64_items (request : Request) : result (list value) :=
  loop_items (request_data request) "base64_images".

Definition url_items (request : Request) : result (list value) :=
  loop_items (request_data request) "image_urls".

(** The lists of images [add_images] loops over. *)
Definition submitted_files (files : option (list UploadFile)) : list UploadFile :=
  match files with Some fs => fs | None => [] end.

Definition submitted_base64 (request : Request) : list value :=
  match base64_items request with Ok images => images | Raise _ => [] end.

Definition submitted_urls (request : Request) : list value :=
  match url_items request with Ok urls => urls | Raise _ => [] end.

(** The values that cannot be iterated over. *)
Definition not_iterable (v : value) : Prop :=
  match v with
  | JNone | JBool _ | JInt _ | JFloat _ => True
  | _ => False
  end.

(** What it takes for a submitted image to be embedded as the vector [v]:
    the checks of the loop it goes through pass and the embedding model
    returns [v]. *)
Definition embeds_file (file : UploadFile) (v : list float) : Prop :=
  allowed_file_type (file_content_type file) = true /\
  Py.len (file_read file) <= 10 * 1024 * 1024 /\
  image_to_vector (file_read file) = Ok v.

Definition embeds_base64 (image_b64 : value) (v : list float) : Prop :=
  exists image_bytes,
    b64decode image_b64 = Ok image_bytes /\
    Py.len image_bytes <= 10 * 1024 * 1024 /\
    image_to_vector image_bytes = Ok v.

Definition embeds_url (image_url : value) (v : list float) : Prop :=
  exists response,
    requests_get image_url = Ok response /\
    response_status_code response = 200 /\
    response_content response <> [] /\
    Py.len (response_content response) <= 10 * 1024 * 1024 /\
    image_to_vector (response_content response) = Ok v.

(** The number of images a request submits. *)
Definition image_count (request : Request) (files : option (list UploadFile)) : Z :=
  Py.len (submitted_files files) + Py.len (submitted_base64 request)
  + Py.len (submitted_urls request).

(** On the distances that are less than [FLT_MAX], which are numbers, [<]
    is a strict weak order, as it is on the floats without NaN. *)
Definition distances_ordered : Prop :=
  (forall x y : float,
     float_ltb x FLT_MAX = true -> float_ltb y FLT_MAX = true ->
     float_ltb x y = true -> float_ltb y x = false) /\
  (forall x y z : float,
     float_ltb x FLT_MAX = true -> float_ltb y FLT_MAX = true -> float_ltb z FLT_MAX = true ->
     float_ltb x y = false -> float_ltb y z = false -> float_ltb x z = false).

(** A list of hits in ascending order of distance: no hit is closer than
    a hit before it. *)
Definition ascending (hits : list hit) : Prop :=
  forall (m n : nat) (h1 h2 : hit),
    (m < n)%nat -> hits !! m = Some h1 -> hits !! n = Some h2 ->
    float_ltb (snd h2) (snd h1) = false.

End Service.

(** ** A concrete instance of the collaborators

    Floats that hold integers (exact in float32 while small), the exact
    squared distance, and stand-ins for the embedding model, the base64
    decoder and the HTTP client.  It is used to run the model on concrete
    inputs. *)

Module Concrete.

Fixpoint L2sqr (x y : list Z) : Z :=
  match x, y with
  | a :: x', b :: y' => (a - b) * (a - b) + L2sqr x' y'
  | _, _ => 0
  end.

(** The largest finite float32, [(2 - 2^-23) * 2^127]. *)
Definition flt_max : Z := (2 ^ 24 - 1) * 2 ^ 104.

(** An image of 10 MiB and one byte. *)
Definition big_image : bytes := replicate (N.to_nat 10485761) x00.

(** The stand-in embedding: the bytes of the image as numbers; the empty
    image cannot be opened. *)
Definition embed (image_bytes : bytes) : result (list Z) :=
  match image_bytes with
  | [] => Raise (IOError "Unable to open image")
  | _ => Ok (map (fun b => Z.of_N (Byte.to_N b)) image_bytes)
  end.

(** The stand-in decoder: ["big"] decodes to [big_image], any other text
    to its own bytes; a value that is not a text is refused. *)
Definition decode (v : json Z) : result bytes :=
  match v with
  | JStr s => if String.eqb s "big" then Ok big_image else Ok (list_byte_of_string s)
  | _ => Raise (TypeError "argument should be a bytes-like object or ASCII string")
  end.

(** The stand-in HTTP client: every URL answers 200 with the URL's bytes;
    a value that is not a text is no URL. *)
Definition fetch (v : json Z) : result Response :=
  match v with
  | JStr url => Ok {| response_status_code := 200; response_content := list_byte_of_string url |}
  | _ => Raise (RequestException "Invalid URL: No scheme supplied")
  end.

(** The stand-in for [repr]: texts in single quotes, floats with one
    decimal. *)
Fixpoint repr_json (v : json Z) : string :=
  match v with
  | JNone => "None"
  | JBool true => "True"
  | JBool false => "False"
  | JInt n => Py.str_int n
  | JFloat x => Py.str_int x +:+ ".0"
  | JStr s => "'" +:+ s +:+ "'"
  | JList items => "[" +:+ String.concat ", " (map repr_json items) +:+ "]"
  | JDict members =>
      "{" +:+ String.concat ", "
                (map (fun kv => "'" +:+ fst kv +:+ "': " +:+ repr_json (snd kv)) members)
      +:+ "}"
  end.

#[export] Instance ext : Externals := {|
  float := Z;
  float_bool := fun x => negb (x =? 0);
  astype_float32 := fun x => x;
  fvec_L2sqr := L2sqr;
  FLT_MAX := flt_max;
  float_ltb := Z.ltb;
  float_leb := Z.leb;
  image_to_vector := embed;
  b64decode := decode;
  requests_get := fetch;
  repr := repr_json;
  str_HTTPException := fun status_code detail => Py.str_int status_code +:+ ": " +:+ detail
|}.

(** The global [vector_db = VectorDB(2048)], at dimension 2 here. *)
Definition db0 : VectorDB := VectorDB_init 2.

(** The state a method call leaves behind. *)
Definition after {A} (m : M VectorDB A) (db : VectorDB) : VectorDB := snd (m db).

(** One request ["a"] that holds the same vector twice. *)
Definition db_pair : VectorDB := after (add_vectors "a" [[1; 2]; [1; 2]]) db0.

(** One request ["a"] with a single vector. *)
Definition db_one : VectorDB := after (add_vectors "a" [[1; 2]]) db0.

Definition w0 : World := {| vector_db := db0; embedded := [] |}.
Definition w_pair : World := {| vector_db := db_pair; embedded := [] |}.

(** A JSON request with one base64 image, the text ["big"]. *)
Definition big_base64_request : Request := {|
  header_content_type := Some "application/json";
  request_json := Ok (JDict [("base64_images", JList [JStr "big"])])
|}.

(** A multipart request: no JSON body, one JPEG file holding [big_image]. *)
Definition multipart_request : Request := {|
  header_content_type := Some "multipart/form-data";
  request_json := Raise (ValueError "Expecting value")
|}.
Definition big_file : UploadFile := {|
  file_content_type := Some "image/jpeg";
  file_read := big_image
|}.

(** An index of two rows that are too far apart for a float32: the
    squared distance between them, 2^202, is beyond [FLT_MAX]. *)
Definition far_index : IndexFlatL2 := {| d := 2; xb := [[2 ^ 100; 0]; [- 2 ^ 100; 0]] |}.

End Concrete.

(** ** A second instance, with collaborators that fail

    As [Concrete], but the HTTP client times out on ["http://down"],
    answers 404 on ["http://missing"] and answers 200 with no content on
    ["http://empty"], and the decoder refuses the text ["abc"], which
    lacks its padding. *)

Module Faulty.

Definition fetch (v : json Z) : result Response :=
  match v with
  | JStr url =>
      if String.eqb url "http://down" then Raise (RequestException "timed out")
      else if String.eqb url "http://missing" then
        Ok {| response_status_code := 404; response_content := list_byte_of_string url |}
      else if String.eqb url "http://empty" then
        Ok {| response_status_code := 200; response_content := [] |}
      else Ok {| response_status_code := 200; response_content := list_byte_of_string url |}
  | _ => Raise (RequestException "Invalid URL: No scheme supplied")
  end.

Definition decode (v : json Z) : result bytes :=
  match v with
  | JStr s =>
      if String.eqb s "abc" then Raise (ValueError "Incorrect padding")
      else Ok (list_byte_of_string s)
  | _ => Raise (TypeError "argument should be a bytes-like object or ASCII string")
  end.

Definition ext : Externals := {|
  float := Z;
  float_bool := fun x => negb (x =? 0);
  astype_float32 := fun x => x;
  fvec_L2sqr := Concrete.L2sqr;
  FLT_MAX := Concrete.flt_max;
  float_ltb := Z.ltb;
  float_leb := Z.leb;
  image_to_vector := Concrete.embed;
  b64decode := decode;
  requests_get := fetch;
  repr := Concrete.repr_json;
  str_HTTPException := fun status_code detail => Py.str_int status_code +:+ ": " +:+ detail
|}.

(** The empty store of dimension 2 and the world around it. *)
Definition db0 : @VectorDB ext := VectorDB_init 2.
Definition w0 : @World ext := {| vector_db := db0; embedded := [] |}.

(** A JSON request that names URLs only. *)
Definition url_request (urls : list string) : @Request ext := {|
  header_content_type := Some "application/json";
  request_json := Ok (JDict [("image_urls", JList (JStr <$> urls))])
|}.



End Faulty.

(** ** Sample requests and stores for the instance [Concrete] *)

Module Samples.
Import Concrete.

(** The store [db_one] after a second request ["b"]. *)
Definition db_two : VectorDB := after (add_vectors "b" [[3; 4]]) db_one.

(** A request with one image on each path; every image has two bytes, so
    that its stand-in embedding has the dimension of [db0]. *)
Definition jpeg_file : UploadFile := {|
  file_content_type := Some "image/jpeg";
  file_read := list_byte_of_string "ab"
|}.
Definition sample_files : option (list UploadFile) := Some [jpeg_file].
Definition sample_request : Request := {|
  header_content_type := Some "application/json";
  request_json := Ok (JDict [("base64_images", JList [JStr "cd"]);
                             ("image_urls", JList [JStr "ef"])])
|}.
Definition sample_response : AddImagesResponse := {|
  resp_request_id := "r";
  added_images := 3;
  system_image_names := ["image_1"; "image_2"; "image_3"]
|}.
Definition w_sample : World := snd (add_images "r" sample_request sample_files w0).

(** A file of a content type the handler does not accept. *)
Definition gif_file : UploadFile := {|
  file_content_type := Some "image/gif";
  file_read := list_byte_of_string "ab"
|}.

(** A JSON body sent with a charset parameter in the header. *)
Definition charset_request : Request := {|
  header_content_type := Some "application/json; charset=utf-8";
  request_json := Ok (JDict [("base64_images", JList [JStr "cd"])])
|}.

(** A PNG file of two bytes. *)
Definition png_file : UploadFile := {|
  file_content_type := Some "image/png";
  file_read := list_byte_of_string "gh"
|}.

(** A JSON body whose key ["base64_images"] holds [null]. *)
Definition null_images_request : Request := {|
  header_content_type := Some "application/json";
  request_json := Ok (JDict [("base64_images", JNone)])
|}.

End Samples.

(** * Lemmas *)

(** ** Python integers, strings and lists *)

Lemma to_int_not_nil (i : Z) : Z.to_int i <> Decimal.Pos Decimal.Nil /\ Z.to_int i <> Decimal.Neg Decimal.Nil.
Proof.
  destruct i as [|p|p]; simpl; split; try discriminate;
    intros [= H]; exact (Unsigned.to_uint_nonnil p H).
Qed.

Lemma int_of_str_str_int (i : Z) : Py.int_of_str (Py.str_int i) = Ok i.
Proof.
  unfold Py.int_of_str, Py.str_int.
  destruct (to_int_not_nil i) as [H1 H2].
  rewrite NilZero.isi by assumption.
  by rewrite DecimalZ.of_to.
Qed.

Lemma str_int_inj (i j : Z) : Py.str_int i = Py.str_int j -> i = j.
Proof.
  intros H. pose proof (int_of_str_str_int i) as Hi.
  rewrite H, int_of_str_str_int in Hi. congruence.
Qed.

Lemma no_underscore_uint (u : Decimal.uint) : Py.no_underscore (NilEmpty.string_of_uint u) = true.
Proof. induction u; simpl; auto. Qed.

Lemma no_underscore_str_int (i : Z) : Py.no_underscore (Py.str_int i) = true.
Proof.
  unfold Py.str_int. destruct (Z.to_int i) as [u|u]; simpl.
  - destruct u; simpl; auto using no_underscore_uint.
  - destruct u; simpl; auto using no_underscore_uint.
Qed.

Lemma split_no_underscore (s : string) : Py.no_underscore s = true -> Py.split "_" s = [s].
Proof.
  induction s as [|c s IH]; simpl; [done|].
  intros [Hc Hs]%andb_prop. apply negb_true_iff in Hc. rewrite Hc.
  by rewrite (IH Hs).
Qed.

Lemma split_vector_key (i : Z) :
  Py.split "_" ("vector_" +:+ Py.str_int i) = ["vector"; Py.str_int i].
Proof.
  change ("vector_" +:+ Py.str_int i)
    with (String "v" (String "e" (String "c" (String "t" (String "o" (String "r"
           (String "_" (Py.str_int i)))))))).
  cbn [Py.split Ascii.eqb Bool.eqb]. by rewrite split_no_underscore by apply no_underscore_str_int.
Qed.

Lemma len_nonneg {A} (l : list A) : 0 <= Py.len l.
Proof. unfold Py.len. lia. Qed.

Lemma len_app {A} (l1 l2 : list A) : Py.len (l1 ++ l2)%list = Py.len l1 + Py.len l2.
Proof. unfold Py.len. rewrite length_app. lia. Qed.

Lemma getitem_in_range {A} (l : list A) (i : Z) :
  0 <= i < Py.len l ->
  exists x, l !! Z.to_nat i = Some x /\ Py.getitem l i = Ok x.
Proof.
  intros Hi. unfold Py.getitem.
  destruct (Z.ltb_spec i 0); [lia|].
  destruct (Z.leb_spec 0 i); [|lia].
  destruct (Z.ltb_spec i (Py.len l)); [|lia]. simpl.
  destruct (lookup_lt_is_Some_2 l (Z.to_nat i)) as [x Hx].
  { unfold Py.len in *. lia. }
  exists x. by rewrite Hx.
Qed.

Lemma getitem_lookup {A} (l : list A) (n : nat) (x : A) :
  l !! n = Some x -> Py.getitem l (Z.of_nat n) = Ok x.
Proof.
  intros Hx. pose proof (lookup_lt_Some _ _ _ Hx) as Hn.
  destruct (getitem_in_range l (Z.of_nat n)) as (y & Hy & ->).
  { unfold Py.len. lia. }
  rewrite Nat2Z.id in Hy. congruence.
Qed.

Lemma range_length (a b : Z) : length (Py.range a b) = Z.to_nat (b - a).
Proof. unfold Py.range. by rewrite length_fmap, length_seq. Qed.

Lemma range_lookup (a b : Z) (n : nat) :
  (n < Z.to_nat (b - a))%nat -> Py.range a b !! n = Some (a + Z.of_nat n).
Proof.
  intros Hn. unfold Py.range. rewrite list_lookup_fmap, lookup_seq_lt by done. done.
Qed.

Lemma elem_of_range (a b i : Z) : i ∈ Py.range a b <-> a <= i < b.
Proof.
  unfold Py.range. rewrite list_elem_of_fmap. split.
  - intros (n & -> & Hn). apply elem_of_seq in Hn. lia.
  - intros Hi. exists (Z.to_nat (i - a)). split; [lia|]. apply elem_of_seq. lia.
Qed.

Lemma range_split (a b c : Z) :
  a <= b <= c -> Py.range a c = (Py.range a b ++ Py.range b c)%list.
Proof.
  intros H. unfold Py.range.
  replace (Z.to_nat (c - a)) with (Z.to_nat (b - a) + Z.to_nat (c - b))%nat by lia.
  rewrite seq_app, fmap_app. f_equal.
  replace (seq (0 + Z.to_nat (b - a)) (Z.to_nat (c - b)))
    with (Nat.add (Z.to_nat (b - a)) <$> seq 0 (Z.to_nat (c - b)))
    by (rewrite fmap_add_seq; f_equal; lia).
  rewrite <- list_fmap_compose.
  apply list_fmap_ext. intros _ n _. simpl. lia.
Qed.

Lemma slice_in_range {A} (l : list A) (a b : Z) :
  0 <= a <= b -> b <= Py.len l ->
  Py.slice l a b = take (Z.to_nat (b - a)) (drop (Z.to_nat a) l).
Proof.
  intros H1 H2. unfold Py.slice, Py.clamp.
  destruct (Z.ltb_spec a 0); [lia|]. destruct (Z.ltb_spec b 0); [lia|].
  by rewrite !Z.min_r, !Z.max_r by lia.
Qed.

(** ** The store's methods *)

Ltac monad_unfold :=
  unfold bind, ret, raise, lift_result, get, put, modify, try_except in *.

Section Facts.
Context `{Ext : Externals}.

Lemma np_array_uniform (vs : list (list float)) (L : Z) :
  vs <> [] -> Forall (fun v => Py.len v = L) vs ->
  np_array vs = Ok {| shape := [Py.len vs; L]; rows := to_float32 <$> vs |}.
Proof.
  destruct vs as [|v vs]; [done|]. intros _ Hall.
  apply Forall_cons in Hall as [Hv Hvs]. unfold np_array.
  replace (forallb _ vs) with true; [by rewrite Hv|].
  symmetry. apply forallb_forall. intros w Hw%list_elem_of_In.
  rewrite Forall_forall in Hvs. specialize (Hvs w Hw).
  apply Nat.eqb_eq. unfold Py.len in *. lia.
Qed.

Lemma np_array_inv (vs : list (list float)) (a : ndarray) :
  np_array vs = Ok a ->
  (vs = [] /\ a = {| shape := [0]; rows := [] |}) \/
  (exists L, vs <> [] /\ Forall (fun v => Py.len v = L) vs /\
             a = {| shape := [Py.len vs; L]; rows := to_float32 <$> vs |}).
Proof.
  destruct vs as [|v vs]; simpl.
  - intros [= <-]. by left.
  - destruct (forallb _ vs) eqn:Hall; [|done]. intros [= <-]. right.
    exists (Py.len v). split; [done|]. split; [|done].
    constructor; [done|]. apply Forall_forall. intros w Hw%list_elem_of_In.
    rewrite forallb_forall in Hall. apply Hall, Nat.eqb_eq in Hw.
    unfold Py.len. lia.
Qed.

Lemma np_array_ragged (vs : list (list float)) (v w : list float) :
  v ∈ vs -> w ∈ vs -> length v <> length w ->
  exists msg, np_array vs = Raise (ValueError msg).
Proof.
  intros Hv Hw Hne. destruct (np_array vs) as [a|e] eqn:Ha.
  - apply np_array_inv in Ha as [[-> _]|(L & _ & Hall & _)].
    + by apply elem_of_nil in Hv.
    + rewrite Forall_forall in Hall.
      pose proof (Hall v Hv). pose proof (Hall w Hw). unfold Py.len in *. lia.
  - destruct vs as [|v0 vs]; [done|]. simpl in Ha.
    destruct (forallb _ vs); [done|]. injection Ha as <-. eauto.
Qed.

Lemma getitem_pair_1 {A} (a b : A) : Py.getitem [a; b] 1 = Ok b.
Proof. reflexivity. Qed.

Lemma add_vectors_ok (request_id : string) (vecs : list (list float)) (db : VectorDB) :
  vecs <> [] -> Forall (fun v => Py.len v = dim db) vecs -> d (index db) = dim db ->
  add_vectors request_id vecs db = (Ok tt, added request_id vecs db).
Proof.
  intros Hne Hall Hd. unfold add_vectors. monad_unfold.
  rewrite (np_array_uniform vecs (dim db)) by done.
  cbn. rewrite !getitem_pair_1, Z.eqb_refl. cbn. rewrite Hd, Z.eqb_refl. cbn.
  unfold added. by rewrite Hd.
Qed.

Lemma add_vectors_cases (request_id : string) (vecs : list (list float)) (db : VectorDB) :
  (exists e, add_vectors request_id vecs db = (Raise e, db)) \/
  (vecs <> [] /\ Forall (fun v => Py.len v = dim db) vecs /\ d (index db) = dim db /\
   add_vectors request_id vecs db = (Ok tt, added request_id vecs db)).
Proof.
  destruct (np_array vecs) as [a|e] eqn:Ha.
  - apply np_array_inv in Ha as Hinv. destruct Hinv as [[-> ->]|(L & Hne & Hall & ->)].
    + left. unfold add_vectors. monad_unfold. cbn. eauto.
    + destruct (Z.eqb_spec L (dim db)) as [->|HL].
      * destruct (Z.eqb_spec (dim db) (d (index db))) as [Hd|Hd].
        -- right. repeat split; try done. by apply add_vectors_ok.
        -- left. unfold add_vectors. monad_unfold. rewrite Ha. cbn.
           rewrite !getitem_pair_1, Z.eqb_refl. cbn.
           destruct (Z.eqb_spec (dim db) (d (index db))); [done|].
           rewrite ?Z.eqb_refl. cbn. eauto.
      * left. unfold add_vectors. monad_unfold. rewrite Ha. cbn.
        rewrite !getitem_pair_1.
        destruct (Z.eqb_spec L (dim db)); [done|]. cbn. eauto.
  - left. unfold add_vectors. monad_unfold. rewrite Ha. eauto.
Qed.

Lemma search_duplicates_state (request_id : string) (k : Z) (db : VectorDB) :
  snd (search_duplicates request_id k db) = db.
Proof.
  unfold search_duplicates. monad_unfold. repeat case_match; simplify_eq; done.
Qed.

Lemma search_duplicates_unknown (request_id : string) (k : Z) (db : VectorDB) :
  request_map db !! request_id = None ->
  search_duplicates request_id k db = (Raise (ValueError "Request ID not found"), db).
Proof. intros H. unfold search_duplicates. monad_unfold. by rewrite H. Qed.

Lemma find_duplicates_unknown (request_id : string) (threshold : float) (k : Z) (w : World) :
  request_map (vector_db w) !! request_id = None ->
  find_duplicates request_id threshold k w
    = (Raise (HTTPException 404 "Request ID not found"), w).
Proof.
  intros Hnone. unfold find_duplicates, duplicate_set. monad_unfold. by rewrite Hnone.
Qed.

Lemma get_image_name_state (i : Z) (db : VectorDB) :
  snd (get_image_name i db) = db.
Proof.
  unfold get_image_name. monad_unfold. repeat case_match; simplify_eq; done.
Qed.

Lemma get_image_name_in_range (i : Z) (db : VectorDB) :
  0 <= i < Py.len (image_names db) ->
  exists name, image_names db !! Z.to_nat i = Some name /\
               get_image_name i db = (Ok (Some name), db).
Proof.
  intros Hi. destruct (getitem_in_range (image_names db) i Hi) as (name & Hl & Hg).
  exists name. split; [done|]. unfold get_image_name. monad_unfold.
  destruct (Z.leb_spec 0 i); [|lia].
  destruct (Z.ltb_spec i (Py.len (image_names db))); [|lia].
  cbn. by rewrite Hg.
Qed.

Lemma get_image_name_out_of_range (i : Z) (db : VectorDB) :
  ~ (0 <= i < Py.len (image_names db)) ->
  get_image_name i db = (Ok None, db).
Proof.
  intros Hi. unfold get_image_name. monad_unfold.
  destruct (Z.leb_spec 0 i); [|done].
  destruct (Z.ltb_spec i (Py.len (image_names db))); [lia|done].
Qed.

Lemma reset_eq (db : VectorDB) :
  reset db = (Ok tt, {| dim := dim db;
                        index := {| d := d (index db); xb := [] |};
                        vectors := []; request_map := ∅; image_names := [] |}).
Proof. reflexivity. Qed.

(** *** The invariants *)

Lemma wf_init (D : Z) : wf (VectorDB_init D).
Proof. split; first [done | apply map_Forall_empty]. Qed.

Lemma wf_reset (db : VectorDB) : wf db -> wf (snd (reset db)).
Proof.
  intros [Hd _ _ _ _]. rewrite reset_eq. split; first [done | apply map_Forall_empty].
Qed.

Lemma wf_added (request_id : string) (vecs : list (list float)) (db : VectorDB) :
  wf db -> vecs <> [] -> Forall (fun v => Py.len v = dim db) vecs ->
  wf (added request_id vecs db).
Proof.
  intros [Hd Hxb Hrows Hnames Hranges] Hne Hall.
  assert (0 < Py.len vecs) as Hpos.
  { destruct vecs; [done|]. unfold Py.len. cbn. lia. }
  pose proof (len_nonneg (vectors db)) as HN.
  split; cbn.
  - done.
  - by rewrite Hxb, fmap_app.
  - by apply Forall_app.
  - rewrite Hnames, <- fmap_app, len_app. f_equal.
    by rewrite (range_split 1 (Py.len (vectors db) + 1)
                 (Py.len (vectors db) + Py.len vecs + 1)) by lia.
  - rewrite len_app. apply map_Forall_insert_2; [cbn; lia|].
    eapply map_Forall_impl; [exact Hranges|]. cbn. intros _ r Hr. lia.
Qed.

Lemma wf_add_vectors (request_id : string) (vecs : list (list float)) (db : VectorDB) :
  wf db -> wf (snd (add_vectors request_id vecs db)).
Proof.
  intros Hwf. destruct (add_vectors_cases request_id vecs db)
    as [[e ->]|(Hne & Hall & _ & ->)]; [done|]. by apply wf_added.
Qed.

Lemma wf_reachable (D : Z) (db : VectorDB) : reachable D db -> wf db.
Proof.
  induction 1.
  - apply wf_init.
  - by apply wf_add_vectors.
  - by rewrite search_duplicates_state.
  - by rewrite get_image_name_state.
  - by apply wf_reset.
Qed.

Lemma wf_ranges_valid (db : VectorDB) : wf db -> ranges_valid db.
Proof.
  intros [_ _ _ _ Hr]. eapply map_Forall_impl; [exact Hr|]. cbn. intros _ r ?. lia.
Qed.

Lemma reachable_ranges_valid (D : Z) (db : VectorDB) : reachable D db -> ranges_valid db.
Proof. intros H. by eapply wf_ranges_valid, wf_reachable. Qed.

Lemma ranges_valid_added (request_id : string) (vecs : list (list float)) (db : VectorDB) :
  ranges_valid db -> ranges_valid (added request_id vecs db).
Proof.
  intros Hr. unfold ranges_valid. cbn. rewrite len_app.
  pose proof (len_nonneg (vectors db)). pose proof (len_nonneg vecs).
  apply map_Forall_insert_2; [cbn; lia|].
  eapply map_Forall_impl; [exact Hr|]. cbn. intros _ r ?. lia.
Qed.

(** *** The index *)

Lemma insert_hit_perm (h : hit) (l : list hit) : insert_hit h l ≡ₚ h :: l.
Proof.
  induction l as [|h' l IH]; cbn; [done|].
  destruct (float_ltb h'.2 h.2); [|done].
  rewrite IH. apply Permutation_swap.
Qed.

Lemma rank_hits_perm (l : list hit) : rank_hits l ≡ₚ l.
Proof.
  induction l as [|h l IH]; cbn; [done|].
  by rewrite insert_hit_perm, IH.
Qed.

Lemma all_hits_length (ix : IndexFlatL2) (q : list float) :
  length (all_hits ix q) = length (xb ix).
Proof. unfold all_hits. by rewrite length_imap. Qed.

Lemma elem_of_all_hits (ix : IndexFlatL2) (q : list float) (j : Z) (dd : float) :
  (j, dd) ∈ all_hits ix q <->
  exists x, 0 <= j /\ xb ix !! Z.to_nat j = Some x /\ dd = fvec_L2sqr q x.
Proof.
  unfold all_hits. rewrite elem_of_lookup_imap. split.
  - intros (n & x & [= -> ->] & Hx). exists x. rewrite Nat2Z.id. split; [lia|done].
  - intros (x & Hj & Hx & ->). exists (Z.to_nat j), x. split; [|done].
    f_equal. lia.
Qed.

Lemma all_hits_indices (ix : IndexFlatL2) (q : list float) :
  (all_hits ix q).*1 = Z.of_nat <$> seq 0 (length (xb ix)).
Proof.
  unfold all_hits. apply list_eq. intros n.
  rewrite !list_lookup_fmap, list_lookup_imap.
  destruct (xb ix !! n) as [x|] eqn:Hx; cbn.
  - by rewrite lookup_seq_lt by (by eapply lookup_lt_Some).
  - by rewrite lookup_seq_ge by (by apply lookup_ge_None).
Qed.

Lemma filter_sublist {A} (f : A -> bool) (l : list A) : List.filter f l `sublist_of` l.
Proof.
  induction l as [|x l IH]; cbn; [done|].
  destruct (f x); [by apply sublist_skip|by apply sublist_cons].
Qed.

Lemma elem_of_filter_bool {A} (f : A -> bool) (l : list A) (x : A) :
  x ∈ List.filter f l <-> x ∈ l /\ f x = true.
Proof. rewrite !list_elem_of_In. apply filter_In. Qed.

Lemma kept_hits_length (ix : IndexFlatL2) (q : list float) :
  (length (kept_hits ix q) <= length (xb ix))%nat.
Proof.
  rewrite <- (all_hits_length ix q). apply sublist_length, filter_sublist.
Qed.

Lemma elem_of_kept_hits (ix : IndexFlatL2) (q : list float) (j : Z) (dd : float) :
  (j, dd) ∈ kept_hits ix q <->
  exists x, 0 <= j /\ xb ix !! Z.to_nat j = Some x /\ dd = fvec_L2sqr q x /\
            float_ltb dd FLT_MAX = true.
Proof.
  unfold kept_hits. rewrite elem_of_filter_bool, elem_of_all_hits. cbn. split.
  - intros [(x & ? & ? & ?) ?]. by exists x.
  - intros (x & ? & ? & ? & ?). split; [by exists x|done].
Qed.

Lemma kept_hits_NoDup (ix : IndexFlatL2) (q : list float) : NoDup (kept_hits ix q).*1.
Proof.
  eapply sublist_NoDup; [|apply fmap_sublist, filter_sublist].
  rewrite all_hits_indices. apply NoDup_fmap_2; [|apply NoDup_seq].
  intros m n Hmn. lia.
Qed.

Lemma rank_hits_length (l : list hit) : length (rank_hits l) = length l.
Proof. by rewrite rank_hits_perm. Qed.

(** *** The ranking is in ascending order of distance *)

Lemma insert_hit_sorted (h : hit) (l : list hit) :
  distances_ordered ->
  float_ltb h.2 FLT_MAX = true -> Forall (fun h' : hit => float_ltb h'.2 FLT_MAX = true) l ->
  StronglySorted (fun h1 h2 : hit => float_ltb h2.2 h1.2 = false) l ->
  StronglySorted (fun h1 h2 : hit => float_ltb h2.2 h1.2 = false) (insert_hit h l).
Proof.
  intros [Hasym Htrans] Hh Hfin Hsorted.
  induction l as [|h' l IH]; cbn.
  - repeat constructor.
  - apply Forall_cons in Hfin as [Hh' Hfin].
    apply StronglySorted_inv in Hsorted as [Hsorted Hall].
    destruct (float_ltb h'.2 h.2) eqn:Hlt.
    + constructor; [by apply IH|].
      rewrite insert_hit_perm. constructor; [by apply Hasym|done].
    + constructor; [by constructor|].
      constructor; [done|].
      rewrite Forall_forall in Hall, Hfin. apply Forall_forall. intros x Hx.
      apply (Htrans x.2 h'.2 h.2); auto.
Qed.

Lemma rank_hits_sorted (l : list hit) :
  distances_ordered ->
  Forall (fun h : hit => float_ltb h.2 FLT_MAX = true) l ->
  StronglySorted (fun h1 h2 : hit => float_ltb h2.2 h1.2 = false) (rank_hits l).
Proof.
  intros Hord Hfin. induction l as [|h l IH]; [constructor|].
  change (rank_hits (h :: l)) with (insert_hit h (rank_hits l)).
  apply Forall_cons in Hfin as [Hh Hfin].
  apply insert_hit_sorted; [done|done| |by apply IH].
  by rewrite rank_hits_perm.
Qed.

Lemma kept_hits_finite (ix : IndexFlatL2) (q : list float) :
  Forall (fun h : hit => float_ltb h.2 FLT_MAX = true) (kept_hits ix q).
Proof.
  apply Forall_forall. intros h Hh. unfold kept_hits in Hh.
  by apply elem_of_filter_bool in Hh as [_ Hh].
Qed.

Lemma StronglySorted_ascending (hits : list hit) :
  StronglySorted (fun h1 h2 : hit => float_ltb h2.2 h1.2 = false) hits -> ascending hits.
Proof.
  induction 1 as [|h hits Hsorted IH Hall]; intros m n h1 h2 Hmn H1 H2.
  - by rewrite lookup_nil in H1.
  - destruct n as [|n]; [lia|]. cbn in H2. destruct m as [|m]; cbn in H1.
    + injection H1 as <-. rewrite Forall_forall in Hall. apply Hall.
      by eapply list_elem_of_lookup_2.
    + apply (IH m n); [lia|done|done].
Qed.

Lemma ascending_take (hits : list hit) (k : nat) : ascending hits -> ascending (take k hits).
Proof.
  intros Hasc m n h1 h2 Hmn H1 H2.
  apply lookup_take_Some in H1 as [H1 _]. apply lookup_take_Some in H2 as [H2 _].
  by apply (Hasc m n).
Qed.

(** *** The rows of a search result *)

Lemma search_row_length (ix : IndexFlatL2) (q : list float) (k : nat) :
  length (search_row ix q k) = k.
Proof.
  unfold search_row. rewrite length_app, length_replicate, length_take. lia.
Qed.

Lemma search_row_few (ix : IndexFlatL2) (q : list float) (k : nat) :
  (length (xb ix) <= k)%nat ->
  search_row ix q k =
    (rank_hits (kept_hits ix q)
       ++ replicate (k - length (kept_hits ix q)) (-1, FLT_MAX))%list.
Proof.
  intros Hk. pose proof (kept_hits_length ix q) as Hlen. unfold search_row.
  rewrite take_ge by (rewrite rank_hits_length; lia).
  by rewrite rank_hits_length.
Qed.

Lemma elem_of_search_row (ix : IndexFlatL2) (q : list float) (k : nat) (h : hit) :
  h ∈ search_row ix q k -> h ∈ kept_hits ix q \/ h = (-1, FLT_MAX).
Proof.
  unfold search_row. rewrite elem_of_app. intros [Hin|Hin].
  - left. apply elem_of_take in Hin as (n & Hn & _).
    rewrite <- (rank_hits_perm (kept_hits ix q)). by eapply list_elem_of_lookup_2.
  - right. by apply elem_of_replicate in Hin as [-> _].
Qed.

(** A row of a search result that holds fewer than [k] hits ends with the
    padding. *)
Lemma search_row_padded (ix : IndexFlatL2) (q : list float) (k : nat) :
  (length (xb ix) < k)%nat -> (-1, FLT_MAX) ∈ search_row ix q k.
Proof.
  intros Hk. pose proof (kept_hits_length ix q) as Hlen.
  rewrite search_row_few by lia. apply elem_of_app. right.
  apply elem_of_replicate. split; [done|lia].
Qed.

(** *** [search_duplicates] on a registered request *)

Lemma string_app_inj (p a b : string) : p +:+ a = p +:+ b -> a = b.
Proof. induction p as [|c p IH]; cbn; [done|]. intros [= H]. auto. Qed.

Lemma vector_key_inj (i j : Z) :
  "vector_" +:+ Py.str_int i = "vector_" +:+ Py.str_int j -> i = j.
Proof. intros H%string_app_inj. by apply str_int_inj. Qed.

Lemma dict_set_fresh {V} (dict : list (string * V)) (k : string) (v : V) :
  (forall k' v', (k', v') ∈ dict -> k' <> k) ->
  Py.dict_set dict k v = (dict ++ [(k, v)])%list.
Proof.
  induction dict as [|[k' v'] dict IH]; cbn; [done|]. intros Hfresh.
  destruct (String.eqb_spec k' k) as [->|_].
  - exfalso. eapply Hfresh; [left|done].
  - f_equal. apply IH. intros k'' v'' Hin. eapply Hfresh. by right.
Qed.

Lemma fill_duplicates_from (i : Z) (rows : list (list hit)) (acc : list (string * Neighbours)) :
  (forall key v, (key, v) ∈ acc -> exists m, m < i /\ key = "vector_" +:+ Py.str_int m) ->
  fill_duplicates i
    (zip ((fun row : list hit => row.*2) <$> rows) ((fun row : list hit => row.*1) <$> rows))
    acc
  = (acc ++ duplicates_from i rows)%list.
Proof.
  revert i acc. induction rows as [|row rows IH]; intros i acc Hacc; cbn.
  - by rewrite app_nil_r.
  - rewrite dict_set_fresh.
    + rewrite IH; [by rewrite <- app_assoc|].
      intros key v [Hin|Hin%list_elem_of_singleton]%elem_of_app.
      * destruct (Hacc key v Hin) as (m & Hm & ->). exists m. split; [lia|done].
      * injection Hin as -> _. exists i. split; [lia|done].
    + intros k' v' Hin Heq. destruct (Hacc k' v' Hin) as (m & Hm & ->).
      apply vector_key_inj in Heq. lia.
Qed.

Lemma wf_range (db : VectorDB) (request_id : string) (s e : Z) :
  wf db -> request_map db !! request_id = Some (s, e) ->
  0 <= s /\ s < e /\ e <= Py.len (vectors db).
Proof.
  intros [_ _ _ _ Hr] Hl. exact (map_Forall_lookup_1 _ _ _ _ Hr Hl).
Qed.

(** The vectors of a request, as [self.vectors[start_index:end_index]]. *)
Lemma search_duplicates_ok (request_id : string) (k : Z) (db : VectorDB) (s e : Z) :
  wf db -> request_map db !! request_id = Some (s, e) -> 0 < k ->
  search_duplicates request_id k db =
    (Ok (duplicates_from 0
           ((fun v => search_row (index db) (to_float32 v) (Z.to_nat k))
              <$> take (Z.to_nat (e - s)) (drop (Z.to_nat s) (vectors db)))),
     db).
Proof.
  intros Hwf Hl Hk. destruct (wf_range _ _ _ _ Hwf Hl) as (Hs & Hse & He).
  destruct Hwf as [Hd Hxb Hrows Hnames Hranges].
  unfold search_duplicates. monad_unfold. rewrite Hl.
  rewrite slice_in_range by lia.
  set (qs := take (Z.to_nat (e - s)) (drop (Z.to_nat s) (vectors db))).
  assert (length qs = Z.to_nat (e - s)) as Hlen.
  { unfold qs. rewrite length_take, length_drop. unfold Py.len in He. lia. }
  rewrite (np_array_uniform qs (dim db)).
  - unfold faiss_search. cbn. rewrite Hd, Z.eqb_refl.
    destruct (Z.ltb_spec 0 k); [|lia]. cbn.
    rewrite fill_duplicates_from.
    + by rewrite <- list_fmap_compose.
    + intros ? ? Hin. by apply elem_of_nil in Hin.
  - intros ->. cbn in Hlen. lia.
  - unfold qs. by apply Forall_take, Forall_drop.
Qed.

(** *** The loops of [find_duplicates] *)

Lemma scan_hits_spec {S} (row : list hit) (cur : Z) (thr : float)
    (is_ : list Z) (acc : gset Z) (st : S) :
  (forall i, i ∈ is_ -> 0 <= i < Py.len row) ->
  exists res,
    scan_hits is_ (row.*1) (row.*2) cur thr acc st = (Ok res, st) /\
    forall j, j ∈ res <->
      j ∈ acc \/
      exists i dd, i ∈ is_ /\ row !! Z.to_nat i = Some (j, dd) /\ j <> cur /\
                   float_leb dd thr = true.
Proof.
  revert acc. induction is_ as [|i is_ IH]; intros acc Hrange.
  - exists acc. split; [done|]. intros j. split; [auto|].
    intros [?|(i & dd & Hi & _)]; [done|]. by apply elem_of_nil in Hi.
  - assert (0 <= i < Py.len row) as Hi by (apply Hrange; left).
    destruct (lookup_lt_is_Some_2 row (Z.to_nat i)) as [[j0 d0] Hrow].
    { unfold Py.len in Hi. lia. }
    assert (Py.getitem (row.*1) i = Ok j0) as Hg1.
    { rewrite <- (Z2Nat.id i) by lia. apply getitem_lookup.
      by rewrite list_lookup_fmap, Hrow. }
    assert (Py.getitem (row.*2) i = Ok d0) as Hg2.
    { rewrite <- (Z2Nat.id i) by lia. apply getitem_lookup.
      by rewrite list_lookup_fmap, Hrow. }
    assert (forall i', i' ∈ is_ -> 0 <= i' < Py.len row) as Hrest
      by (intros; apply Hrange; by right).
    cbn [scan_hits]. monad_unfold. rewrite Hg1.
    destruct (Z.eqb_spec j0 cur) as [Heq|Hne]; cbn.
    + destruct (IH acc Hrest) as (res & -> & Hres). exists res. split; [done|].
      intros j. rewrite Hres. split; (intros [?|(i' & dd & Hi' & Hl & Hc & Hle)]; [by left|right]).
      * exists i', dd. split; [by right|done].
      * apply elem_of_cons in Hi' as [->|Hi']; [|by exists i', dd].
        rewrite Hrow in Hl. by simplify_eq.
    + rewrite Hg2. cbn. destruct (float_leb d0 thr) eqn:Hle0.
      * destruct (IH (acc ∪ {[j0]}) Hrest) as (res & -> & Hres).
        exists res. split; [done|]. intros j. rewrite Hres, elem_of_union, elem_of_singleton.
        split.
        -- intros [[?| ->]|(i' & dd & Hi' & ?)]; [by left| |].
           ++ right. exists i, d0. split; [by left|done].
           ++ right. exists i', dd. split; [by right|done].
        -- intros [?|(i' & dd & Hi' & Hl & Hc & Hle)]; [by left; left|].
           apply elem_of_cons in Hi' as [->|Hi'].
           ++ rewrite Hrow in Hl. simplify_eq. by left; right.
           ++ right. by exists i', dd.
      * destruct (IH acc Hrest) as (res & -> & Hres). exists res. split; [done|].
        intros j. rewrite Hres.
        split; (intros [?|(i' & dd & Hi' & Hl & Hc & Hle)]; [by left|right]).
        -- exists i', dd. split; [by right|done].
        -- apply elem_of_cons in Hi' as [->|Hi']; [|by exists i', dd].
           rewrite Hrow in Hl. simplify_eq. congruence.
Qed.

Lemma scan_row_spec {S} (row : list hit) (cur : Z) (thr : float) (acc : gset Z) (st : S) :
  exists res,
    scan_hits (Py.range 0 (Py.len (row.*1))) (row.*1) (row.*2) cur thr acc st = (Ok res, st) /\
    forall j, j ∈ res <->
      j ∈ acc \/ exists dd, (j, dd) ∈ row /\ j <> cur /\ float_leb dd thr = true.
Proof.
  assert (Py.len (row.*1) = Py.len row) as Hlen by (unfold Py.len; by rewrite length_fmap).
  destruct (scan_hits_spec row cur thr (Py.range 0 (Py.len (row.*1))) acc st)
    as (res & Hrun & Hres).
  { intros i Hi%elem_of_range. lia. }
  exists res. split; [done|]. intros j. rewrite Hres. split.
  - intros [?|(i & dd & _ & Hl & ?)]; [by left|right].
    exists dd. split; [|done]. by eapply list_elem_of_lookup_2.
  - intros [?|(dd & Hin & ?)]; [by left|right].
    apply list_elem_of_lookup in Hin as [n Hn]. exists (Z.of_nat n), dd.
    rewrite Nat2Z.id. split; [|done]. apply elem_of_range.
    apply lookup_lt_Some in Hn. unfold Py.len. rewrite length_fmap. lia.
Qed.

Lemma scan_duplicates_spec {S} (rows : list (list hit)) (b start : Z) (thr : float)
    (acc : gset Z) (st : S) :
  exists res,
    scan_duplicates (duplicates_from b rows) start thr acc st = (Ok res, st) /\
    forall j, j ∈ res <->
      j ∈ acc \/
      exists n row dd, rows !! n = Some row /\ (j, dd) ∈ row /\
                       j <> start + (b + Z.of_nat n) /\ float_leb dd thr = true.
Proof.
  revert b acc. induction rows as [|row rows IH]; intros b acc.
  - exists acc. split; [done|]. intros j. split; [auto|].
    intros [?|(n & row & dd & Hn & _)]; [done|]. by rewrite lookup_nil in Hn.
  - cbn [duplicates_from scan_duplicates]. monad_unfold.
    rewrite split_vector_key, getitem_pair_1, int_of_str_str_int.
    cbn [neighbours_of indices distances].
    destruct (scan_row_spec row (start + b) thr acc st) as (res1 & -> & Hres1).
    destruct (IH (b + 1) res1) as (res & -> & Hres). exists res. split; [done|].
    intros j. rewrite Hres, Hres1. split.
    + intros [[?|(dd & Hin & Hc & Hle)]|(n & row' & dd & Hn & Hin & Hc & Hle)].
      * by left.
      * right. exists 0%nat, row, dd. repeat split; try done. lia.
      * right. exists (Datatypes.S n), row', dd. repeat split; try done. lia.
    + intros [?|(n & row' & dd & Hn & Hin & Hc & Hle)]; [by left; left|].
      destruct n as [|n]; cbn in Hn.
      * simplify_eq. left. right. exists dd. repeat split; try done. lia.
      * right. exists n, row', dd. repeat split; try done. lia.
Qed.

End Facts.

(** *** Names *)

Section NameFacts.
Context `{Ext : Externals}.

Lemma names_lookup (N i : Z) :
  0 <= i < N ->
  (image_name <$> Py.range 1 (N + 1)) !! Z.to_nat i = Some (image_name (i + 1)).
Proof.
  intros Hi. rewrite list_lookup_fmap, range_lookup by lia. cbn. do 2 f_equal. lia.
Qed.

Lemma names_len (a b : Z) : a <= b -> Py.len (image_name <$> Py.range a b) = b - a.
Proof. intros H. unfold Py.len. rewrite length_fmap, range_length. lia. Qed.

Lemma wf_get_image_name (db : VectorDB) (i : Z) :
  wf db -> 0 <= i < Py.len (vectors db) ->
  get_image_name i db = (Ok (Some (image_name (i + 1))), db).
Proof.
  intros Hwf Hi. pose proof (wf_names db Hwf) as Hn.
  destruct (get_image_name_in_range i db) as (name & Hl & ->).
  { rewrite Hn, names_len; lia. }
  rewrite Hn, names_lookup in Hl by done. by simplify_eq.
Qed.

End NameFacts.

(** *** The duplicate query on a well-formed store *)

Section QueryFacts.
Context `{Ext : Externals}.

Lemma rows_as_range (db : VectorDB) (s e : Z) (k : nat) :
  0 <= s -> s <= e -> e <= Py.len (vectors db) ->
  (fun v => search_row (index db) (to_float32 v) k)
    <$> take (Z.to_nat (e - s)) (drop (Z.to_nat s) (vectors db))
  = (fun i => search_row (index db) (query_row db i) k) <$> Py.range s e.
Proof.
  intros Hs Hse He. apply list_eq. intros n.
  rewrite !list_lookup_fmap. unfold Py.len in He.
  destruct (decide (n < Z.to_nat (e - s))%nat) as [Hn|Hn].
  - rewrite lookup_take_lt, lookup_drop, range_lookup by done.
    destruct (lookup_lt_is_Some_2 (vectors db) (Z.to_nat s + n)) as [v Hv]; [lia|].
    rewrite Hv. cbn. unfold query_row.
    replace (Z.to_nat (s + Z.of_nat n)) with (Z.to_nat s + n)%nat by lia.
    by rewrite Hv.
  - rewrite lookup_take_ge by lia.
    rewrite (lookup_ge_None_2 (Py.range s e)); [done|]. rewrite range_length. lia.
Qed.

Lemma search_duplicates_rows (request_id : string) (k : Z) (db : VectorDB) (s e : Z) :
  wf db -> request_map db !! request_id = Some (s, e) -> 0 < k ->
  search_duplicates request_id k db =
    (Ok (duplicates_from 0 ((fun i => nearest_neighbours db i k) <$> Py.range s e)), db).
Proof.
  intros Hwf Hl Hk. destruct (wf_range _ _ _ _ Hwf Hl) as (Hs & Hse & He).
  rewrite (search_duplicates_ok request_id k db s e) by done.
  by rewrite rows_as_range by lia.
Qed.

(** A hit with a non-negative index is a stored vector with its distance
    to the query vector. *)
Lemma neighbour_is_stored (db : VectorDB) (i k j : Z) (dd : float) :
  wf db -> (j, dd) ∈ nearest_neighbours db i k -> 0 <= j ->
  j < Py.len (vectors db) /\ dd = distance db i j.
Proof.
  intros Hwf Hin Hj. apply elem_of_search_row in Hin as [Hin|[= -> _]]; [|lia].
  apply elem_of_kept_hits in Hin as (x & _ & Hx & -> & _).
  rewrite (wf_xb db Hwf), list_lookup_fmap in Hx.
  destruct (vectors db !! Z.to_nat j) as [v|] eqn:Hv; [|done].
  cbn in Hx. injection Hx as <-. split.
  - apply lookup_lt_Some in Hv. unfold Py.len. lia.
  - unfold distance. f_equal. unfold query_row. by rewrite Hv.
Qed.

Lemma duplicate_set_spec (request_id : string) (threshold : float) (k : Z)
    (w : World) (s e : Z) :
  wf (vector_db w) -> request_map (vector_db w) !! request_id = Some (s, e) -> 0 < k ->
  exists all_duplicates,
    duplicate_set request_id threshold k w = (Ok all_duplicates, w) /\
    forall j, j ∈ all_duplicates <->
      exists i dd, s <= i < e /\ (j, dd) ∈ nearest_neighbours (vector_db w) i k /\
                   j <> i /\ float_leb dd threshold = true.
Proof.
  intros Hwf Hl Hk. destruct (wf_range _ _ _ _ Hwf Hl) as (Hs & Hse & He).
  unfold duplicate_set. monad_unfold. rewrite Hl. unfold on_db.
  rewrite (search_duplicates_rows request_id k (vector_db w) s e) by done.
  destruct (scan_duplicates_spec
              ((fun i => nearest_neighbours (vector_db w) i k) <$> Py.range s e)
              0 s threshold ∅ {| vector_db := vector_db w; embedded := embedded w |})
    as (res & Hrun & Hres).
  exists res. split.
  { rewrite Hrun. by destruct w. }
  intros j. rewrite Hres. split.
  - intros [Hin|(n & row & dd & Hn & Hin & Hne & Hle)]; [set_solver|].
    rewrite list_lookup_fmap in Hn.
    destruct (Py.range s e !! n) as [i|] eqn:Hi; [|done]. cbn in Hn. simplify_eq.
    pose proof (lookup_lt_Some _ _ _ Hi) as Hlt. rewrite range_length in Hlt.
    rewrite range_lookup in Hi by done. simplify_eq.
    exists (s + Z.of_nat n), dd. repeat split; try done; try lia.
  - intros (i & dd & Hi & Hin & Hne & Hle). right.
    exists (Z.to_nat (i - s)), (nearest_neighbours (vector_db w) i k), dd.
    split; [|split; [done|split; [lia|done]]].
    rewrite list_lookup_fmap, range_lookup by lia. cbn. do 2 f_equal. lia.
Qed.

(** The names the handler reports for a list of indices. *)
Lemma image_names_of_spec (idxs : list Z) (w : World) :
  wf (vector_db w) ->
  image_names_of idxs w =
    (Ok ((fun j => if decide (0 <= j < Py.len (vectors (vector_db w)))
                   then Some (image_name (j + 1)) else None) <$> idxs), w).
Proof.
  intros Hwf. induction idxs as [|j idxs IH]; [done|].
  cbn [image_names_of]. unfold bind, on_db at 1. rewrite fmap_cons.
  destruct (decide (0 <= j < Py.len (vectors (vector_db w)))) as [Hj|Hj].
  - rewrite wf_get_image_name by done. destruct w as [db log]. cbn in *.
    by rewrite IH.
  - rewrite get_image_name_out_of_range.
    + destruct w as [db log]. cbn in *. by rewrite IH.
    + rewrite (wf_names _ Hwf), names_len; [lia|].
      pose proof (len_nonneg (vectors (vector_db w))). lia.
Qed.

End QueryFacts.

(** ** The handlers *)

Section ApiFacts.
Context `{Ext : Externals}.

Lemma for_each_preserves {S A B T} (f : S -> T) (body : A -> M S B)
    (xs : list A) (acc : list B) (s : S) :
  (forall x s, f (snd (body x s)) = f s) ->
  f (snd (for_each xs body acc s)) = f s.
Proof.
  intros Hbody. revert acc s. induction xs as [|x xs IH]; intros acc s; cbn; [done|].
  unfold bind. specialize (Hbody x s). destruct (body x s) as [[b|e] s']; cbn in *.
  - by rewrite IH.
  - done.
Qed.

Lemma for_each_head_raises {S A B} (x : A) (xs : list A) (body : A -> M S B)
    (acc : list B) (s s' : S) (e : exn) :
  body x s = (Raise e, s') -> for_each (x :: xs) body acc s = (Raise e, s').
Proof. intros H. cbn. unfold bind. by rewrite H. Qed.

Lemma process_image_too_large (image_bytes : bytes) (w : World) :
  10 * 1024 * 1024 < Py.len image_bytes ->
  process_image image_bytes w = (Raise (HTTPException 400 "Image size exceeds 10 MB"), w).
Proof.
  intros Hbig. unfold process_image.
  destruct (Z.ltb_spec (10 * 1024 * 1024) (Py.len image_bytes)); [done|lia].
Qed.

Lemma process_image_calls_embedding (image_bytes : bytes) (w : World) :
  Py.len image_bytes <= 10 * 1024 * 1024 ->
  embedded (snd (process_image image_bytes w)) = (embedded w ++ [image_bytes])%list.
Proof.
  intros Hsmall. unfold process_image, call_image_to_vector. monad_unfold.
  destruct (Z.ltb_spec (10 * 1024 * 1024) (Py.len image_bytes)); [lia|].
  by destruct (image_to_vector image_bytes).
Qed.

Lemma process_image_db (image_bytes : bytes) (w : World) :
  vector_db (snd (process_image image_bytes w)) = vector_db w.
Proof.
  unfold process_image, call_image_to_vector. monad_unfold.
  repeat case_match; simplify_eq; done.
Qed.

Lemma add_file_db (file : UploadFile) (w : World) :
  vector_db (snd (add_file file w)) = vector_db w.
Proof.
  unfold add_file. destruct (negb _); [done|]. apply process_image_db.
Qed.

Lemma add_base64_db (image_b64 : value) (w : World) :
  vector_db (snd (add_base64 image_b64 w)) = vector_db w.
Proof.
  unfold add_base64. monad_unfold. destruct (b64decode image_b64) as [bs|e]; cbn; [|done].
  pose proof (process_image_db bs w) as H.
  destruct (process_image bs w) as [[v|e] w']; done.
Qed.

Lemma add_url_db (image_url : value) (w : World) :
  vector_db (snd (add_url image_url w)) = vector_db w.
Proof.
  unfold add_url. monad_unfold. destruct (requests_get image_url) as [resp|e]; cbn.
  - destruct (negb _); cbn; [done|].
    destruct (response_content resp) as [|b bs] eqn:Hc; cbn; [done|].
    pose proof (process_image_db (b :: bs) w) as H.
    destruct (process_image (b :: bs) w) as [[v|e] w']; cbn in *; [done|].
    by destruct (is_RequestException e).
  - by destruct (is_RequestException e).
Qed.

Lemma add_file_too_large (file : UploadFile) (w : World) :
  allowed_file_type (file_content_type file) = true ->
  10 * 1024 * 1024 < Py.len (file_read file) ->
  add_file file w = (Raise (HTTPException 400 "Image size exceeds 10 MB"), w).
Proof.
  intros Hty Hbig. unfold add_file. rewrite Hty. cbn. by apply process_image_too_large.
Qed.

Lemma add_base64_too_large (image_b64 : value) (image_bytes : bytes) (w : World) :
  b64decode image_b64 = Ok image_bytes ->
  10 * 1024 * 1024 < Py.len image_bytes ->
  add_base64 image_b64 w =
    (Raise (HTTPException 500 ("Error processing Base64 image: "
                               +:+ str_HTTPException 400 "Image size exceeds 10 MB")), w).
Proof.
  intros Hdec Hbig. unfold add_base64. monad_unfold. rewrite Hdec. cbn match.
  by rewrite process_image_too_large.
Qed.

Lemma add_url_too_large (image_url : value) (response : Response) (w : World) :
  requests_get image_url = Ok response ->
  response_status_code response = 200 ->
  10 * 1024 * 1024 < Py.len (response_content response) ->
  add_url image_url w = (Raise (HTTPException 400 "Image size exceeds 10 MB"), w).
Proof.
  intros Hget Hst Hbig. unfold add_url. monad_unfold. rewrite Hget, Hst. cbn match.
  destruct (response_content response) as [|b bs] eqn:Hc; [unfold Py.len in Hbig; cbn in Hbig; lia|].
  change (negb (200 =? 200)) with false. cbv iota.
  by rewrite process_image_too_large.
Qed.

(** The loops of [add_images], over the lists of submitted images. *)
Lemma collect_vectors_eq (request : Request) (files : option (list UploadFile)) (w : World) :
  collect_vectors request files w =
  bind (for_each (submitted_files files) add_file [])
    (fun vectors1 =>
       bind (lift_result (base64_items request))
         (fun base64_images =>
            bind (for_each base64_images add_base64 vectors1)
              (fun vectors2 =>
                 bind (lift_result (url_items request))
                   (fun image_urls => for_each image_urls add_url vectors2)))) w.
Proof.
  unfold collect_vectors, base64_items, url_items, request_data, submitted_files.
  by destruct files.
Qed.

(** What a run of the loops that returns has gone through. *)
Lemma collect_vectors_ok_inv (request : Request) (files : option (list UploadFile))
    (w w3 : World) (vecs : list (list float)) :
  collect_vectors request files w = (Ok vecs, w3) ->
  exists v1 w1 images v2 w2 urls,
    for_each (submitted_files files) add_file [] w = (Ok v1, w1) /\
    base64_items request = Ok images /\ submitted_base64 request = images /\
    for_each images add_base64 v1 w1 = (Ok v2, w2) /\
    url_items request = Ok urls /\ submitted_urls request = urls /\
    for_each urls add_url v2 w2 = (Ok vecs, w3).
Proof.
  rewrite collect_vectors_eq. unfold bind, lift_result, submitted_base64, submitted_urls.
  destruct (for_each (submitted_files files) add_file [] w) as [[v1|e1] w1]; [|done].
  destruct (base64_items request) as [images|e]; [|done].
  destruct (for_each images add_base64 v1 w1) as [[v2|e2] w2] eqn:H2; [|done].
  destruct (url_items request) as [urls|e]; [|done].
  intros H3. by exists v1, w1, images, v2, w2, urls.
Qed.

Lemma collect_vectors_db (request : Request) (files : option (list UploadFile)) (w : World) :
  vector_db (snd (collect_vectors request files w)) = vector_db w.
Proof.
  rewrite collect_vectors_eq. unfold bind, lift_result.
  pose proof (for_each_preserves vector_db add_file (submitted_files files) [] w add_file_db)
    as H1.
  destruct (for_each (submitted_files files) add_file [] w) as [[v1|e1] w1]; cbn in H1; [|done].
  destruct (base64_items request) as [images|e]; [|done].
  pose proof (for_each_preserves vector_db add_base64 images v1 w1 add_base64_db) as H2.
  destruct (for_each images add_base64 v1 w1) as [[v2|e2] w2]; cbn in H2;
    [|cbn; congruence].
  destruct (url_items request) as [urls|e]; [|cbn; congruence].
  rewrite (for_each_preserves vector_db add_url urls v2 w2 add_url_db). congruence.
Qed.

Lemma bind_assoc {S A B C} (m : M S A) (f : A -> M S B) (g : B -> M S C) (s : S) :
  bind (bind m f) g s = bind m (fun x => bind (f x) g) s.
Proof. unfold bind. by destruct (m s) as [[a|e] s']. Qed.

Lemma bind_ext {S A B} (m : M S A) (k1 k2 : A -> M S B) (s : S) :
  (forall a s', k1 a s' = k2 a s') -> bind m k1 s = bind m k2 s.
Proof. intros H. unfold bind. destruct (m s) as [[a|e] s']; [apply H|done]. Qed.

Lemma add_images_collect (request_id : string) (request : Request)
    (files : option (list UploadFile)) (w : World) :
  add_images request_id request files w =
  bind (collect_vectors request files)
    (fun vectors3 =>
       match vectors3 with
       | [] => raise (HTTPException 400 "No valid images provided")
       | _ =>
           bind (on_db (add_vectors request_id vectors3))
             (fun _ =>
                bind get
                  (fun w =>
                     let start_index := Py.len (vectors (vector_db w)) - Py.len vectors3 in
                     let end_index := Py.len (vectors (vector_db w)) in
                     ret {| resp_request_id := request_id;
                            added_images := Py.len vectors3;
                            system_image_names :=
                              image_name <$> Py.range (start_index + 1) (end_index + 1) |}))
       end) w.
Proof.
  unfold collect_vectors. cbv zeta. rewrite bind_assoc.
  unfold add_images. cbv zeta. apply bind_ext. intros vectors1 w1.
  rewrite bind_assoc. apply bind_ext. intros base64_images w2.
  rewrite bind_assoc. apply bind_ext. intros vectors2 w3.
  by rewrite bind_assoc.
Qed.

(** [add_images] either raises and leaves the store as it was, or adds
    the collected batch with [add_vectors] and reports its names. *)
Lemma add_images_cases (request_id : string) (request : Request)
    (files : option (list UploadFile)) (w : World) :
  (exists e w', add_images request_id request files w = (Raise e, w') /\
                vector_db w' = vector_db w) \/
  (exists vecs w',
     vecs <> [] /\ Forall (fun v => Py.len v = dim (vector_db w)) vecs /\
     add_vectors request_id vecs (vector_db w) = (Ok tt, added request_id vecs (vector_db w)) /\
     vector_db w' = added request_id vecs (vector_db w) /\
     add_images request_id request files w =
       (Ok {| resp_request_id := request_id;
              added_images := Py.len vecs;
              system_image_names :=
                image_name <$> Py.range (Py.len (vectors (vector_db w)) + 1)
                                 (Py.len (vectors (vector_db w)) + Py.len vecs + 1) |},
        w')).
Proof.
  rewrite add_images_collect. unfold bind.
  pose proof (collect_vectors_db request files w) as Hdb.
  destruct (collect_vectors request files w) as [[vecs|e] w1]; cbn in Hdb.
  - destruct vecs as [|v vecs]; [left; by eexists _, _|].
    unfold on_db, get, ret. rewrite Hdb.
    destruct (add_vectors_cases request_id (v :: vecs) (vector_db w))
      as [[e Hrun]|(Hne & Hall & _ & Hrun)]; rewrite Hrun.
    + left. by eexists _, _.
    + right.
      exists (v :: vecs), {| vector_db := added request_id (v :: vecs) (vector_db w);
                             embedded := embedded w1 |}.
      split; [done|]. split; [done|]. split; [done|]. split; [done|].
      cbn [vector_db added vectors]. rewrite len_app.
      do 5 f_equal. lia.
  - left. by eexists _, _.
Qed.

Lemma bind_raise {S A B} (m : M S A) (k : A -> M S B) (s s' : S) (e : exn) :
  m s = (Raise e, s') -> bind m k s = (Raise e, s').
Proof. intros H. unfold bind. by rewrite H. Qed.

Lemma bind_ok {S A B} (m : M S A) (k : A -> M S B) (s s' : S) (a : A) :
  m s = (Ok a, s') -> bind m k s = k a s'.
Proof. intros H. unfold bind. by rewrite H. Qed.

Lemma add_images_collect_raises (request_id : string) (request : Request)
    (files : option (list UploadFile)) (w w' : World) (e : exn) :
  collect_vectors request files w = (Raise e, w') ->
  add_images request_id request files w = (Raise e, w').
Proof. intros H. rewrite add_images_collect. by apply bind_raise. Qed.

(** What the first base64 image of a request without files answers when
    its loop body raises. *)
Lemma add_images_first_base64 (request_id : string) (request : Request)
    (files : option (list UploadFile)) (image_b64 : value) (rest : list value)
    (w : World) (e : exn) :
  submitted_files files = [] -> base64_items request = Ok (image_b64 :: rest) ->
  add_base64 image_b64 w = (Raise e, w) ->
  add_images request_id request files w = (Raise e, w).
Proof.
  intros Hfiles Hb64 Hrun. apply add_images_collect_raises.
  rewrite collect_vectors_eq, Hfiles, Hb64. cbn [for_each].
  unfold bind at 1. unfold ret at 1. unfold bind at 1. unfold lift_result at 1.
  apply bind_raise. by apply for_each_head_raises.
Qed.

Lemma add_images_base64_too_large (request_id : string) (request : Request)
    (image_b64 : value) (rest : list value) (image_bytes : bytes) (w : World) :
  base64_items request = Ok (image_b64 :: rest) ->
  b64decode image_b64 = Ok image_bytes ->
  10 * 1024 * 1024 < Py.len image_bytes ->
  add_images request_id request None w
  = (Raise (HTTPException 500 ("Error processing Base64 image: "
                               +:+ str_HTTPException 400 "Image size exceeds 10 MB")), w).
Proof.
  intros Hb64 Hdec Hbig.
  apply (add_images_first_base64 request_id request None image_b64 rest); [done|done|].
  by apply (add_base64_too_large image_b64 image_bytes).
Qed.

Lemma add_images_file_too_large (request_id : string) (request : Request)
    (file : UploadFile) (rest : list UploadFile) (w : World) :
  allowed_file_type (file_content_type file) = true ->
  10 * 1024 * 1024 < Py.len (file_read file) ->
  add_images request_id request (Some (file :: rest)) w
  = (Raise (HTTPException 400 "Image size exceeds 10 MB"), w).
Proof.
  intros Hty Hbig. unfold add_images. unfold bind at 1.
  by rewrite (for_each_head_raises _ _ _ _ _ _ _ (add_file_too_large file w Hty Hbig)).
Qed.

End ApiFacts.

(** * The properties of the specification *)

Section Claims.
Context `{Ext : Externals}.

(** C1. An [add_vectors] call on a store of dimension [dim db] whose batch
    holds a vector of another length raises [ValueError] (the dimension
    mismatch error) and commits nothing: the store, that is its vector
    list, its FAISS index, its request map and its name list, is the one
    the call started from. *)
Theorem add_vectors_dimension_mismatch
    (request_id : string) (vecs : list (list float)) (db : VectorDB) :
  (exists v, v ∈ vecs /\ Py.len v <> dim db) ->
  exists msg,
    add_vectors request_id vecs db = (Raise (ValueError msg), db) /\
    let db' := snd (add_vectors request_id vecs db) in
    vectors db' = vectors db /\ index db' = index db /\
    request_map db' = request_map db /\ image_names db' = image_names db.
Proof.
  intros (v & Hv & Hlen).
  assert (exists msg, add_vectors request_id vecs db = (Raise (ValueError msg), db))
    as [msg Hrun]; [|exists msg; by rewrite Hrun].
  unfold add_vectors. monad_unfold.
  destruct (np_array vecs) as [a|e] eqn:Ha.
  - apply np_array_inv in Ha as [[-> _]|(L & _ & Hall & ->)].
    + by apply elem_of_nil in Hv.
    + rewrite Forall_forall in Hall. specialize (Hall v Hv). subst L.
      cbn. rewrite !getitem_pair_1.
      destruct (Z.eqb_spec (Py.len v) (dim db)); [done|]. cbn. eauto.
  - destruct vecs as [|v0 vs]; [done|]. cbn in Ha.
    destruct (forallb _ vs); [done|]. injection Ha as <-. eauto.
Qed.

(** C2. Every successful add of a batch, appended at the index range
    [start, end), assigns exactly the names image_{start+1} .. image_{end}:
    the store appends them to its name list, records the range under the
    request id, and answers [get_image_name i] with ["image_" + str(i+1)]
    for every index of the range; the [/images] handler reports the same
    names.  In particular three vectors added to an empty store get the
    names image_1, image_2, image_3, and the store then holds 3 vectors. *)
Theorem add_assigns_names :
  (forall request_id vecs (db db' : VectorDB),
     wf db -> add_vectors request_id vecs db = (Ok tt, db') ->
     let start_index := Py.len (vectors db) in
     let end_index := start_index + Py.len vecs in
     request_map db' !! request_id = Some (start_index, end_index) /\
     Py.len (vectors db') = end_index /\
     image_names db' =
       (image_names db ++ (image_name <$> Py.range (start_index + 1) (end_index + 1)))%list /\
     forall i, start_index <= i < end_index ->
       get_image_name i db' = (Ok (Some ("image_" +:+ Py.str_int (i + 1))), db')) /\
  (forall request_id request files (w w' : World) resp,
     add_images request_id request files w = (Ok resp, w') ->
     let start_index := Py.len (vectors (vector_db w)) in
     let end_index := Py.len (vectors (vector_db w')) in
     request_map (vector_db w') !! request_id = Some (start_index, end_index) /\
     added_images resp = end_index - start_index /\
     system_image_names resp = image_name <$> Py.range (start_index + 1) (end_index + 1)) /\
  (forall D request_id (v1 v2 v3 : list float),
     Py.len v1 = D -> Py.len v2 = D -> Py.len v3 = D ->
     let db' := snd (add_vectors request_id [v1; v2; v3] (VectorDB_init D)) in
     fst (add_vectors request_id [v1; v2; v3] (VectorDB_init D)) = Ok tt /\
     image_names db' = ["image_1"; "image_2"; "image_3"] /\
     Py.len (vectors db') = 3 /\ ntotal (index db') = 3).
Proof.
  split; [|split].
  - intros request_id vecs db db' Hwf Hrun start_index end_index.
    destruct (add_vectors_cases request_id vecs db) as [[e He]|(Hne & Hall & _ & Hok)];
      [congruence|].
    assert (db' = added request_id vecs db) as -> by congruence.
    pose proof (wf_added request_id vecs db Hwf Hne Hall) as Hwf'.
    split; [apply lookup_insert_eq|]. split; [apply len_app|]. split; [done|].
    intros i Hi. apply wf_get_image_name; [done|].
    cbn. rewrite len_app. pose proof (len_nonneg (vectors db)). unfold start_index, end_index in Hi. lia.
  - intros request_id request files w w' resp Hrun start_index end_index.
    destruct (add_images_cases request_id request files w)
      as [(e & w1 & He & _)|(vecs & w1 & Hne & Hall & _ & Hdb & Hok)]; [congruence|].
    rewrite Hok in Hrun. injection Hrun as <- <-.
    unfold start_index, end_index. rewrite Hdb. cbn. rewrite len_app.
    split; [apply lookup_insert_eq|]. split; [lia|done].
  - intros D request_id v1 v2 v3 H1 H2 H3 db'. unfold db'.
    rewrite add_vectors_ok; [done|done| |done].
    repeat constructor; done.
Qed.

(** C3 (amended). For a registered request with range [start, end) and a
    positive [k], the set [all_duplicates] that the duplicate query builds
    contains a corpus index [j] if and only if some query index [i] of the
    range has [j] among its [k] nearest-neighbour hits with [j <> i] (the
    self-match is excluded by comparing indices, never vectors) and
    [distance(vector[i], vector[j]) <= threshold], the comparison being
    inclusive.  A query index is never added on account of its own hit
    list: when it is in the result, another query index of the request has
    it as a hit within the threshold. *)
Theorem duplicates_characterised
    (request_id : string) (threshold : float) (k : Z) (w : World) (s e : Z) :
  wf (vector_db w) -> request_map (vector_db w) !! request_id = Some (s, e) -> 0 < k ->
  let db := vector_db w in
  exists all_duplicates,
    duplicate_set request_id threshold k w = (Ok all_duplicates, w) /\
    find_duplicates request_id threshold k w =
      (Ok (if decide (all_duplicates = ∅) then NoDuplicatesFound
           else Duplicates request_id
                  ((fun j => if decide (0 <= j < Py.len (vectors db))
                             then Some (image_name (j + 1)) else None)
                     <$> elements all_duplicates)), w) /\
    (forall j, 0 <= j < Py.len (vectors db) ->
       (j ∈ all_duplicates <->
        exists i, s <= i < e /\ j ∈ (nearest_neighbours db i k).*1 /\ j <> i /\
                  float_leb (distance db i j) threshold = true)) /\
    (forall i, s <= i < e -> i ∈ all_duplicates ->
       exists i', s <= i' < e /\ i' <> i /\ i ∈ (nearest_neighbours db i' k).*1 /\
                  float_leb (distance db i' i) threshold = true).
Proof.
  intros Hwf Hl Hk db.
  destruct (duplicate_set_spec request_id threshold k w s e Hwf Hl Hk)
    as (res & Hrun & Hres).
  assert (forall j, 0 <= j < Py.len (vectors db) ->
            (j ∈ res <->
             exists i, s <= i < e /\ j ∈ (nearest_neighbours db i k).*1 /\ j <> i /\
                       float_leb (distance db i j) threshold = true)) as Hiff.
  { intros j Hj. rewrite Hres. split.
    - intros (i & dd & Hi & Hin & Hne & Hle).
      destruct (neighbour_is_stored db i k j dd Hwf Hin) as [_ ->]; [lia|].
      exists i. repeat split; try done; try lia.
      apply list_elem_of_fmap. by exists (j, distance db i j).
    - intros (i & Hi & Hin & Hne & Hle).
      apply list_elem_of_fmap in Hin as ([j' dd] & Hj' & Hin). cbn in Hj'. subst j'.
      destruct (neighbour_is_stored db i k j dd Hwf Hin) as [_ ->]; [lia|].
      by exists i, (distance db i j). }
  exists res. split; [done|]. split; [|split; [done|]].
  - unfold find_duplicates, bind. rewrite Hrun.
    destruct (decide (res = ∅)); [done|].
    by rewrite image_names_of_spec.
  - intros i Hi Hin. destruct (wf_range _ _ _ _ Hwf Hl) as (Hs & Hse & He).
    apply Hiff in Hin as (i' & Hi' & Hin & Hne & Hle); [|fold db in He; lia].
    exists i'. repeat split; try done; try lia.
Qed.

(** C4 (amended). Adding a batch under a token that is already in the
    request map raises no duplicate-token error: a non-empty batch of the
    store's dimension is added as under a fresh token, and the token's
    record is overwritten with the range of the new batch. *)
Theorem add_vectors_overwrites_token
    (request_id : string) (vecs : list (list float)) (db : VectorDB) (r : Z * Z) :
  wf db -> request_map db !! request_id = Some r ->
  vecs <> [] -> Forall (fun v => Py.len v = dim db) vecs ->
  let N := Py.len (vectors db) in
  let db' := snd (add_vectors request_id vecs db) in
  fst (add_vectors request_id vecs db) = Ok tt /\
  request_map db' !! request_id = Some (N, N + Py.len vecs) /\
  request_map db' !! request_id <> Some r /\
  vectors db' = (vectors db ++ vecs)%list.
Proof.
  intros Hwf Hl Hne Hall N db'. unfold db'.
  rewrite add_vectors_ok by (done || apply Hwf). cbn.
  rewrite lookup_insert_eq. repeat split; try done.
  intros [= <-]. pose proof (map_Forall_lookup_1 _ _ _ _ (wf_ranges db Hwf) Hl) as Hr.
  cbn in Hr. fold N in Hr. assert (0 < Py.len vecs); [|lia].
  destruct vecs; [done|]. unfold Py.len. cbn. lia.
Qed.

(** C5 (amended). A nearest-neighbour query with [k] greater than the
    number [N] of stored vectors returns a list of exactly [k] entries.
    First come the hits: the [(index, distance)] pairs of the stored
    vectors whose distance to the query vector is less than [FLT_MAX],
    each once, in ascending order of distance (given that [<] orders the
    distances below [FLT_MAX]).  There are at most [N] hits, and every
    slot after them holds the padding entry with index [-1] and distance
    [FLT_MAX], so that the list ends with at least [k - N] padding
    entries.  [search_duplicates] returns these lists as they are, one per
    vector of the request. *)
Theorem search_pads_to_k :
  (forall (ix : IndexFlatL2) (q : list float) (k : nat),
     (length (xb ix) < k)%nat ->
     exists hits : list hit,
       search_row ix q k = (hits ++ replicate (k - length hits) (-1, FLT_MAX))%list /\
       (length hits <= length (xb ix))%nat /\
       NoDup hits.*1 /\
       (forall j dd, (j, dd) ∈ hits <->
          exists x, 0 <= j /\ xb ix !! Z.to_nat j = Some x /\ dd = fvec_L2sqr q x /\
                    float_ltb dd FLT_MAX = true) /\
       (distances_ordered -> ascending hits) /\
       length (search_row ix q k) = k) /\
  (forall (db : VectorDB) request_id (k s e : Z),
     wf db -> request_map db !! request_id = Some (s, e) ->
     Py.len (vectors db) < k ->
     search_duplicates request_id k db =
       (Ok (duplicates_from 0 ((fun i => nearest_neighbours db i k) <$> Py.range s e)), db) /\
     forall i, exists hits : list hit,
       nearest_neighbours db i k =
         (hits ++ replicate (Z.to_nat k - length hits) (-1, FLT_MAX))%list /\
       Py.len hits <= Py.len (vectors db) /\
       Forall (fun h : hit => 0 <= h.1 < Py.len (vectors db)) hits).
Proof.
  assert (forall (ix : IndexFlatL2) (q : list float) (k : nat),
            (length (xb ix) <= k)%nat ->
            search_row ix q k =
              (rank_hits (kept_hits ix q)
                 ++ replicate (k - length (rank_hits (kept_hits ix q))) (-1, FLT_MAX))%list)
    as Hrow.
  { intros ix q k Hk. rewrite rank_hits_length. by apply search_row_few. }
  split.
  - intros ix q k Hk. exists (rank_hits (kept_hits ix q)).
    split; [apply Hrow; lia|].
    split; [rewrite rank_hits_length; apply kept_hits_length|].
    split; [rewrite rank_hits_perm; apply kept_hits_NoDup|].
    split; [intros j dd; rewrite rank_hits_perm; apply elem_of_kept_hits|].
    split; [|apply search_row_length].
    intros Hord. apply StronglySorted_ascending, rank_hits_sorted; [done|].
    apply kept_hits_finite.
  - intros db request_id k s e Hwf Hl Hk.
    pose proof (len_nonneg (vectors db)) as HN.
    split; [apply search_duplicates_rows; [done|done|lia]|].
    intros i. exists (rank_hits (kept_hits (index db) (query_row db i))).
    assert (length (xb (index db)) = length (vectors db)) as Hlen
      by (by rewrite (wf_xb db Hwf), length_fmap).
    pose proof (kept_hits_length (index db) (query_row db i)) as Hkept.
    split; [|split].
    + unfold nearest_neighbours. apply Hrow. unfold Py.len in Hk. lia.
    + unfold Py.len. rewrite rank_hits_length. lia.
    + apply Forall_forall. intros [j dd]. rewrite rank_hits_perm.
      intros (x & Hj & Hx & _)%elem_of_kept_hits. cbn.
      apply lookup_lt_Some in Hx. unfold Py.len. lia.
Qed.

(** C6. A token that is not in the request map makes both the lookup in
    [search_duplicates] and the [/duplicates] handler fail with the
    request-not-found error ([ValueError] from the store, HTTP 404 from the
    handler), and the failed call leaves the state as it was. *)
Theorem unknown_request_not_found
    (request_id : string) (threshold : float) (k : Z) (w : World) :
  request_map (vector_db w) !! request_id = None ->
  search_duplicates request_id k (vector_db w)
    = (Raise (ValueError "Request ID not found"), vector_db w) /\
  find_duplicates request_id threshold k w
    = (Raise (HTTPException 404 "Request ID not found"), w).
Proof.
  intros Hnone. split; [by apply search_duplicates_unknown|by apply find_duplicates_unknown].
Qed.

(** C7. After [reset] the store is cleared: the corpus, the name list, the
    request map and the index are empty, the lookup of every token fails
    with the request-not-found error, and every later successful add
    starts again at index 0, so that its first name is image_1. *)
Theorem reset_clears_store (db : VectorDB) :
  let db' := snd (reset db) in
  fst (reset db) = Ok tt /\
  vectors db' = [] /\ image_names db' = [] /\ request_map db' = ∅ /\
  ntotal (index db') = 0 /\
  (forall request_id k,
     search_duplicates request_id k db' = (Raise (ValueError "Request ID not found"), db')) /\
  (forall request_id threshold k log,
     find_duplicates request_id threshold k {| vector_db := db'; embedded := log |}
       = (Raise (HTTPException 404 "Request ID not found"),
          {| vector_db := db'; embedded := log |})) /\
  (forall request_id vecs db'',
     add_vectors request_id vecs db' = (Ok tt, db'') ->
     request_map db'' !! request_id = Some (0, Py.len vecs) /\
     0 < Py.len vecs /\
     vectors db'' = vecs /\
     image_names db'' = image_name <$> Py.range 1 (Py.len vecs + 1) /\
     get_image_name 0 db'' = (Ok (Some "image_1"), db'')).
Proof.
  rewrite reset_eq. cbn [fst snd]. do 5 (split; [done|]). split; [|split].
  - intros. by apply search_duplicates_unknown.
  - intros. by apply find_duplicates_unknown.
  - intros request_id vecs db'' Hrun.
    match type of Hrun with add_vectors _ _ ?d = _ => set (db' := d) in * end.
    destruct (add_vectors_cases request_id vecs db') as [[e He]|(Hne & Hall & _ & Hok)];
      [congruence|].
    assert (db'' = added request_id vecs db') as -> by congruence.
    assert (0 < Py.len vecs) as Hpos.
    { destruct vecs; [done|]. unfold Py.len. cbn. lia. }
    split; [apply lookup_insert_eq|]. split; [done|]. split; [done|]. split; [done|].
    destruct (get_image_name_in_range 0 (added request_id vecs db')) as (name & Hl & ->).
    { cbn. rewrite names_len; cbn; lia. }
    cbn in Hl. rewrite list_lookup_fmap, range_lookup in Hl by (cbn; lia).
    cbn in Hl. by simplify_eq.
Qed.

(** C8. The invariant of the request map, that every record
    [(start, end)] satisfies [0 <= start <= end <= N] for the current
    number [N] of stored vectors, is preserved by [add_vectors],
    [search_duplicates], [get_image_name] and [reset], whether the call
    returns or raises. *)
Theorem ranges_valid_preserved (db : VectorDB) :
  ranges_valid db ->
  (forall request_id vecs, ranges_valid (snd (add_vectors request_id vecs db))) /\
  (forall request_id k, ranges_valid (snd (search_duplicates request_id k db))) /\
  (forall i, ranges_valid (snd (get_image_name i db))) /\
  ranges_valid (snd (reset db)).
Proof.
  intros Hinv. split; [|split; [|split]].
  - intros request_id vecs.
    destruct (add_vectors_cases request_id vecs db) as [[e ->]|(_ & _ & _ & ->)];
      [done|by apply ranges_valid_added].
  - intros. by rewrite search_duplicates_state.
  - intros. by rewrite get_image_name_state.
  - rewrite reset_eq. apply map_Forall_empty.
Qed.

(** C10. [get_image_name] is total on the integers: it returns the stored
    name for an index within [0, len(image_names)) and [None] for every
    other index, negative ones included, and it never raises. *)
Theorem get_image_name_total (i : Z) (db : VectorDB) :
  (0 <= i < Py.len (image_names db) ->
   exists name, image_names db !! Z.to_nat i = Some name /\
                get_image_name i db = (Ok (Some name), db)) /\
  (~ (0 <= i < Py.len (image_names db)) -> get_image_name i db = (Ok None, db)) /\
  (exists r, get_image_name i db = (Ok r, db)).
Proof.
  split; [apply get_image_name_in_range|]. split; [apply get_image_name_out_of_range|].
  destruct (decide (0 <= i < Py.len (image_names db))) as [Hi|Hi].
  - destruct (get_image_name_in_range i db Hi) as (name & _ & ->). eauto.
  - rewrite get_image_name_out_of_range by done. eauto.
Qed.

End Claims.

(** * Runs on concrete inputs *)

Section Runs.
Import Concrete.

Lemma big_image_len : Py.len big_image = 10485761.
Proof.
  unfold Py.len, big_image. rewrite length_replicate, N_nat_Z. reflexivity.
Qed.

(** The integers that stand in for floats are ordered by [<]. *)
Lemma integers_ordered : distances_ordered.
Proof.
  split.
  - intros x y _ _ Hxy. apply Z.ltb_lt in Hxy. apply Z.ltb_ge. lia.
  - intros x y z _ _ _ Hxy Hyz. apply Z.ltb_ge in Hxy, Hyz. apply Z.ltb_ge. lia.
Qed.

Lemma wf_db0 : wf db0.
Proof. apply wf_init. Qed.

Lemma wf_db_pair : wf db_pair.
Proof. apply wf_add_vectors, wf_init. Qed.

Lemma wf_db_one : wf db_one.
Proof. apply wf_add_vectors, wf_init. Qed.

(** C9. An image of more than 10 MiB that arrives base64-encoded in the
    JSON body is refused by [process_image] before the embedding model is
    called (the log of embedded images stays empty) and nothing is added
    to the store, but the handler answers with the server error 500, whose
    detail wraps the text of the client error; the same image uploaded as
    a multipart file is answered with the client error 400 "Image size
    exceeds 10 MB". *)
Theorem oversize_base64_image_is_server_error :
  10 * 1024 * 1024 < Py.len big_image /\
  b64decode (JStr "big") = Ok big_image /\
  process_image big_image w0 = (Raise (HTTPException 400 "Image size exceeds 10 MB"), w0) /\
  add_images "r" big_base64_request None w0
    = (Raise (HTTPException 500 "Error processing Base64 image: 400: Image size exceeds 10 MB"),
       w0) /\
  embedded w0 = [] /\ vector_db w0 = db0 /\
  add_images "r" multipart_request (Some [big_file]) w0
    = (Raise (HTTPException 400 "Image size exceeds 10 MB"), w0).
Proof.
  assert (10 * 1024 * 1024 < Py.len big_image) as Hbig by (rewrite big_image_len; lia).
  split; [done|]. split; [reflexivity|]. split; [by apply process_image_too_large|].
  split; [|split; [reflexivity|split; [reflexivity|]]].
  - by apply (add_images_base64_too_large "r" big_base64_request (JStr "big") [] big_image w0).
  - by apply (add_images_file_too_large "r" multipart_request big_file [] w0).
Qed.

(** A batch of one vector of length 3 offered to the empty store of
    dimension 2. *)
Lemma add_vectors_dimension_mismatch_witness :
  (exists v : list Z, v ∈ [[1; 2; 3]] /\ Py.len v <> dim db0) /\
  exists msg,
    add_vectors "r" [[1; 2; 3]] db0 = (Raise (ValueError msg), db0) /\
    let db' := snd (add_vectors "r" [[1; 2; 3]] db0) in
    vectors db' = vectors db0 /\ index db' = index db0 /\
    request_map db' = request_map db0 /\ image_names db' = image_names db0.
Proof.
  assert (exists v : list Z, v ∈ [[1; 2; 3]] /\ Py.len v <> dim db0) as H.
  { exists [1; 2; 3]. split; [apply list_elem_of_here|]. lazy -[Z.le Z.lt not]. lia. }
  split; [exact H|]. exact (add_vectors_dimension_mismatch (Ext:=ext) "r" [[1; 2; 3]] db0 H).
Defined.

(** Two vectors added to the empty store under the request ["a"]. *)
Lemma add_assigns_names_witness :
  wf db0 /\ add_vectors "a" [[1; 2]; [1; 2]] db0 = (Ok tt, db_pair) /\
  request_map db_pair !! "a" = Some (0, 2) /\
  image_names db_pair = ["image_1"; "image_2"] /\
  get_image_name 1 db_pair = (Ok (Some "image_2"), db_pair).
Proof.
  assert (add_vectors "a" [[1; 2]; [1; 2]] db0 = (Ok tt, db_pair)) as Hrun
    by reflexivity.
  destruct (proj1 (add_assigns_names (Ext:=ext)) "a" [[1; 2]; [1; 2]] db0 db_pair wf_db0 Hrun)
    as (Hmap & _ & Hnames & Hget).
  split; [exact wf_db0|]. split; [exact Hrun|]. split; [exact Hmap|].
  split; [exact Hnames|]. apply (Hget 1). lazy -[Z.le Z.lt not]. lia.
Defined.

(** The duplicate query for the request that holds the same vector twice,
    with threshold 0 and k = 2. *)
Lemma duplicates_characterised_witness :
  wf (vector_db w_pair) /\ request_map (vector_db w_pair) !! "a" = Some (0, 2) /\
  exists all_duplicates,
    duplicate_set "a" 0 2 w_pair = (Ok all_duplicates, w_pair) /\
    (1 ∈ all_duplicates <->
     exists i, 0 <= i < 2 /\ 1 ∈ (nearest_neighbours db_pair i 2).*1 /\ 1 <> i /\
               float_leb (distance db_pair i 1) 0 = true).
Proof.
  assert (request_map (vector_db w_pair) !! "a" = Some (0, 2)) as Hl
    by reflexivity.
  split; [exact wf_db_pair|]. split; [exact Hl|].
  destruct (duplicates_characterised (Ext:=ext) "a" 0 2 w_pair 0 2 wf_db_pair Hl eq_refl)
    as (res & Hrun & _ & Hiff & _).
  exists res. split; [exact Hrun|]. apply Hiff. lazy -[Z.le Z.lt not]. lia.
Defined.

(** C3, as stated, fails on its last clause: for the request that holds the
    same vector twice, at indices 0 and 1, the result set of the query with
    threshold 0 and k = 2 contains 0 and 1, the own indices of its two query
    vectors (each is the duplicate of the other). *)
Lemma result_contains_query_index_counterexample :
  request_map (vector_db w_pair) !! "a" = Some (0, 2) /\
  exists all_duplicates,
    duplicate_set "a" 0 2 w_pair = (Ok all_duplicates, w_pair) /\
    0 ∈ all_duplicates /\ 1 ∈ all_duplicates.
Proof.
  split; [reflexivity|].
  exists {[0; 1]}. split; [reflexivity|]. split; set_solver.
Qed.

(** A second batch added under the token ["a"] of the store [db_one]. *)
Lemma add_vectors_overwrites_token_witness :
  wf db_one /\ request_map db_one !! "a" = Some (0, 1) /\
  fst (add_vectors "a" [[3; 4]] db_one) = Ok tt /\
  request_map (snd (add_vectors "a" [[3; 4]] db_one)) !! "a" = Some (1, 2).
Proof.
  assert (request_map db_one !! "a" = Some (0, 1)) as Hl by reflexivity.
  assert (Forall (fun v : list Z => Py.len v = dim db_one) [[3; 4]]) as Hall
    by (repeat constructor).
  destruct (add_vectors_overwrites_token (Ext:=ext) "a" [[3; 4]] db_one (0, 1) wf_db_one Hl
              ltac:(discriminate) Hall) as (Hok & Hnew & _ & _).
  split; [exact wf_db_one|]. split; [exact Hl|]. split; [exact Hok|]. exact Hnew.
Defined.

(** C4, as stated, fails: adding under the token ["a"] a second time
    succeeds, and the record of ["a"] changes from (0, 1) to (1, 2). *)
Lemma duplicate_token_counterexample :
  request_map db_one !! "a" = Some (0, 1) /\
  fst (add_vectors "a" [[3; 4]] db_one) = Ok tt /\
  request_map (snd (add_vectors "a" [[3; 4]] db_one)) !! "a" = Some (1, 2).
Proof. repeat split; reflexivity. Qed.

(** The query with k = 3 for the first row of [far_index]: the row itself
    is the only hit, the other row is not closer than [FLT_MAX]. *)
Lemma search_pads_to_k_witness :
  (length (xb far_index) < 3)%nat /\ distances_ordered /\
  search_row far_index [2 ^ 100; 0] 3 = [(0, 0); (-1, flt_max); (-1, flt_max)] /\
  exists hits : list hit,
    search_row far_index [2 ^ 100; 0] 3 =
      (hits ++ replicate (3 - length hits) (-1, flt_max))%list /\
    (length hits <= length (xb far_index))%nat /\
    ascending hits.
Proof.
  assert (length (xb far_index) < 3)%nat as Hk by (lazy; lia).
  destruct (proj1 (search_pads_to_k (Ext:=ext)) far_index [2 ^ 100; 0] 3%nat Hk)
    as (hits & Hrow & Hlen & _ & _ & Hasc & _).
  split; [exact Hk|]. split; [exact integers_ordered|]. split; [reflexivity|].
  exists hits. split; [exact Hrow|]. split; [exact Hlen|exact (Hasc integers_ordered)].
Defined.

(** C5, as stated, fails: on the store with one vector the query with
    k = 3 returns three entries, the stored vector followed by two padding
    entries with index -1 and distance [FLT_MAX], and [search_duplicates]
    passes them on. *)
Lemma padding_counterexample :
  Py.len (vectors db_one) = 1 /\
  nearest_neighbours db_one 0 3 = [(0, 0); (-1, flt_max); (-1, flt_max)] /\
  fst (search_duplicates "a" 3 db_one) =
    Ok [("vector_0", {| indices := [0; -1; -1]; distances := [0; flt_max; flt_max] |})].
Proof. repeat split; reflexivity. Qed.

(** The token ["b"] is not registered in [db_pair]. *)
Lemma unknown_request_not_found_witness :
  request_map (vector_db w_pair) !! "b" = None /\
  search_duplicates "b" 3 (vector_db w_pair)
    = (Raise (ValueError "Request ID not found"), vector_db w_pair) /\
  find_duplicates "b" 1 3 w_pair
    = (Raise (HTTPException 404 "Request ID not found"), w_pair).
Proof.
  assert (request_map (vector_db w_pair) !! "b" = None) as Hl by reflexivity.
  split; [exact Hl|]. exact (unknown_request_not_found (Ext:=ext) "b" 1 3 w_pair Hl).
Defined.

(** A batch of one vector added after the reset of [db_pair]. *)
Lemma reset_clears_store_witness :
  add_vectors "b" [[7; 8]] (snd (reset db_pair))
    = (Ok tt, added "b" [[7; 8]] (snd (reset db_pair))) /\
  request_map (added "b" [[7; 8]] (snd (reset db_pair))) !! "b" = Some (0, 1) /\
  get_image_name 0 (added "b" [[7; 8]] (snd (reset db_pair)))
    = (Ok (Some "image_1"), added "b" [[7; 8]] (snd (reset db_pair))).
Proof.
  assert (add_vectors "b" [[7; 8]] (snd (reset db_pair))
          = (Ok tt, added "b" [[7; 8]] (snd (reset db_pair)))) as Hrun
    by reflexivity.
  destruct (reset_clears_store (Ext:=ext) db_pair) as (_ & _ & _ & _ & _ & _ & _ & Hadd).
  destruct (Hadd "b" [[7; 8]] _ Hrun) as (Hmap & _ & _ & _ & Hget).
  split; [exact Hrun|]. split; [exact Hmap|]. exact Hget.
Defined.

(** The invariant on [db_pair], after a further add and after a reset. *)
Lemma ranges_valid_preserved_witness :
  ranges_valid db_pair /\
  ranges_valid (snd (add_vectors "b" [[7; 8]] db_pair)) /\
  ranges_valid (snd (reset db_pair)).
Proof.
  assert (ranges_valid db_pair) as Hinv by (apply wf_ranges_valid, wf_db_pair).
  destruct (ranges_valid_preserved (Ext:=ext) db_pair Hinv) as (Hadd & _ & _ & Hreset).
  split; [exact Hinv|]. split; [exact (Hadd "b" [[7; 8]])|exact Hreset].
Defined.

(** The names of [db_pair] at the indices -1, 2 and 1. *)
Lemma get_image_name_total_witness :
  get_image_name (-1) db_pair = (Ok None, db_pair) /\
  get_image_name 2 db_pair = (Ok None, db_pair) /\
  exists name, image_names db_pair !! Z.to_nat 1 = Some name /\
               get_image_name 1 db_pair = (Ok (Some name), db_pair).
Proof.
  split; [|split].
  - apply (proj1 (proj2 (get_image_name_total (Ext:=ext) (-1) db_pair))). lazy -[Z.le Z.lt not]. lia.
  - apply (proj1 (proj2 (get_image_name_total (Ext:=ext) 2 db_pair))). lazy -[Z.le Z.lt not]. lia.
  - apply (proj1 (get_image_name_total (Ext:=ext) 1 db_pair)). lazy -[Z.le Z.lt not]. lia.
Defined.

End Runs.

(** * Further properties of the store *)

Section StoreFacts.
Context `{Ext : Externals}.

Lemma reachable_dim (D : Z) (db : VectorDB) : reachable D db -> dim db = D.
Proof.
  induction 1 as [|db request_id vecs _ IH|db request_id k _ IH|db i _ IH|db _ IH].
  - done.
  - by destruct (add_vectors_cases request_id vecs db) as [[e ->]|(_ & _ & _ & ->)].
  - by rewrite search_duplicates_state.
  - by rewrite get_image_name_state.
  - by rewrite reset_eq.
Qed.

Lemma add_vectors_empty (request_id : string) (db : VectorDB) :
  add_vectors request_id [] db = (Raise (IndexError "list index out of range"), db).
Proof. reflexivity. Qed.

Lemma ranges_disjoint_added (request_id : string) (vecs : list (list float)) (db : VectorDB) :
  wf db -> ranges_disjoint db -> ranges_disjoint (added request_id vecs db).
Proof.
  intros Hwf Hdis t1 t2 r1 r2 Hne H1 H2. cbn in H1, H2.
  pose proof (len_nonneg vecs) as Hn.
  destruct (decide (request_id = t1)) as [->|Ht1].
  - rewrite lookup_insert_eq in H1. rewrite lookup_insert_ne in H2 by done.
    injection H1 as <-. cbn. right.
    pose proof (map_Forall_lookup_1 _ _ _ _ (wf_ranges db Hwf) H2) as Hr. cbn in Hr. lia.
  - rewrite lookup_insert_ne in H1 by done.
    destruct (decide (request_id = t2)) as [->|Ht2].
    + rewrite lookup_insert_eq in H2. injection H2 as <-. cbn. left.
      pose proof (map_Forall_lookup_1 _ _ _ _ (wf_ranges db Hwf) H1) as Hr. cbn in Hr. lia.
    + rewrite lookup_insert_ne in H2 by done. exact (Hdis t1 t2 r1 r2 Hne H1 H2).
Qed.

Lemma range_NoDup (a b : Z) : NoDup (Py.range a b).
Proof.
  unfold Py.range. apply NoDup_fmap_2; [|apply NoDup_seq].
  intros i j Hij. lia.
Qed.

Lemma image_name_inj (i j : Z) : image_name i = image_name j -> i = j.
Proof. unfold image_name. intros H%string_app_inj. by apply str_int_inj. Qed.

(** X1. In every store that the methods build from [VectorDB(D)], the
    FAISS index, the vector list and the name list have the same length,
    the index holds the float32 images of the stored vectors in the same
    order, and every stored vector has length [D]. *)
Theorem reachable_store_consistent (D : Z) (db : VectorDB) :
  reachable D db ->
  dim db = D /\ d (index db) = D /\
  ntotal (index db) = Py.len (vectors db) /\
  Py.len (image_names db) = Py.len (vectors db) /\
  xb (index db) = to_float32 <$> vectors db /\
  Forall (fun v => Py.len v = D) (vectors db).
Proof.
  intros Hreach. pose proof (reachable_dim D db Hreach) as Hdim.
  destruct (wf_reachable D db Hreach) as [Hd Hxb Hrows Hnames _].
  pose proof (len_nonneg (vectors db)).
  split; [done|]. split; [congruence|]. split; [|split; [|split; [done|by rewrite <- Hdim]]].
  - unfold ntotal, Py.len. by rewrite Hxb, length_fmap.
  - rewrite Hnames, names_len; lia.
Qed.

(** X2. On a store whose index has the store's dimension, [add_vectors]
    succeeds exactly when the batch is not empty and every vector of it has
    length [dim]; whenever it does not succeed the store is unchanged; and
    on the empty batch the exception is an [IndexError], raised while the
    message of the dimension error is being formatted. *)
Theorem add_vectors_succeeds_iff
    (request_id : string) (vecs : list (list float)) (db : VectorDB) :
  d (index db) = dim db ->
  (fst (add_vectors request_id vecs db) = Ok tt <->
   vecs <> [] /\ Forall (fun v => Py.len v = dim db) vecs) /\
  (fst (add_vectors request_id vecs db) <> Ok tt ->
   snd (add_vectors request_id vecs db) = db) /\
  (vecs = [] ->
   exists msg, add_vectors request_id vecs db = (Raise (IndexError msg), db)).
Proof.
  intros Hd. split; [|split].
  - split.
    + intros Hok.
      destruct (add_vectors_cases request_id vecs db) as [[e He]|(Hne & Hall & _ & _)];
        [by rewrite He in Hok|done].
    + intros [Hne Hall]. by rewrite add_vectors_ok.
  - intros Hfail.
    destruct (add_vectors_cases request_id vecs db) as [[e ->]|(_ & _ & _ & Hok)];
      [done|]. by rewrite Hok in Hfail.
  - intros ->. rewrite add_vectors_empty. eauto.
Qed.

(** X3. [add_vectors] only appends: whatever the call does, every vector,
    every row of the index and every name that was stored stays at its
    index, the corpus does not shrink, and the records of all other
    tokens are untouched. *)
Theorem add_vectors_append_only
    (request_id : string) (vecs : list (list float)) (db : VectorDB) :
  let db' := snd (add_vectors request_id vecs db) in
  (forall i v, vectors db !! i = Some v -> vectors db' !! i = Some v) /\
  (forall i x, xb (index db) !! i = Some x -> xb (index db') !! i = Some x) /\
  (forall i name, image_names db !! i = Some name -> image_names db' !! i = Some name) /\
  Py.len (vectors db) <= Py.len (vectors db') /\
  (forall token, token <> request_id ->
     request_map db' !! token = request_map db !! token).
Proof.
  destruct (add_vectors_cases request_id vecs db) as [[e ->]|(_ & _ & _ & ->)]; cbn.
  - repeat split; auto; lia.
  - split; [|split; [|split; [|split]]].
    + intros i v Hv. by apply lookup_app_l_Some.
    + intros i x Hx. by apply lookup_app_l_Some.
    + intros i name Hn. by apply lookup_app_l_Some.
    + rewrite len_app. pose proof (len_nonneg vecs). lia.
    + intros token Hne. by rewrite lookup_insert_ne.
Qed.

(** X4. In every store built from [VectorDB(D)] the ranges recorded for
    two different tokens do not overlap: a stored vector belongs to the
    record of at most one request. *)
Theorem reachable_ranges_disjoint (D : Z) (db : VectorDB) :
  reachable D db -> ranges_disjoint db.
Proof.
  induction 1 as [|db request_id vecs Hreach IH|db request_id k _ IH|db i _ IH|db _ IH].
  - intros t1 t2 r1 r2 _ H1. cbn in H1. by rewrite lookup_empty in H1.
  - destruct (add_vectors_cases request_id vecs db) as [[e ->]|(_ & _ & _ & ->)]; [done|].
    apply ranges_disjoint_added; [by eapply wf_reachable|done].
  - by rewrite search_duplicates_state.
  - by rewrite get_image_name_state.
  - rewrite reset_eq. intros t1 t2 r1 r2 _ H1. cbn in H1. by rewrite lookup_empty in H1.
Qed.

(** X5. In every store built from [VectorDB(D)] the image names are
    pairwise different: no two indices share a name. *)
Theorem reachable_names_distinct (D : Z) (db : VectorDB) :
  reachable D db -> NoDup (image_names db).
Proof.
  intros Hreach. rewrite (wf_names db (wf_reachable D db Hreach)).
  apply NoDup_fmap_2; [|apply range_NoDup].
  intros i j. apply image_name_inj.
Qed.

(** X6. [reset] brings every store built from [VectorDB(D)] back to the
    freshly constructed store [VectorDB(D)]. *)
Theorem reset_restores_initial (D : Z) (db : VectorDB) :
  reachable D db -> reset db = (Ok tt, VectorDB_init D).
Proof.
  intros Hreach. rewrite reset_eq.
  rewrite (wf_d db (wf_reachable D db Hreach)), (reachable_dim D db Hreach). done.
Qed.

End StoreFacts.

(** * Further properties of the handlers *)

Section HandlerFacts.
Context `{Ext : Externals}.

Lemma for_each_length {S A B} (xs : list A) (body : A -> M S B) (acc res : list B) (s s' : S) :
  for_each xs body acc s = (Ok res, s') -> length res = (length acc + length xs)%nat.
Proof.
  revert acc s. induction xs as [|x xs IH]; intros acc s; cbn.
  - intros [= <- _]. lia.
  - unfold bind. destruct (body x s) as [[b|e] s1]; [|done].
    intros H%IH. rewrite length_app in H. cbn in H. lia.
Qed.

(** A loop whose body raises on one of its elements, in every state,
    raises; the exception is one that the body raised. *)
Lemma for_each_bad {S A B} (P : exn -> Prop)
    (xs : list A) (body : A -> M S B) (x0 : A) :
  (forall x s e s', body x s = (Raise e, s') -> P e) ->
  x0 ∈ xs -> (forall s, exists e s', body x0 s = (Raise e, s')) ->
  forall acc s, exists e s', for_each xs body acc s = (Raise e, s') /\ P e.
Proof.
  intros HP Hin Hbad. induction xs as [|x xs IH]; intros acc s.
  - by apply elem_of_nil in Hin.
  - cbn. unfold bind. destruct (body x s) as [[b|e] s1] eqn:Hx.
    + apply elem_of_cons in Hin as [->|Hin].
      * destruct (Hbad s) as (e & s' & He). congruence.
      * by apply IH.
    + exists e, s1. split; [done|]. by eapply HP.
Qed.


Lemma collect_vectors_length (request : Request) (files : option (list UploadFile))
    (w w1 : World) (vecs : list (list float)) :
  collect_vectors request files w = (Ok vecs, w1) -> Py.len vecs = image_count request files.
Proof.
  intros (v1 & s1 & images & v2 & s2 & urls & H1 & _ & <- & H2 & _ & <- & H3)%collect_vectors_ok_inv.
  apply for_each_length in H1, H2, H3.
  unfold image_count, Py.len. cbn in H1. lia.
Qed.

(** What a successful [add_images] has done. *)
Lemma add_images_ok_inv (request_id : string) (request : Request)
    (files : option (list UploadFile)) (w w' : World) (resp : AddImagesResponse) :
  add_images request_id request files w = (Ok resp, w') ->
  exists vecs w1,
    collect_vectors request files w = (Ok vecs, w1) /\ vecs <> [] /\
    Forall (fun v => Py.len v = dim (vector_db w)) vecs /\
    vector_db w' = added request_id vecs (vector_db w) /\
    embedded w' = embedded w1 /\
    resp = {| resp_request_id := request_id;
              added_images := Py.len vecs;
              system_image_names :=
                image_name <$> Py.range (Py.len (vectors (vector_db w)) + 1)
                                 (Py.len (vectors (vector_db w)) + Py.len vecs + 1) |}.
Proof.
  rewrite add_images_collect. unfold bind.
  pose proof (collect_vectors_db request files w) as Hdb.
  destruct (collect_vectors request files w) as [[vecs|e] w1]; cbn in Hdb; [|done].
  destruct vecs as [|v vecs]; [done|].
  unfold on_db, get, ret. rewrite Hdb.
  destruct (add_vectors_cases request_id (v :: vecs) (vector_db w))
    as [[e Hrun]|(Hne & Hall & _ & Hrun)]; rewrite Hrun; [done|].
  intros [= <- <-]. exists (v :: vecs), w1. repeat split; try done.
  cbn [vector_db added vectors]. rewrite len_app. do 5 f_equal. lia.
Qed.

Lemma for_each_count {S A B} (g : S -> nat) (xs : list A) (body : A -> M S B)
    (acc res : list B) (s s' : S) :
  (forall x s b s', body x s = (Ok b, s') -> g s' = Datatypes.S (g s)) ->
  for_each xs body acc s = (Ok res, s') -> g s' = (g s + length xs)%nat.
Proof.
  intros Hbody. revert acc s. induction xs as [|x xs IH]; intros acc s; cbn.
  - intros [= _ <-]. lia.
  - unfold bind. destruct (body x s) as [[b|e] s1] eqn:Hx; [|done].
    intros H%IH. apply Hbody in Hx. lia.
Qed.

(** *** Reading the images from the JSON body *)

(** The dict built from pairs has a key exactly when one of the pairs has
    it. *)
Lemma dict_get_set {V} (d : list (string * V)) (k k' : string) (v : V) :
  Py.dict_get (Py.dict_set d k v) k' =
    if String.eqb k k' then Some v else Py.dict_get d k'.
Proof.
  unfold Py.dict_get. induction d as [|[k0 v0] d IH]; cbn.
  - by destruct (String.eqb k k').
  - destruct (String.eqb_spec k0 k) as [->|Hne]; cbn.
    + by destruct (String.eqb k k').
    + destruct (String.eqb_spec k0 k') as [->|Hne'].
      * by destruct (String.eqb_spec k k') as [->|_].
      * exact IH.
Qed.

Lemma dict_of_pairs_nil {V} (k : string) :
  Py.dict_get (Py.dict_of_pairs (@nil (string * V))) k = None.
Proof. reflexivity. Qed.

(** Whatever reading the images raises is a [TypeError]. *)
Lemma loop_items_raises (data : value) (key : string) (e : exn) :
  loop_items data key = Raise e -> exists msg, e = TypeError msg.
Proof.
  unfold loop_items. destruct (truthy data); [|done].
  destruct data as [|b|n|x|s|items|members]; cbn;
    try (intros [= <-]; by eexists).
  - destruct (Py.contains_str key s); [|done]. intros [= <-]. by eexists.
  - destruct (existsb _ items); [|done]. intros [= <-]. by eexists.
  - destruct (Py.dict_get (Py.dict_of_pairs members) key) as [v|]; [|done].
    destruct v; cbn; try done; intros [= <-]; by eexists.
Qed.

(** A body that is an object whose key holds [None], a boolean or a
    number cannot be looped over. *)
Lemma loop_items_not_iterable (members : list (string * value)) (key : string) (v : value) :
  Py.dict_get (Py.dict_of_pairs members) key = Some v -> not_iterable v ->
  exists msg, loop_items (JDict members) key = Raise (TypeError msg).
Proof.
  intros Hget Hv. unfold loop_items.
  destruct members as [|kv members]; [by rewrite dict_of_pairs_nil in Hget|].
  cbn [truthy contains subscript]. rewrite Hget.
  destruct v; cbn in Hv; try done; cbn; by eexists.
Qed.

(** A body that is itself a boolean or a number, and is not falsy, cannot
    be searched for a key. *)
Lemma loop_items_no_container (data : value) (key : string) :
  truthy data = true -> not_iterable data ->
  exists msg, loop_items data key = Raise (TypeError msg).
Proof.
  intros Ht Hd. unfold loop_items. rewrite Ht.
  destruct data; cbn in Hd; try done; cbn; by eexists.
Qed.

(** *** What [process_image] and the loop bodies raise and log *)

Lemma process_image_raises (image_bytes : bytes) (w w' : World) (e : exn) :
  process_image image_bytes w = (Raise e, w') -> is_http_400_or_500 e.
Proof.
  unfold process_image, call_image_to_vector. monad_unfold.
  destruct (10 * 1024 * 1024 <? Py.len image_bytes).
  - intros [= <- _]. eexists. by left.
  - destruct (image_to_vector image_bytes); [done|]. cbn. intros [= <- _]. eexists. by right.
Qed.

Lemma process_image_ok_logs (image_bytes : bytes) (w w' : World) (v : list float) :
  process_image image_bytes w = (Ok v, w') ->
  image_to_vector image_bytes = Ok v /\
  Py.len image_bytes <= 10 * 1024 * 1024 /\
  w' = {| vector_db := vector_db w; embedded := embedded w ++ [image_bytes] |}.
Proof.
  unfold process_image, call_image_to_vector. monad_unfold.
  destruct (Z.ltb_spec (10 * 1024 * 1024) (Py.len image_bytes)); [done|].
  destruct (image_to_vector image_bytes); [|done]. by intros [= <- <-].
Qed.

Lemma add_file_raises (file : UploadFile) (w w' : World) (e : exn) :
  add_file file w = (Raise e, w') -> is_http_400_or_500 e.
Proof.
  unfold add_file. destruct (negb _).
  - intros [= <- _]. eexists. by left.
  - apply process_image_raises.
Qed.

Lemma add_file_bad (file : UploadFile) (w : World) :
  allowed_file_type (file_content_type file) = false \/
    10 * 1024 * 1024 < Py.len (file_read file) ->
  exists e w', add_file file w = (Raise e, w').
Proof.
  intros [Hty|Hbig]; unfold add_file.
  - rewrite Hty. cbn. unfold raise. eauto.
  - destruct (negb _); [unfold raise; eauto|].
    rewrite process_image_too_large by done. eauto.
Qed.


Lemma add_file_ok_logs (file : UploadFile) (w w' : World) (v : list float) :
  add_file file w = (Ok v, w') -> length (embedded w') = Datatypes.S (length (embedded w)).
Proof.
  unfold add_file. destruct (negb _); [done|].
  intros (_ & _ & ->)%process_image_ok_logs. cbn. rewrite length_app. cbn. lia.
Qed.

Lemma add_base64_ok_logs (image_b64 : value) (w w' : World) (v : list float) :
  add_base64 image_b64 w = (Ok v, w') -> length (embedded w') = Datatypes.S (length (embedded w)).
Proof.
  unfold add_base64. monad_unfold. destruct (b64decode image_b64) as [bs|e0]; cbn; [|done].
  destruct (process_image bs w) as [[v1|e1] w1] eqn:Hp; [|done].
  intros [= _ <-]. apply process_image_ok_logs in Hp as (_ & _ & ->).
  cbn. rewrite length_app. cbn. lia.
Qed.

Lemma add_url_ok_logs (image_url : value) (w w' : World) (v : list float) :
  add_url image_url w = (Ok v, w') -> length (embedded w') = Datatypes.S (length (embedded w)).
Proof.
  unfold add_url. monad_unfold. destruct (requests_get image_url) as [resp|e0]; cbn.
  - destruct (negb _); cbn; [done|].
    destruct (response_content resp) as [|b bs]; cbn; [done|].
    destruct (process_image (b :: bs) w) as [[v1|e1] w1] eqn:Hp.
    + intros [= _ <-]. apply process_image_ok_logs in Hp as (_ & _ & ->).
      cbn. rewrite length_app. cbn. lia.
    + by destruct (is_RequestException e1).
  - by destruct (is_RequestException e0).
Qed.

Lemma collect_vectors_logs (request : Request) (files : option (list UploadFile))
    (w w1 : World) (vecs : list (list float)) :
  collect_vectors request files w = (Ok vecs, w1) ->
  Py.len (embedded w1) = Py.len (embedded w) + image_count request files.
Proof.
  intros (v1 & s1 & images & v2 & s2 & urls & H1 & _ & <- & H2 & _ & <- & H3)%collect_vectors_ok_inv.
  apply (for_each_count (fun w => length (embedded w))) in H1; [|intros ? ? ? ?; apply add_file_ok_logs].
  apply (for_each_count (fun w => length (embedded w))) in H2; [|intros ? ? ? ?; apply add_base64_ok_logs].
  apply (for_each_count (fun w => length (embedded w))) in H3; [|intros ? ? ? ?; apply add_url_ok_logs].
  unfold image_count, Py.len. lia.
Qed.

(** A request without files whose image lists cannot be read from the body
    raises what the reading raised. *)
Lemma add_images_base64_unreadable (request_id : string) (request : Request)
    (files : option (list UploadFile)) (w : World) (e : exn) :
  submitted_files files = [] -> base64_items request = Raise e ->
  add_images request_id request files w = (Raise e, w).
Proof.
  intros Hfiles Hb64. apply add_images_collect_raises.
  rewrite collect_vectors_eq, Hfiles, Hb64. reflexivity.
Qed.

Lemma add_images_urls_unreadable (request_id : string) (request : Request)
    (files : option (list UploadFile)) (w : World) (e : exn) :
  submitted_files files = [] -> base64_items request = Ok [] -> url_items request = Raise e ->
  add_images request_id request files w = (Raise e, w).
Proof.
  intros Hfiles Hb64 Hurls. apply add_images_collect_raises.
  rewrite collect_vectors_eq, Hfiles, Hb64, Hurls. reflexivity.
Qed.

End HandlerFacts.

Section HandlerProperties.
Context `{Ext : Externals}.

Lemma len_zero_nil {A} (l : list A) : Py.len l = 0 -> l = [].
Proof. destruct l; [done|]. unfold Py.len. cbn. lia. Qed.

(** X7. A failed [/images] request adds nothing: whenever [add_images]
    raises, for whatever reason and at whatever image of the batch, the
    store is the one the request started from. *)
Theorem add_images_failure_keeps_store
    (request_id : string) (request : Request) (files : option (list UploadFile))
    (w : World) (e : exn) :
  fst (add_images request_id request files w) = Raise e ->
  vector_db (snd (add_images request_id request files w)) = vector_db w.
Proof.
  intros Hfail.
  destruct (add_images_cases request_id request files w)
    as [(e' & w' & Hrun & Hdb)|(vecs & w' & _ & _ & _ & _ & Hrun)];
    rewrite Hrun in *; [done|discriminate Hfail].
Qed.

(** X8. A successful [/images] request has embedded every submitted
    image, uploaded files, base64 images and URLs alike, each exactly
    once: [added_images] is their number and is positive, there is one
    reported name per image, the corpus has grown by that number, and so
    has the log of calls to the embedding model. *)
Theorem add_images_embeds_every_image
    (request_id : string) (request : Request) (files : option (list UploadFile))
    (w w' : World) (resp : AddImagesResponse) :
  add_images request_id request files w = (Ok resp, w') ->
  added_images resp = image_count request files /\
  0 < added_images resp /\
  Py.len (system_image_names resp) = added_images resp /\
  Py.len (vectors (vector_db w')) = Py.len (vectors (vector_db w)) + added_images resp /\
  Py.len (embedded w') = Py.len (embedded w) + added_images resp.
Proof.
  intros (vecs & w1 & Hcol & Hne & _ & Hdb & Hlog & ->)%add_images_ok_inv.
  pose proof (collect_vectors_length _ _ _ _ _ Hcol) as Hlen.
  pose proof (collect_vectors_logs _ _ _ _ _ Hcol) as Hlogs.
  pose proof (len_nonneg vecs) as Hpos.
  assert (Py.len vecs <> 0) as Hnz by (intros H%len_zero_nil; done).
  cbn [added_images system_image_names].
  split; [done|]. split; [lia|]. split; [rewrite names_len; lia|]. split.
  - rewrite Hdb. cbn. by rewrite len_app.
  - rewrite Hlog, Hlogs. lia.
Qed.

(** X9. What a request without uploaded files is answered when its body
    gives no image.  When both loops over the body have nothing to go
    through, as for a body that is not read or is falsy ([None], zero, an
    empty text, list or object), the answer is the client error 400 "No
    valid images provided".  When reading the images from the body raises, the
    exception is a [TypeError] and leaves the handler as it is, not as an
    HTTP error: this happens for a body that is an object whose key
    ["base64_images"] holds [None], a boolean or a number, and for a body
    that is itself a boolean or a number other than zero.  In every case
    the store and the log of the embedding model are untouched. *)
Theorem add_images_without_images
    (request_id : string) (request : Request) (files : option (list UploadFile)) (w : World) :
  submitted_files files = [] ->
  (base64_items request = Ok [] -> url_items request = Ok [] ->
   add_images request_id request files w
     = (Raise (HTTPException 400 "No valid images provided"), w)) /\
  (truthy (request_data request) = false ->
   add_images request_id request files w
     = (Raise (HTTPException 400 "No valid images provided"), w)) /\
  (forall e, base64_items request = Raise e ->
     (exists msg, e = TypeError msg) /\
     add_images request_id request files w = (Raise e, w)) /\
  (forall e, base64_items request = Ok [] -> url_items request = Raise e ->
     (exists msg, e = TypeError msg) /\
     add_images request_id request files w = (Raise e, w)) /\
  (forall members v,
     request_data request = JDict members ->
     Py.dict_get (Py.dict_of_pairs members) "base64_images" = Some v -> not_iterable v ->
     exists msg, add_images request_id request files w = (Raise (TypeError msg), w)) /\
  (truthy (request_data request) = true -> not_iterable (request_data request) ->
   exists msg, add_images request_id request files w = (Raise (TypeError msg), w)).
Proof.
  intros Hfiles.
  assert (base64_items request = Ok [] -> url_items request = Ok [] ->
          add_images request_id request files w
            = (Raise (HTTPException 400 "No valid images provided"), w)) as Hnone.
  { intros Hb64 Hurls. rewrite add_images_collect. unfold bind at 1.
    rewrite collect_vectors_eq, Hfiles, Hb64, Hurls. reflexivity. }
  split; [done|]. split; [|split; [|split; [|split]]].
  - intros Hfalsy. apply Hnone; unfold base64_items, url_items, loop_items; by rewrite Hfalsy.
  - intros e Hb64. split; [by eapply loop_items_raises|].
    by apply add_images_base64_unreadable.
  - intros e Hb64 Hurls. split; [by eapply loop_items_raises|].
    by apply add_images_urls_unreadable.
  - intros members v Hdata Hget Hv.
    destruct (loop_items_not_iterable members "base64_images" v Hget Hv) as [msg Hmsg].
    exists msg. apply add_images_base64_unreadable; [done|].
    unfold base64_items. by rewrite Hdata.
  - intros Ht Hd.
    destruct (loop_items_no_container (request_data request) "base64_images" Ht Hd)
      as [msg Hmsg].
    exists msg. by apply add_images_base64_unreadable.
Qed.

(** X10. One uploaded file of an unsupported content type, or of more than
    10 MiB, anywhere in the list of files makes the whole request fail:
    the answer is an HTTP error with status 400 or 500 (500 when an
    earlier file could not be embedded), and the store is unchanged. *)
Theorem add_images_rejects_bad_file
    (request_id : string) (request : Request) (fs : list UploadFile)
    (file : UploadFile) (w : World) :
  file ∈ fs ->
  allowed_file_type (file_content_type file) = false \/
    10 * 1024 * 1024 < Py.len (file_read file) ->
  exists status detail w',
    add_images request_id request (Some fs) w = (Raise (HTTPException status detail), w') /\
    (status = 400 \/ status = 500) /\
    vector_db w' = vector_db w.
Proof.
  intros Hin Hbad.
  destruct (for_each_bad is_http_400_or_500 fs add_file file) with (acc := @nil (list float)) (s := w)
    as (e & w' & Hrun & [detail He]).
  { intros x s e s'. apply add_file_raises. }
  { done. }
  { intros s. by apply add_file_bad. }
  assert (collect_vectors request (Some fs) w = (Raise e, w')) as Hcol.
  { rewrite collect_vectors_eq. by apply bind_raise. }
  pose proof (collect_vectors_db request (Some fs) w) as Hdb. rewrite Hcol in Hdb.
  apply (add_images_collect_raises request_id) in Hcol.
  destruct He as [->| ->]; eexists _, detail, w'; (split; [exact Hcol|]); auto.
Qed.

(** X11. What a request answers when its first image is a URL that cannot
    be downloaded: an error of the HTTP client ([RequestException]) gives
    500 "Error processing image from URL: ...", a status other than 200
    gives 400 "Failed to download image from URL: ...", an empty body
    gives 400 "Downloaded image is empty from URL: ...", and any other
    exception of the client passes through unchanged.  In each case
    nothing was embedded and the store is untouched. *)
Theorem url_download_failures
    (request_id : string) (request : Request) (files : option (list UploadFile))
    (image_url : value) (rest : list value) (w : World) :
  submitted_files files = [] -> base64_items request = Ok [] ->
  submitted_urls request = image_url :: rest ->
  (forall msg, requests_get image_url = Raise (RequestException msg) ->
     add_images request_id request files w
       = (Raise (HTTPException 500 ("Error processing image from URL: " +:+ msg)), w)) /\
  (forall response, requests_get image_url = Ok response ->
     response_status_code response <> 200 ->
     add_images request_id request files w
       = (Raise (HTTPException 400
                   ("Failed to download image from URL: " +:+ str_value image_url
                    +:+ " (Status code: "
                    +:+ Py.str_int (response_status_code response) +:+ ")")), w)) /\
  (forall response, requests_get image_url = Ok response ->
     response_status_code response = 200 -> response_content response = [] ->
     add_images request_id request files w
       = (Raise (HTTPException 400
                   ("Downloaded image is empty from URL: " +:+ str_value image_url)), w)) /\
  (forall e, requests_get image_url = Raise e -> is_RequestException e = false ->
     add_images request_id request files w = (Raise e, w)).
Proof.
  intros Hfiles Hb64 Hsub.
  assert (url_items request = Ok (image_url :: rest)) as Hurls.
  { unfold submitted_urls in Hsub. destruct (url_items request); [by subst|done]. }
  assert (forall e, add_url image_url w = (Raise e, w) ->
            add_images request_id request files w = (Raise e, w)) as Hfirst.
  { intros e He. apply add_images_collect_raises.
    rewrite collect_vectors_eq, Hfiles, Hb64, Hurls.
    cbn [for_each]. unfold bind at 1 2 3 4. unfold ret, lift_result. by apply bind_raise. }
  split; [|split; [|split]].
  - intros msg Hget. apply Hfirst. unfold add_url. monad_unfold. by rewrite Hget.
  - intros response Hget Hst. apply Hfirst. unfold add_url. monad_unfold. rewrite Hget.
    cbn match. destruct (Z.eqb_spec (response_status_code response) 200); [done|]. done.
  - intros response Hget Hst Hempty. apply Hfirst. unfold add_url. monad_unfold.
    rewrite Hget. cbn match. rewrite Hst, Hempty. done.
  - intros e Hget He. apply Hfirst. unfold add_url. monad_unfold. by rewrite Hget, He.
Qed.


End HandlerProperties.

(** * Further properties of the duplicate query *)

Section QueryProperties.
Context `{Ext : Externals}.

Lemma scan_hits_state {S} (is_ : list Z) (indices : list Z) (distances : list float)
    (cur : Z) (thr : float) (acc : gset Z) (s : S) :
  snd (scan_hits is_ indices distances cur thr acc s) = s.
Proof.
  revert acc. induction is_ as [|i is_ IH]; intros acc; [done|].
  cbn [scan_hits]. monad_unfold.
  destruct (Py.getitem indices i) as [ji|e]; [|done]. cbn.
  destruct (negb (ji =? cur)); cbn.
  - destruct (Py.getitem distances i) as [di|e]; [|done]. cbn.
    destruct (float_leb di thr); apply IH.
  - apply IH.
Qed.

Lemma scan_duplicates_state {S} (items : list (string * Neighbours)) (start : Z)
    (thr : float) (acc : gset Z) (s : S) :
  snd (scan_duplicates items start thr acc s) = s.
Proof.
  revert acc. induction items as [|[key nb] items IH]; intros acc; [done|].
  cbn [scan_duplicates]. monad_unfold.
  destruct (Py.getitem (Py.split "_" key) 1) as [part|e]; [|done]. cbn.
  destruct (Py.int_of_str part) as [n|e]; [|done]. cbn.
  pose proof (scan_hits_state (Py.range 0 (Py.len (indices nb))) (indices nb) (distances nb)
                (start + n) thr acc s) as Hs.
  destruct (scan_hits _ _ _ _ _ _ s) as [[acc'|e] s']; cbn in Hs; subst s'; [apply IH|done].
Qed.

Lemma on_db_state {A} (m : M VectorDB A) (w : World) :
  snd (m (vector_db w)) = vector_db w -> snd (on_db m w) = w.
Proof.
  unfold on_db. destruct (m (vector_db w)) as [r db']. cbn. intros ->. by destruct w.
Qed.

Lemma image_names_of_state (idxs : list Z) (w : World) :
  snd (image_names_of idxs w) = w.
Proof.
  induction idxs as [|j idxs IH]; [done|]. cbn [image_names_of]. unfold bind.
  pose proof (on_db_state (get_image_name j) w (get_image_name_state j (vector_db w))) as Hs.
  destruct (on_db (get_image_name j) w) as [[name|e] w1]; cbn in Hs; subst w1; [|done].
  destruct (image_names_of idxs w) as [[names|e] w2]; cbn in IH; subst w2; done.
Qed.

Lemma duplicate_set_state (request_id : string) (threshold : float) (k : Z) (w : World) :
  snd (duplicate_set request_id threshold k w) = w.
Proof.
  unfold duplicate_set. monad_unfold.
  destruct (request_map (vector_db w) !! request_id) as [[start_index end_index]|]; [|done].
  pose proof (on_db_state (search_duplicates request_id k) w
                (search_duplicates_state request_id k (vector_db w))) as Hs.
  destruct (on_db (search_duplicates request_id k) w) as [[dups|e] w1]; cbn in Hs; subst w1;
    [|done].
  apply scan_duplicates_state.
Qed.

Lemma duplicates_from_lookup (b : Z) (rows : list (list hit)) (n : nat) :
  duplicates_from b rows !! n =
    (fun row => ("vector_" +:+ Py.str_int (b + Z.of_nat n), neighbours_of row)) <$> rows !! n.
Proof.
  revert b n. induction rows as [|row rows IH]; intros b n; [done|].
  destruct n as [|n]; cbn [duplicates_from lookup list_lookup fmap option_fmap option_map].
  - by rewrite Z.add_0_r.
  - rewrite IH. by replace (b + 1 + Z.of_nat n) with (b + Z.of_nat (Datatypes.S n)) by lia.
Qed.

Lemma duplicates_from_length (b : Z) (rows : list (list hit)) :
  length (duplicates_from b rows) = length rows.
Proof. revert b. induction rows as [|row rows IH]; intros b; cbn; [done|]. by rewrite IH. Qed.

Lemma find_duplicates_ok (request_id : string) (threshold : float) (k : Z)
    (w : World) (s e : Z) :
  wf (vector_db w) -> request_map (vector_db w) !! request_id = Some (s, e) -> 0 < k ->
  exists res,
    duplicate_set request_id threshold k w = (Ok res, w) /\
    (forall j, j ∈ res <->
       exists i dd, s <= i < e /\ (j, dd) ∈ nearest_neighbours (vector_db w) i k /\
                    j <> i /\ float_leb dd threshold = true) /\
    find_duplicates request_id threshold k w =
      (Ok (if decide (res = ∅) then NoDuplicatesFound
           else Duplicates request_id
                  ((fun j => if decide (0 <= j < Py.len (vectors (vector_db w)))
                             then Some (image_name (j + 1)) else None)
                     <$> elements res)), w).
Proof.
  intros Hwf Hl Hk.
  destruct (duplicate_set_spec request_id threshold k w s e Hwf Hl Hk) as (res & Hrun & Hres).
  exists res. split; [done|]. split; [done|].
  unfold find_duplicates, bind. rewrite Hrun.
  destruct (decide (res = ∅)); [done|]. by rewrite image_names_of_spec.
Qed.

(** With [k <= 0] the search fails on the assertion [k > 0] of FAISS. *)
Lemma search_duplicates_non_positive (request_id : string) (k : Z) (db : VectorDB) (s e : Z) :
  wf db -> request_map db !! request_id = Some (s, e) -> k <= 0 ->
  search_duplicates request_id k db = (Raise AssertionError, db).
Proof.
  intros Hwf Hl Hk. destruct (wf_range _ _ _ _ Hwf Hl) as (Hs & Hse & He).
  unfold search_duplicates. monad_unfold. rewrite Hl. rewrite slice_in_range by lia.
  set (qs := take (Z.to_nat (e - s)) (drop (Z.to_nat s) (vectors db))).
  assert (length qs = Z.to_nat (e - s)) as Hlen.
  { unfold qs. rewrite length_take, length_drop. unfold Py.len in He. lia. }
  rewrite (np_array_uniform qs (dim db)).
  - unfold faiss_search. cbn. rewrite (wf_d _ Hwf), Z.eqb_refl.
    destruct (Z.ltb_spec 0 k); [lia|done].
  - intros ->. cbn in Hlen. lia.
  - unfold qs. apply Forall_take, Forall_drop, Hwf.
Qed.

(** An exception of the search is answered with the server error 500. *)
Lemma find_duplicates_search_raises (request_id : string) (threshold : float) (k : Z)
    (w : World) (r : Z * Z) (e : exn) :
  request_map (vector_db w) !! request_id = Some r ->
  search_duplicates request_id k (vector_db w) = (Raise e, vector_db w) ->
  duplicate_set request_id threshold k w
    = (Raise (HTTPException 500 ("Error during search: " +:+ str_exn e)), w) /\
  find_duplicates request_id threshold k w
    = (Raise (HTTPException 500 ("Error during search: " +:+ str_exn e)), w).
Proof.
  intros Hl Hsearch.
  assert (duplicate_set request_id threshold k w
          = (Raise (HTTPException 500 ("Error during search: " +:+ str_exn e)), w)) as Hset.
  { unfold duplicate_set. monad_unfold. rewrite Hl. destruct r as [s0 e0]. unfold on_db.
    rewrite Hsearch. cbn. by destruct w. }
  split; [done|]. unfold find_duplicates, bind. by rewrite Hset.
Qed.

(** X13. The duplicate query only reads: whatever [find_duplicates] and
    [search_duplicates] return or raise, the store and the log of the
    embedding model are as they were before the call. *)
Theorem find_duplicates_read_only
    (request_id : string) (threshold : float) (k : Z) (w : World) :
  snd (find_duplicates request_id threshold k w) = w /\
  snd (search_duplicates request_id k (vector_db w)) = vector_db w.
Proof.
  split; [|apply search_duplicates_state].
  unfold find_duplicates, bind.
  pose proof (duplicate_set_state request_id threshold k w) as Hs.
  destruct (duplicate_set request_id threshold k w) as [[res|e] w1]; cbn in Hs; subst w1;
    [|done].
  destruct (decide (res = ∅)); [done|].
  pose proof (image_names_of_state (elements res) w) as Hn.
  destruct (image_names_of (elements res) w) as [[names|e] w2]; cbn in Hn; subst w2; done.
Qed.

(** X14. For a registered request with range [start, end) and a positive
    [k], [search_duplicates] returns one entry per vector of the request,
    in order: the entry at position [n] has the key ["vector_n"], and its
    lists of indices and of distances both have exactly [k] elements, the
    hits of the query for the corpus index [start + n]. *)
Theorem search_duplicates_shape
    (request_id : string) (k : Z) (db : VectorDB) (s e : Z) :
  wf db -> request_map db !! request_id = Some (s, e) -> 0 < k ->
  exists duplicates,
    search_duplicates request_id k db = (Ok duplicates, db) /\
    Py.len duplicates = e - s /\
    forall n, 0 <= n < e - s ->
      exists nb,
        duplicates !! Z.to_nat n = Some ("vector_" +:+ Py.str_int n, nb) /\
        indices nb = (nearest_neighbours db (s + n) k).*1 /\
        distances nb = (nearest_neighbours db (s + n) k).*2 /\
        Py.len (indices nb) = k /\ Py.len (distances nb) = k.
Proof.
  intros Hwf Hl Hk. destruct (wf_range _ _ _ _ Hwf Hl) as (Hs & Hse & He).
  eexists. split; [by apply (search_duplicates_rows request_id k db s e)|].
  split.
  - unfold Py.len. rewrite duplicates_from_length, length_fmap, range_length. lia.
  - intros n Hn. exists (neighbours_of (nearest_neighbours db (s + n) k)).
    rewrite duplicates_from_lookup, list_lookup_fmap, range_lookup by lia.
    cbn. rewrite Z2Nat.id by lia. split; [done|]. split; [done|]. split; [done|].
    unfold Py.len, nearest_neighbours. rewrite !length_fmap, search_row_length.
    split; lia.
Qed.

(** X15. Ingesting and querying compose: a successful [/images] request
    on a well-formed store registers its request id with the range of
    the images it added, so that the duplicate query for that id never
    answers 404.  For every threshold and every [k] the query has one of
    two outcomes: the search returns one entry per added image and the
    handler returns its answer, or the search raises and the handler
    answers 500 "Error during search: ...". *)
Theorem ingest_then_query_finds_request
    (request_id : string) (request : Request) (files : option (list UploadFile))
    (w w' : World) (resp : AddImagesResponse) (threshold : float) (k : Z) :
  wf (vector_db w) -> add_images request_id request files w = (Ok resp, w') ->
  wf (vector_db w') /\
  request_map (vector_db w') !! request_id
    = Some (Py.len (vectors (vector_db w)), Py.len (vectors (vector_db w)) + added_images resp) /\
  ((exists duplicates answer,
      search_duplicates request_id k (vector_db w') = (Ok duplicates, vector_db w') /\
      Py.len duplicates = added_images resp /\
      find_duplicates request_id threshold k w' = (Ok answer, w')) \/
   (exists e,
      search_duplicates request_id k (vector_db w') = (Raise e, vector_db w') /\
      find_duplicates request_id threshold k w'
        = (Raise (HTTPException 500 ("Error during search: " +:+ str_exn e)), w'))).
Proof.
  intros Hwf (vecs & w1 & _ & Hne & Hall & Hdb & _ & ->)%add_images_ok_inv.
  assert (wf (vector_db w')) as Hwf' by (rewrite Hdb; by apply wf_added).
  assert (request_map (vector_db w') !! request_id
          = Some (Py.len (vectors (vector_db w)),
                  Py.len (vectors (vector_db w)) + Py.len vecs)) as Hl
    by (rewrite Hdb; apply lookup_insert_eq).
  split; [done|]. split; [done|].
  destruct (decide (0 < k)) as [Hk|Hk].
  - left. destruct (find_duplicates_ok request_id threshold k w' _ _ Hwf' Hl Hk)
      as (res & _ & _ & Hrun).
    eexists _, _. split; [by eapply search_duplicates_rows|]. split; [|exact Hrun].
    unfold Py.len. rewrite duplicates_from_length, length_fmap, range_length.
    cbn. unfold Py.len. lia.
  - right. exists AssertionError.
    assert (search_duplicates request_id k (vector_db w') = (Raise AssertionError, vector_db w'))
      as Hsearch by (eapply search_duplicates_non_positive; [done|done|lia]).
    split; [done|]. by eapply find_duplicates_search_raises.
Qed.

(** X16. With a threshold below the padding distance [FLT_MAX], as the
    default 1.0 is, the duplicate query reports stored images only,
    whatever [k] is: every index of the result set is a corpus index, and
    every name of the answer is the name [image_{j+1}] of a corpus index
    [j], never [None]. *)
Theorem duplicates_are_stored_images
    (request_id : string) (threshold : float) (k : Z) (w : World) :
  wf (vector_db w) -> float_leb FLT_MAX threshold = false ->
  (forall all_duplicates w',
     duplicate_set request_id threshold k w = (Ok all_duplicates, w') ->
     forall j, j ∈ all_duplicates -> 0 <= j < Py.len (vectors (vector_db w))) /\
  (forall token names w',
     find_duplicates request_id threshold k w = (Ok (Duplicates token names), w') ->
     names <> [] /\
     Forall (fun name => exists j, 0 <= j < Py.len (vectors (vector_db w)) /\
                                   name = Some (image_name (j + 1))) names).
Proof.
  intros Hwf Hthr.
  assert (forall res w',
            duplicate_set request_id threshold k w = (Ok res, w') ->
            (forall j, j ∈ res -> 0 <= j < Py.len (vectors (vector_db w))) /\
            find_duplicates request_id threshold k w =
              (Ok (if decide (res = ∅) then NoDuplicatesFound
                   else Duplicates request_id
                          ((fun j => if decide (0 <= j < Py.len (vectors (vector_db w)))
                                     then Some (image_name (j + 1)) else None)
                             <$> elements res)), w)) as Hboth.
  { intros res w' Hset.
    destruct (request_map (vector_db w) !! request_id) as [[s e]|] eqn:Hl.
    - destruct (decide (0 < k)) as [Hk|Hk].
      + destruct (find_duplicates_ok request_id threshold k w s e Hwf Hl Hk)
          as (res' & Hset' & Hres & Hrun).
        assert (res' = res) as -> by congruence.
        split; [|done]. intros j (i & dd & _ & Hhit & _ & Hle)%Hres.
        unfold nearest_neighbours in Hhit.
        apply elem_of_search_row in Hhit as [Hhit|[= -> ->]]; [|congruence].
        apply elem_of_kept_hits in Hhit as (x & Hj & Hx & _).
        split; [done|]. rewrite (wf_xb _ Hwf), list_lookup_fmap in Hx.
        destruct (vectors (vector_db w) !! Z.to_nat j) as [v|] eqn:Hv; [|done].
        apply lookup_lt_Some in Hv. unfold Py.len. lia.
      + pose proof (search_duplicates_non_positive request_id k (vector_db w) s e Hwf Hl
                      ltac:(lia)) as Hsearch.
        destruct (find_duplicates_search_raises request_id threshold k w (s, e) _ Hl Hsearch)
          as [Hraise _].
        congruence.
    - unfold duplicate_set in Hset. monad_unfold. by rewrite Hl in Hset. }
  split.
  - intros res w' Hset. by apply (Hboth res w').
  - intros token names w'. unfold find_duplicates at 1. unfold bind at 1.
    destruct (duplicate_set request_id threshold k w) as [[res|e] w1] eqn:Hset; [|done].
    destruct (Hboth res w1 eq_refl) as [Hin Hrun].
    destruct (decide (res = ∅)) as [|Hne]; [done|].
    fold (bind (image_names_of (elements res))
            (fun names => ret (Duplicates request_id names)) w1).
    intros Hnames.
    assert (find_duplicates request_id threshold k w = (Ok (Duplicates token names), w'))
      as Hrun'.
    { unfold find_duplicates, bind. rewrite Hset.
      by destruct (decide (res = ∅)). }
    rewrite Hrun in Hrun'. destruct (decide (res = ∅)); [done|].
    injection Hrun' as _ <- _. split.
    + intros Hnil%fmap_nil_inv. by apply elements_empty_inv, leibniz_equiv in Hnil.
    + apply Forall_fmap, Forall_forall. intros j Hj%elem_of_elements%Hin. cbn.
      exists j. split; [done|].
      by destruct (decide (0 <= j < Py.len (vectors (vector_db w)))).
Qed.

(** X17. When [k] exceeds the number of stored vectors and the threshold
    is at least the padding distance [FLT_MAX], the padding label [-1]
    passes the filter: it is in the result set, and the list of names the
    handler returns contains [None] for it. *)
Theorem padding_is_reported_with_large_threshold
    (request_id : string) (threshold : float) (k : Z) (w : World) (s e : Z) :
  wf (vector_db w) -> request_map (vector_db w) !! request_id = Some (s, e) ->
  Py.len (vectors (vector_db w)) < k -> float_leb FLT_MAX threshold = true ->
  exists all_duplicates names,
    duplicate_set request_id threshold k w = (Ok all_duplicates, w) /\
    -1 ∈ all_duplicates /\
    find_duplicates request_id threshold k w = (Ok (Duplicates request_id names), w) /\
    None ∈ names.
Proof.
  intros Hwf Hl Hk Hthr. destruct (wf_range _ _ _ _ Hwf Hl) as (Hs & Hse & He).
  pose proof (len_nonneg (vectors (vector_db w))) as HN.
  destruct (find_duplicates_ok request_id threshold k w s e Hwf Hl) as (res & Hset & Hres & Hrun);
    [lia|].
  assert (-1 ∈ res) as Hin.
  { apply Hres. exists s, FLT_MAX. split; [lia|]. split; [|split; [lia|done]].
    unfold nearest_neighbours. apply search_row_padded.
    rewrite (wf_xb _ Hwf), length_fmap. unfold Py.len in Hk. lia. }
  assert (res <> ∅) as Hne by (intros ->; set_solver).
  eexists res, _. split; [done|]. split; [done|].
  rewrite Hrun. destruct (decide (res = ∅)) as [|_]; [done|]. split; [done|].
  apply list_elem_of_fmap. exists (-1). split; [|by apply elem_of_elements].
  destruct (decide (0 <= -1 < Py.len (vectors (vector_db w)))); [lia|done].
Qed.

(** X18. With [k <= 0] the duplicate query for a registered request fails
    inside the search, where FAISS asserts [k > 0]; the handler turns the
    assertion into the server error 500 "Error during search: ..." and the
    state is unchanged. *)
Theorem non_positive_k_is_server_error
    (request_id : string) (threshold : float) (k : Z) (w : World) (s e : Z) :
  wf (vector_db w) -> request_map (vector_db w) !! request_id = Some (s, e) -> k <= 0 ->
  search_duplicates request_id k (vector_db w) = (Raise AssertionError, vector_db w) /\
  find_duplicates request_id threshold k w
    = (Raise (HTTPException 500 ("Error during search: " +:+ str_exn AssertionError)), w).
Proof.
  intros Hwf Hl Hk.
  pose proof (search_duplicates_non_positive request_id k (vector_db w) s e Hwf Hl Hk)
    as Hsearch.
  split; [done|]. by eapply find_duplicates_search_raises.
Qed.

(** X22. A search returns the closest rows, whatever [k] is.  The hits of
    a row of the result are stored rows at a distance less than [FLT_MAX],
    no stored row twice, in ascending order of distance; and a stored row
    at such a distance is left out only when the result is full, all [k]
    slots holding hits, none of which is further away than the row that
    was left out.  (The order of the distances below [FLT_MAX] is
    assumed.) *)
Theorem search_returns_closest (ix : IndexFlatL2) (q : list float) (k : nat) :
  distances_ordered ->
  exists hits : list hit,
    search_row ix q k = (hits ++ replicate (k - length hits) (-1, FLT_MAX))%list /\
    NoDup hits.*1 /\
    (forall j dd, (j, dd) ∈ hits ->
       exists x, 0 <= j /\ xb ix !! Z.to_nat j = Some x /\ dd = fvec_L2sqr q x /\
                 float_ltb dd FLT_MAX = true) /\
    ascending hits /\
    (forall (j : nat) x,
       xb ix !! j = Some x -> float_ltb (fvec_L2sqr q x) FLT_MAX = true ->
       Z.of_nat j ∉ hits.*1 ->
       length hits = k /\
       forall h : hit, h ∈ hits -> float_ltb (fvec_L2sqr q x) h.2 = false).
Proof.
  intros Hord. set (ranked := rank_hits (kept_hits ix q)).
  assert (StronglySorted (fun h1 h2 : hit => float_ltb h2.2 h1.2 = false) ranked) as Hsorted
    by (apply rank_hits_sorted; [done|apply kept_hits_finite]).
  exists (take k ranked). split; [done|]. split; [|split; [|split]].
  - eapply sublist_NoDup; [|apply fmap_sublist, sublist_take].
    unfold ranked. rewrite rank_hits_perm. apply kept_hits_NoDup.
  - intros j dd (n & Hn & _)%elem_of_take. apply list_elem_of_lookup_2 in Hn.
    unfold ranked in Hn. rewrite rank_hits_perm in Hn. by apply elem_of_kept_hits.
  - by apply ascending_take, StronglySorted_ascending.
  - intros j x Hx Hfin Hout.
    assert ((Z.of_nat j, fvec_L2sqr q x) ∈ ranked) as Hin.
    { unfold ranked. rewrite rank_hits_perm. apply elem_of_kept_hits.
      exists x. rewrite Nat2Z.id. repeat split; try done. lia. }
    rewrite <- (take_drop k ranked) in Hin, Hsorted.
    apply elem_of_app in Hin as [Hin|Hin].
    { exfalso. apply Hout. apply list_elem_of_fmap. by exists (Z.of_nat j, fvec_L2sqr q x). }
    split.
    + rewrite length_take. assert (k < length ranked)%nat; [|lia].
      destruct (decide (k < length ranked)%nat) as [|Hge]; [done|].
      rewrite drop_ge in Hin by lia. by apply elem_of_nil in Hin.
    + intros h Hh.
      exact (StronglySorted_app_1_elem_of _ _ _ h (Z.of_nat j, fvec_L2sqr q x) Hsorted Hh Hin).
Qed.

End QueryProperties.

(** * Further properties of the ingestion *)

Section IngestionProperties.
Context `{Ext : Externals}.

Lemma for_each_Forall2 {S A B} (R : A -> B -> Prop) (xs : list A) (body : A -> M S B)
    (acc res : list B) (s s' : S) :
  (forall x s b s', body x s = (Ok b, s') -> R x b) ->
  for_each xs body acc s = (Ok res, s') ->
  exists bs, res = (acc ++ bs)%list /\ Forall2 R xs bs.
Proof.
  intros HR. revert acc s. induction xs as [|x xs IH]; intros acc s; cbn.
  - intros [= <- _]. exists []. by rewrite app_nil_r.
  - unfold bind. destruct (body x s) as [[b|e] s1] eqn:Hx; [|done].
    intros (bs & -> & Hbs)%IH. exists (b :: bs). rewrite <- app_assoc. split; [done|].
    constructor; [by eapply HR|done].
Qed.

Lemma add_file_ok (file : UploadFile) (w w' : World) (v : list float) :
  add_file file w = (Ok v, w') -> embeds_file file v.
Proof.
  unfold add_file. destruct (allowed_file_type _) eqn:Hty; [|done]. cbn.
  intros (Hv & Hlen & _)%process_image_ok_logs. done.
Qed.

Lemma add_base64_ok (image_b64 : value) (w w' : World) (v : list float) :
  add_base64 image_b64 w = (Ok v, w') -> embeds_base64 image_b64 v.
Proof.
  unfold add_base64. monad_unfold. destruct (b64decode image_b64) as [bs|e0] eqn:Hd; cbn; [|done].
  destruct (process_image bs w) as [[v1|e1] w1] eqn:Hp; [|done].
  intros [= <- _]. apply process_image_ok_logs in Hp as (Hv & Hlen & _). by exists bs.
Qed.

Lemma add_url_ok (image_url : value) (w w' : World) (v : list float) :
  add_url image_url w = (Ok v, w') -> embeds_url image_url v.
Proof.
  unfold add_url. monad_unfold. destruct (requests_get image_url) as [resp|e0] eqn:Hg; cbn.
  - destruct (Z.eqb_spec (response_status_code resp) 200) as [Hst|?]; cbn; [|done].
    destruct (response_content resp) as [|b bs] eqn:Hc; cbn; [done|].
    destruct (process_image (b :: bs) w) as [[v1|e1] w1] eqn:Hp.
    + intros [= <- _]. apply process_image_ok_logs in Hp as (Hv & Hlen & _).
      exists resp. rewrite Hc. done.
    + by destruct (is_RequestException e1).
  - by destruct (is_RequestException e0).
Qed.

(** X19. [process_image] in full: an image of more than 10 MiB is refused
    with 400 "Image size exceeds 10 MB" and the embedding model is not
    called; an image of at most 10 MiB (the limit is inclusive) is given
    to the model once, and the call returns the model's vector, or turns
    the model's exception into 500 "Error processing image: ...".  No
    other exception leaves [process_image]. *)
Theorem process_image_outcomes (image_bytes : bytes) (w : World) :
  (10 * 1024 * 1024 < Py.len image_bytes ->
   process_image image_bytes w = (Raise (HTTPException 400 "Image size exceeds 10 MB"), w)) /\
  (Py.len image_bytes <= 10 * 1024 * 1024 ->
   process_image image_bytes w =
     (match image_to_vector image_bytes with
      | Ok v => Ok v
      | Raise e => Raise (HTTPException 500 ("Error processing image: " +:+ str_exn e))
      end,
      {| vector_db := vector_db w; embedded := embedded w ++ [image_bytes] |})) /\
  (forall e w', process_image image_bytes w = (Raise e, w') -> is_http_400_or_500 e).
Proof.
  split; [apply process_image_too_large|]. split; [|intros e w'; apply process_image_raises].
  intros Hsmall. unfold process_image, call_image_to_vector. monad_unfold.
  destruct (Z.ltb_spec (10 * 1024 * 1024) (Py.len image_bytes)); [lia|].
  by destruct (image_to_vector image_bytes).
Qed.

(** X20. The JSON body counts only when the [Content-Type] header is
    exactly ["application/json"] and the body can be read: otherwise
    [data] is [None], its base64 images and URLs are ignored, and a
    request without uploaded files is answered with 400 "No valid images
    provided". *)
Theorem json_body_needs_exact_content_type
    (request_id : string) (request : Request) (files : option (list UploadFile)) (w : World) :
  header_content_type request <> Some "application/json" \/
    (exists e, request_json request = Raise e) ->
  request_data request = JNone /\
  (submitted_files files = [] ->
   add_images request_id request files w
     = (Raise (HTTPException 400 "No valid images provided"), w)).
Proof.
  intros Hbody.
  assert (request_data request = JNone) as Hdata.
  { unfold request_data. destruct (header_content_type request) as [ct|]; [|done].
    destruct (String.eqb_spec ct "application/json") as [->|_]; [|done].
    destruct Hbody as [?|[e ->]]; done. }
  split; [done|]. intros Hfiles.
  rewrite add_images_collect. unfold bind at 1. rewrite collect_vectors_eq.
  unfold base64_items, url_items. rewrite Hdata, Hfiles. reflexivity.
Qed.

(** X21. A successful [/images] request appends the embeddings of the
    submitted images in the order of submission: first the uploaded
    files, then the base64 images, then the URLs; each vector is what the
    embedding model returned for the bytes of that image, and every image
    passed the checks of its loop (content type, download status,
    non-empty body, size limit). *)
Theorem add_images_appends_embeddings_in_order
    (request_id : string) (request : Request) (files : option (list UploadFile))
    (w w' : World) (resp : AddImagesResponse) :
  add_images request_id request files w = (Ok resp, w') ->
  exists v_files v_base64 v_urls,
    vectors (vector_db w') = (vectors (vector_db w) ++ v_files ++ v_base64 ++ v_urls)%list /\
    Forall2 embeds_file (submitted_files files) v_files /\
    Forall2 embeds_base64 (submitted_base64 request) v_base64 /\
    Forall2 embeds_url (submitted_urls request) v_urls.
Proof.
  intros (vecs & w1 & Hcol & _ & _ & Hdb & _ & _)%add_images_ok_inv.
  apply collect_vectors_ok_inv in Hcol
    as (v1 & s1 & images & v2 & s2 & urls & H1 & _ & <- & H2 & _ & <- & H3).
  apply (for_each_Forall2 embeds_file) in H1 as (b1 & -> & F1);
    [|intros ? ? ? ?; apply add_file_ok].
  apply (for_each_Forall2 embeds_base64) in H2 as (b2 & -> & F2);
    [|intros ? ? ? ?; apply add_base64_ok].
  apply (for_each_Forall2 embeds_url) in H3 as (b3 & -> & F3);
    [|intros ? ? ? ?; apply add_url_ok].
  exists b1, b2, b3. rewrite Hdb. cbn. by rewrite <- !app_assoc.
Qed.

End IngestionProperties.

(** * Runs of the further properties *)

Section MoreRuns.
Import Concrete Samples.

Lemma reachable_db_pair : reachable 2 db_pair.
Proof. exact (reach_add 2 db0 "a" [[1; 2]; [1; 2]] (reach_init 2)). Qed.

Lemma reachable_db_two : reachable 2 db_two.
Proof.
  exact (reach_add 2 db_one "b" [[3; 4]] (reach_add 2 db0 "a" [[1; 2]] (reach_init 2))).
Qed.

Lemma sample_run : add_images "r" sample_request sample_files w0 = (Ok sample_response, w_sample).
Proof. reflexivity. Qed.

(** The store with the request ["a"] of two vectors. *)
Lemma reachable_store_consistent_witness :
  reachable 2 db_pair /\ ntotal (index db_pair) = Py.len (vectors db_pair) /\
  Py.len (image_names db_pair) = Py.len (vectors db_pair).
Proof.
  destruct (reachable_store_consistent (Ext:=ext) 2 db_pair reachable_db_pair)
    as (_ & _ & Hix & Hnames & _).
  split; [exact reachable_db_pair|]. split; [exact Hix|exact Hnames].
Defined.

(** A batch of one vector of length 2 and the empty batch, on [db0]. *)
Lemma add_vectors_succeeds_iff_witness :
  d (index db0) = dim db0 /\
  (fst (add_vectors "a" [[1; 2]] db0) = Ok tt <->
   [[1; 2]] <> [] /\ Forall (fun v : list Z => Py.len v = dim db0) [[1; 2]]).
Proof.
  split; [reflexivity|].
  exact (proj1 (add_vectors_succeeds_iff (Ext:=ext) "a" [[1; 2]] db0 eq_refl)).
Defined.

(** The vector of the request ["a"] stays at index 0 when ["b"] is added. *)
Lemma add_vectors_append_only_witness :
  vectors db_one !! 0%nat = Some [1; 2] /\ vectors db_two !! 0%nat = Some [1; 2].
Proof.
  split; [reflexivity|].
  exact (proj1 (add_vectors_append_only (Ext:=ext) "b" [[3; 4]] db_one) 0%nat [1; 2] eq_refl).
Defined.

(** The two requests of [db_two]. *)
Lemma reachable_ranges_disjoint_witness :
  reachable 2 db_two /\ ((0, 1).2 <= (1, 2).1 \/ (1, 2).2 <= (0, 1).1).
Proof.
  split; [exact reachable_db_two|].
  apply (reachable_ranges_disjoint (Ext:=ext) 2 db_two reachable_db_two "a" "b" (0, 1) (1, 2));
    [discriminate|reflexivity|reflexivity].
Defined.

Lemma reachable_names_distinct_witness : reachable 2 db_pair /\ NoDup (image_names db_pair).
Proof.
  split; [exact reachable_db_pair|].
  exact (reachable_names_distinct (Ext:=ext) 2 db_pair reachable_db_pair).
Defined.

Lemma reset_restores_initial_witness :
  reachable 2 db_pair /\ reset db_pair = (Ok tt, VectorDB_init 2).
Proof.
  split; [exact reachable_db_pair|].
  exact (reset_restores_initial (Ext:=ext) 2 db_pair reachable_db_pair).
Defined.

(** A request with a file of an unsupported type, on the store [db_pair]. *)
Lemma add_images_failure_keeps_store_witness :
  fst (add_images "r" multipart_request (Some [gif_file]) w_pair)
    = Raise (HTTPException 400 "Unsupported file type: image/gif") /\
  vector_db (snd (add_images "r" multipart_request (Some [gif_file]) w_pair)) = db_pair.
Proof.
  assert (fst (add_images "r" multipart_request (Some [gif_file]) w_pair)
          = Raise (HTTPException 400 "Unsupported file type: image/gif")) as Hfail
    by reflexivity.
  split; [exact Hfail|].
  exact (add_images_failure_keeps_store (Ext:=ext) "r" multipart_request (Some [gif_file])
           w_pair _ Hfail).
Defined.

(** The sample request: one file, one base64 image, one URL. *)
Lemma add_images_embeds_every_image_witness :
  add_images "r" sample_request sample_files w0 = (Ok sample_response, w_sample) /\
  added_images sample_response = image_count sample_request sample_files /\
  Py.len (embedded w_sample) = Py.len (embedded w0) + added_images sample_response.
Proof.
  destruct (add_images_embeds_every_image (Ext:=ext) "r" sample_request sample_files
              w0 w_sample sample_response sample_run) as (Hn & _ & _ & _ & Hlog).
  split; [exact sample_run|]. split; [exact Hn|exact Hlog].
Defined.

(** A multipart request without files, and a JSON body whose key
    ["base64_images"] holds [null]. *)
Lemma add_images_without_images_witness :
  submitted_files (@None (list UploadFile)) = [] /\
  add_images "r" multipart_request None w0
    = (Raise (HTTPException 400 "No valid images provided"), w0) /\
  exists msg, add_images "r" null_images_request None w0 = (Raise (TypeError msg), w0).
Proof.
  split; [reflexivity|]. split.
  - exact (proj1 (add_images_without_images (Ext:=ext) "r" multipart_request None w0 eq_refl)
             eq_refl eq_refl).
  - exact (proj1 (proj2 (proj2 (proj2 (proj2
             (add_images_without_images (Ext:=ext) "r" null_images_request None w0 eq_refl)))))
             [("base64_images", JNone)] JNone eq_refl eq_refl I).
Defined.

(** A GIF file after a JPEG file. *)
Lemma add_images_rejects_bad_file_witness :
  gif_file ∈ [jpeg_file; gif_file] /\
  allowed_file_type (file_content_type gif_file) = false /\
  exists status detail w',
    add_images "r" multipart_request (Some [jpeg_file; gif_file]) w0
      = (Raise (HTTPException status detail), w') /\
    (status = 400 \/ status = 500) /\ vector_db w' = vector_db w0.
Proof.
  assert (gif_file ∈ [jpeg_file; gif_file]) as Hin
    by (apply list_elem_of_further, list_elem_of_here).
  split; [exact Hin|]. split; [reflexivity|].
  exact (add_images_rejects_bad_file (Ext:=ext) "r" multipart_request [jpeg_file; gif_file]
           gif_file w0 Hin (or_introl eq_refl)).
Defined.

(** The three URLs of the instance [Faulty] that cannot be downloaded. *)
Lemma url_download_failures_witness :
  add_images "r" (Faulty.url_request ["http://down"]) None Faulty.w0
    = (Raise (HTTPException 500 "Error processing image from URL: timed out"), Faulty.w0) /\
  add_images "r" (Faulty.url_request ["http://missing"]) None Faulty.w0
    = (Raise (HTTPException 400
                "Failed to download image from URL: http://missing (Status code: 404)"),
       Faulty.w0) /\
  add_images "r" (Faulty.url_request ["http://empty"]) None Faulty.w0
    = (Raise (HTTPException 400 "Downloaded image is empty from URL: http://empty"),
       Faulty.w0).
Proof.
  split; [|split].
  - exact (proj1 (url_download_failures (Ext:=Faulty.ext) "r"
                    (Faulty.url_request ["http://down"]) None (JStr "http://down") []
                    Faulty.w0 eq_refl eq_refl eq_refl) "timed out" eq_refl).
  - refine (proj1 (proj2 (url_download_failures (Ext:=Faulty.ext) "r"
                    (Faulty.url_request ["http://missing"]) None (JStr "http://missing") []
                    Faulty.w0 eq_refl eq_refl eq_refl)) _ eq_refl _).
    cbn. discriminate.
  - exact (proj1 (proj2 (proj2 (url_download_failures (Ext:=Faulty.ext) "r"
                    (Faulty.url_request ["http://empty"]) None (JStr "http://empty") []
                    Faulty.w0 eq_refl eq_refl eq_refl))) _ eq_refl eq_refl eq_refl).
Defined.


(** The request ["a"] of [db_pair], queried with k = 2. *)
Lemma search_duplicates_shape_witness :
  wf db_pair /\ request_map db_pair !! "a" = Some (0, 2) /\
  exists duplicates,
    search_duplicates "a" 2 db_pair = (Ok duplicates, db_pair) /\
    Py.len duplicates = 2 - 0.
Proof.
  destruct (search_duplicates_shape (Ext:=ext) "a" 2 db_pair 0 2 wf_db_pair eq_refl eq_refl)
    as (dups & Hrun & Hlen & _).
  split; [exact wf_db_pair|]. split; [reflexivity|]. exists dups. split; [exact Hrun|exact Hlen].
Defined.

(** The sample request, then the query for its request id. *)
Lemma ingest_then_query_finds_request_witness :
  wf (vector_db w0) /\
  add_images "r" sample_request sample_files w0 = (Ok sample_response, w_sample) /\
  request_map (vector_db w_sample) !! "r"
    = Some (Py.len (vectors (vector_db w0)),
            Py.len (vectors (vector_db w0)) + added_images sample_response).
Proof.
  destruct (ingest_then_query_finds_request (Ext:=ext) "r" sample_request sample_files
              w0 w_sample sample_response 0 3 wf_db0 sample_run) as (_ & Hl & _).
  split; [exact wf_db0|]. split; [exact sample_run|exact Hl].
Defined.

(** The query on [db_pair] with k = 2 and the threshold 0: the index 1 of
    its result set. *)
Lemma duplicates_are_stored_images_witness :
  wf (vector_db w_pair) /\ float_leb FLT_MAX 0 = false /\
  duplicate_set "a" 0 2 w_pair = (Ok {[0; 1]}, w_pair) /\
  0 <= 1 < Py.len (vectors (vector_db w_pair)).
Proof.
  assert (duplicate_set "a" 0 2 w_pair = (Ok {[0; 1]}, w_pair)) as Hset by reflexivity.
  split; [exact wf_db_pair|]. split; [reflexivity|]. split; [exact Hset|].
  apply (proj1 (duplicates_are_stored_images (Ext:=ext) "a" 0 2 w_pair wf_db_pair eq_refl)
           {[0; 1]} w_pair Hset 1).
  apply elem_of_union_r, elem_of_singleton. reflexivity.
Defined.

(** The query on [db_pair] with k = 3 and the threshold [FLT_MAX]. *)
Lemma padding_is_reported_with_large_threshold_witness :
  Py.len (vectors (vector_db w_pair)) < 3 /\ float_leb FLT_MAX flt_max = true /\
  exists all_duplicates names,
    duplicate_set "a" flt_max 3 w_pair = (Ok all_duplicates, w_pair) /\
    -1 ∈ all_duplicates /\
    find_duplicates "a" flt_max 3 w_pair = (Ok (Duplicates "a" names), w_pair) /\
    None ∈ names.
Proof.
  assert (Py.len (vectors (vector_db w_pair)) < 3) as Hk by (lazy -[Z.le Z.lt not]; lia).
  split; [exact Hk|]. split; [reflexivity|].
  exact (padding_is_reported_with_large_threshold (Ext:=ext) "a" flt_max 3 w_pair 0 2
           wf_db_pair eq_refl Hk eq_refl).
Defined.

(** The query on [db_pair] with k = 0. *)
Lemma non_positive_k_is_server_error_witness :
  find_duplicates "a" 1 0 w_pair
    = (Raise (HTTPException 500 "Error during search: "), w_pair).
Proof.
  exact (proj2 (non_positive_k_is_server_error (Ext:=ext) "a" 1 0 w_pair 0 2
                  wf_db_pair eq_refl ltac:(lia))).
Defined.

(** The body of [charset_request] holds a base64 image, and is ignored. *)
Lemma json_body_needs_exact_content_type_witness :
  header_content_type charset_request <> Some "application/json" /\
  add_images "r" charset_request None w0
    = (Raise (HTTPException 400 "No valid images provided"), w0).
Proof.
  assert (header_content_type charset_request <> Some "application/json") as Hct
    by discriminate.
  split; [exact Hct|].
  exact (proj2 (json_body_needs_exact_content_type (Ext:=ext) "r" charset_request None w0
                  (or_introl Hct)) eq_refl).
Defined.

(** The sample request: the three vectors are the bytes of the three
    images, in the order file, base64 image, URL. *)
Lemma add_images_appends_embeddings_in_order_witness :
  add_images "r" sample_request sample_files w0 = (Ok sample_response, w_sample) /\
  vectors (vector_db w_sample) = [[97; 98]; [99; 100]; [101; 102]] /\
  exists v_files v_base64 v_urls,
    vectors (vector_db w_sample) = (vectors (vector_db w0) ++ v_files ++ v_base64 ++ v_urls)%list /\
    Forall2 embeds_file (submitted_files sample_files) v_files /\
    Forall2 embeds_base64 (submitted_base64 sample_request) v_base64 /\
    Forall2 embeds_url (submitted_urls sample_request) v_urls.
Proof.
  split; [exact sample_run|]. split; [reflexivity|].
  exact (add_images_appends_embeddings_in_order (Ext:=ext) "r" sample_request sample_files
           w0 w_sample sample_response sample_run).
Defined.

(** The query with k = 1 for the first row of [db_two]: the second row is
    left out, at the distance 8. *)
Lemma search_returns_closest_witness :
  distances_ordered /\
  search_row (index db_two) [1; 2] 1 = [(0, 0)] /\
  exists hits : list hit,
    search_row (index db_two) [1; 2] 1
      = (hits ++ replicate (1 - length hits) (-1, flt_max))%list /\
    ascending hits.
Proof.
  destruct (search_returns_closest (Ext:=ext) (index db_two) [1; 2] 1 integers_ordered)
    as (hits & Hrow & _ & _ & Hasc & _).
  split; [exact integers_ordered|]. split; [reflexivity|].
  exists hits. split; [exact Hrow|exact Hasc].
Defined.

(** A PNG file is accepted as a JPEG file is; a file without a content
    type is refused. *)
Lemma content_types :
  fst (add_images "r" multipart_request (Some [png_file]) w0)
    = Ok {| resp_request_id := "r"; added_images := 1; system_image_names := ["image_1"] |} /\
  fst (add_images "r" multipart_request
         (Some [{| file_content_type := None; file_read := list_byte_of_string "gh" |}]) w0)
    = Raise (HTTPException 400 "Unsupported file type: None").
Proof. split; reflexivity. Qed.

(** What the loops of [add_images] go through for bodies of every shape:
    falsy bodies, bodies that are no containers, texts and lists in the
    place of the object, and an object whose key holds a list, a text, an
    object or [None], or comes twice. *)
Lemma body_shapes :
  loop_items JNone "base64_images" = Ok [] /\
  loop_items (JBool false) "base64_images" = Ok [] /\
  loop_items (JInt 0) "base64_images" = Ok [] /\
  loop_items (JFloat 0) "base64_images" = Ok [] /\
  loop_items (JStr EmptyString) "base64_images" = Ok [] /\
  loop_items (JList []) "base64_images" = Ok [] /\
  loop_items (JDict []) "base64_images" = Ok [] /\
  loop_items (JBool true) "base64_images"
    = Raise (TypeError "argument of type 'bool' is not iterable") /\
  loop_items (JInt 5) "base64_images"
    = Raise (TypeError "argument of type 'int' is not iterable") /\
  loop_items (JFloat 5) "base64_images"
    = Raise (TypeError "argument of type 'float' is not iterable") /\
  loop_items (JStr "hello") "base64_images" = Ok [] /\
  loop_items (JStr "my base64_images") "base64_images"
    = Raise (TypeError "string indices must be integers, not 'str'") /\
  loop_items (JList [JInt 1; JStr "image_urls"]) "base64_images" = Ok [] /\
  loop_items (JList [JInt 1; JStr "base64_images"]) "base64_images"
    = Raise (TypeError "list indices must be integers or slices, not str") /\
  loop_items (JDict [("image_urls", JList [JStr "u"])]) "base64_images" = Ok [] /\
  loop_items (JDict [("image_urls", JList [JStr "u"])]) "image_urls" = Ok [JStr "u"] /\
  loop_items (JDict [("base64_images", JList [JStr "a"; JInt 1])]) "base64_images"
    = Ok [JStr "a"; JInt 1] /\
  loop_items (JDict [("base64_images", JStr "ab")]) "base64_images"
    = Ok [JStr "a"; JStr "b"] /\
  loop_items (JDict [("base64_images",
                      JDict [("x", JInt 1); ("y", JInt 2); ("x", JInt 3)])]) "base64_images"
    = Ok [JStr "x"; JStr "y"] /\
  loop_items (JDict [("base64_images", JList [JStr "a"]);
                     ("base64_images", JList [JStr "b"])]) "base64_images"
    = Ok [JStr "b"] /\
  loop_items (JDict [("base64_images", JNone)]) "base64_images"
    = Raise (TypeError "'NoneType' object is not iterable").
Proof. repeat split; reflexivity. Qed.

End MoreRuns.
